(** * SaaS funnel dashboard: the metrics engines of [data_processing.py]

    A shallow embedding of the six metric engines and of the runners,
    together with the properties the specification states about them.

    Conventions of the embedding.
    - pandas [int64] values are [Z]; [float64] values are exact rationals
      extended with the IEEE infinities and NaN ([float64] below).  Rounding
      to two decimals is done on the exact rational (ties to even); binary
      representation error is not modelled.
    - A [datetime64] value is the number of nanoseconds since the Unix epoch.
    - [datetime.utcnow()] is an explicit argument [now].
    - A table is a list of typed rows; ids and dates are present in every
      row, [plan_id] and [source_id] may be missing ([None]): what pandas
      does on a missing date (NaT) is not modelled.
    - Integer overflow, dates outside the range of [datetime] (the
      [OverflowError] of [now - timedelta(weeks=weeks)] for a window of some
      hundred thousand weeks) and time zones are not modelled. *)

From Stdlib Require Import ZArith QArith Qround Lia Ascii.
From stdpp Require Import base tactics option list strings sorting gmap.

Local Open Scope Z_scope.

(** ** float64 arithmetic *)

Inductive float64 : Type :=
  | Finite (q : Q)
  | PosInf
  | NegInf
  | NaN.

Module F64.

Definition of_int (z : Z) : float64 := Finite (inject_Z z).

Definition sign_mul (a b : comparison) : comparison :=
  match a, b with
  | Eq, _ | _, Eq => Eq
  | Lt, Lt | Gt, Gt => Gt
  | _, _ => Lt
  end.

Definition inf_of_sign (c : comparison) : float64 :=
  match c with Gt => PosInf | Lt => NegInf | Eq => NaN end.

Definition sign (x : float64) : comparison :=
  match x with
  | Finite q => Qcompare q 0
  | PosInf => Gt
  | NegInf => Lt
  | NaN => Eq
  end.

Definition neg (x : float64) : float64 :=
  match x with
  | Finite q => Finite (Qred (- q))
  | PosInf => NegInf
  | NegInf => PosInf
  | NaN => NaN
  end.

Definition add (x y : float64) : float64 :=
  match x, y with
  | NaN, _ | _, NaN => NaN
  | Finite a, Finite b => Finite (Qred (a + b))
  | PosInf, NegInf | NegInf, PosInf => NaN
  | PosInf, _ | _, PosInf => PosInf
  | NegInf, _ | _, NegInf => NegInf
  end.

Definition sub (x y : float64) : float64 := add x (neg y).

Definition mul (x y : float64) : float64 :=
  match x, y with
  | NaN, _ | _, NaN => NaN
  | Finite a, Finite b => Finite (Qred (a * b))
  | _, _ => inf_of_sign (sign_mul (sign x) (sign y))
  end.

(** numpy true division: [x/0] is an infinity of the sign of [x], [0/0] is NaN. *)
Definition div (x y : float64) : float64 :=
  match x, y with
  | NaN, _ | _, NaN => NaN
  | Finite a, Finite b =>
      if Qeq_bool b 0 then inf_of_sign (Qcompare a 0) else Finite (Qred (a / b))
  | Finite _, _ => Finite 0
  | _, Finite b =>
      if Qeq_bool b 0 then x else inf_of_sign (sign_mul (sign x) (Qcompare b 0))
  | _, _ => NaN
  end.

(** [x != y] on floats: NaN differs from everything. *)
Definition neb (x y : float64) : bool :=
  match x, y with
  | Finite a, Finite b => negb (Qeq_bool a b)
  | PosInf, PosInf | NegInf, NegInf => false
  | _, _ => true
  end.

Definition isna (x : float64) : bool :=
  match x with NaN => true | _ => false end.

(** Nearest integer, ties to even. *)
Definition round_half_even (q : Q) : Z :=
  let fl := Qfloor q in
  match Qcompare (q - inject_Z fl) (1 # 2) with
  | Lt => fl
  | Gt => fl + 1
  | Eq => if Z.even fl then fl else fl + 1
  end.

Definition round2_Q (q : Q) : Q := Qred (round_half_even (q * 100) # 100).

(** [round(x, 2)] and [Series.round(2)]; infinities and NaN are kept. *)
Definition round2 (x : float64) : float64 :=
  match x with
  | Finite q => Finite (round2_Q q)
  | _ => x
  end.

End F64.

(** [Series.fillna(v)] on a float column. *)
Definition fillna (v : float64) (col : list float64) : list float64 :=
  (λ x, if F64.isna x then v else x) <$> col.

(** ** Timestamps, weeks and months *)

Abbreviation Timestamp := Z (only parsing).

Definition ns_per_day : Z := 86400000000000.

(** [timedelta(days=d)] and [timedelta(weeks=w)] *)
Definition timedelta_days (d : Z) : Z := d * ns_per_day.
Definition timedelta_weeks (w : Z) : Z := timedelta_days (7 * w).

(** [Timedelta.days]: whole days, rounded towards minus infinity. *)
Definition td_days (delta : Z) : Z := delta / ns_per_day.

(** Day number of a timestamp; day 0 is Thursday 1970-01-01. *)
Definition day_number (t : Timestamp) : Z := t / ns_per_day.

(** [t.to_period('W').start_time]: Monday 00:00 of the week of [t]. *)
Definition week_start (t : Timestamp) : Timestamp :=
  let d := day_number t in (d - (d + 3) mod 7) * ns_per_day.

(** Day of the month (1..31) of a day number, proleptic Gregorian calendar. *)
Definition day_of_month (d : Z) : Z :=
  let z := d + 719468 in
  let era := z / 146097 in
  let doe := z - era * 146097 in
  let yoe := (doe - doe / 1460 + doe / 36524 - doe / 146096) / 365 in
  let doy := doe - (365 * yoe + yoe / 4 - yoe / 100) in
  let mp := (5 * doy + 2) / 153 in
  doy - (153 * mp + 2) / 5 + 1.

(** [t.to_period('M').start_time]: 00:00 of the first day of the month of [t]. *)
Definition month_start (t : Timestamp) : Timestamp :=
  let d := day_number t in (d - (day_of_month d - 1)) * ns_per_day.

(** Day number of a civil date. *)
Definition days_from_civil (y m d : Z) : Z :=
  let y' := if bool_decide (m ≤ 2) then y - 1 else y in
  let era := y' / 400 in
  let yoe := y' - era * 400 in
  let mp := if bool_decide (m ≤ 2) then m + 9 else m - 3 in
  let doy := (153 * mp + 2) / 5 + d - 1 in
  let doe := yoe * 365 + yoe / 4 - yoe / 100 + doy in
  era * 146097 + doe - 719468.

(** Midnight of a civil date as a timestamp. *)
Definition date (y m d : Z) : Timestamp := days_from_civil y m d * ns_per_day.

(** ** pandas primitives on lists *)

Section Pandas.
Context {A : Type}.

(** [Series.unique()]: distinct values in order of first appearance. *)
Fixpoint unique_from `{EqDecision A} (seen l : list A) : list A :=
  match l with
  | [] => []
  | x :: l' =>
      if decide (x ∈ seen) then unique_from seen l'
      else x :: unique_from (x :: seen) l'
  end.

Definition unique `{EqDecision A} (l : list A) : list A := unique_from [] l.

(** [Series.nunique()] *)
Definition nunique `{EqDecision A} (l : list A) : Z := Z.of_nat (length (unique l)).

(** Label lookup in a series given as (label, value) pairs. *)
Fixpoint series_get {V} `{EqDecision A} (k : A) (s : list (A * V)) : option V :=
  match s with
  | [] => None
  | (k', v) :: s' => if decide (k = k') then Some v else series_get k s'
  end.

(** [Series.reindex(idx)]: labels absent from the series give NaN ([None]). *)
Definition reindex {V} `{EqDecision A} (idx : list A) (s : list (A * V)) : list (option V) :=
  (λ k, series_get k s) <$> idx.

End Pandas.

(** [df.groupby(key)]: the rows of each distinct key, keys sorted; rows whose
    key is NaN ([None]) belong to no group. *)
Definition groupby {A K} `{EqDecision K} (R : relation K) `{!RelDecision R}
    (key : A → option K) (rows : list A) : list (K * list A) :=
  (λ k, (k, filter (λ r, key r = Some k) rows))
    <$> merge_sort R (unique (omap key rows)).

(** [df.groupby(key)[val].nunique()] *)
Definition groupby_nunique {A K V} `{EqDecision K, EqDecision V}
    (R : relation K) `{!RelDecision R}
    (key : A → K) (val : A → V) (rows : list A) : list (K * Z) :=
  (λ g : K * list A, (g.1, nunique (val <$> g.2))) <$> groupby R (Some ∘ key) rows.

(** [Series.pct_change()] on an integer column: [x[i] / x[i-1] - 1], NaN first. *)
Fixpoint pct_change_from (prev : Z) (l : list Z) : list float64 :=
  match l with
  | [] => []
  | x :: l' =>
      F64.sub (F64.div (F64.of_int x) (F64.of_int prev)) (Finite 1)
        :: pct_change_from x l'
  end.

Definition pct_change (l : list Z) : list float64 :=
  match l with
  | [] => []
  | x :: l' => NaN :: pct_change_from x l'
  end.

(** ** Data model *)

Module User.
Record t := mk
  { user_id : Z; signup_date : Timestamp; plan_id : option Z; source_id : option Z }.
End User.

Module Event.
Record t := mk { user_id : Z; event_type : string; event_date : Timestamp }.
End Event.

Module Plan.
Record t := mk { plan_id : Z; plan_name : string; price : Q }.
End Plan.

Module Source.
Record t := mk { source_id : Z; source_name : string }.
End Source.

(** ** Funnel metrics *)

Record FunnelTable := mkFunnel
  { stage : list string;
    users : list Z;
    conversion_from_start_pct : list float64;
    conversion_from_prev_pct : list float64;
    drop_off_pct_from_prev : list float64 }.

(** [['visit', 'signup', 'trial', 'paid']], used when [stages] is [None]. *)
Definition default_stages : list string := ["visit"; "signup"; "trial"; "paid"]%string.

(** [compute_funnel(events_df, stages)]: distinct users per stage, reindexed
    on [stages], with the three percentage columns. *)
Definition compute_funnel (events_df : list Event.t) (stages : option (list string))
    : FunnelTable :=
  let stages := default default_stages stages in
  let counts :=
    default 0 <$> reindex stages
      (groupby_nunique String.le Event.event_type Event.user_id events_df) in
  let start := match counts with c :: _ => c | [] => 0 end in
  let denom := if bool_decide (0 < start) then start else 1 in
  let from_start :=
    (λ u, F64.round2 (F64.mul (F64.div (F64.of_int u) (F64.of_int denom)) (Finite 100)))
      <$> counts in
  let from_prev :=
    (λ x, F64.round2 (if F64.neb x (Finite 1) then F64.mul x (Finite 100) else Finite 100))
      <$> fillna (Finite 1) (pct_change counts) in
  let drop_off := (λ c, F64.round2 (F64.sub (Finite 100) c)) <$> from_prev in
  {| stage := stages;
     users := counts;
     conversion_from_start_pct := from_start;
     conversion_from_prev_pct := from_prev;
     drop_off_pct_from_prev := drop_off |}.

(** ** Joins *)

(** [left.merge(right, how='left')] on a key: every left row in order, once
    per matching right row (in right order), or once with no right row. *)
Definition merge_left {L R K} `{EqDecision K}
    (lkey : L → K) (rkey : R → K) (left : list L) (right : list R)
    : list (L * option R) :=
  l ← left;
  match filter (λ r, rkey r = lkey l) right with
  | [] => [(l, None)]
  | ms => (λ r, (l, Some r)) <$> ms
  end.

(** [left.merge(right, how='inner')] on a key, in the order of the left keys. *)
Definition merge_inner {L R K} `{EqDecision K}
    (lkey : L → K) (rkey : R → K) (left : list L) (right : list R)
    : list (L * R) :=
  l ← left; (λ r, (l, r)) <$> filter (λ r, rkey r = lkey l) right.

(** [Series.sum()] and [Series.mean()] of a float column, NaN cells skipped. *)
Definition sum_Q (l : list Q) : Q := foldr Qplus 0%Q l.

Definition sum_skipna (col : list (option Q)) : float64 :=
  Finite (Qred (sum_Q (omap id col))).

Definition mean_skipna (col : list (option Q)) : float64 :=
  F64.div (sum_skipna col) (F64.of_int (Z.of_nat (length (omap id col)))).

(** ** Revenue metrics *)

Record RevenueSummary := mkRevenue
  { paid_count : Z;
    mrr : float64;
    arpu : float64;
    avg_rev_per_paid_user : float64;
    churn_rate_pct_30d : float64 }.

(** [events_df['event_type'] == 'paid'] *)
Definition is_paid (e : Event.t) : Prop := Event.event_type e = "paid"%string.

#[global] Instance is_paid_dec e : Decision (is_paid e).
Proof. unfold is_paid. apply _. Defined.

(** [users_df[users_df['user_id'].isin(paid_users)].merge(plans_df, on='plan_id', how='left')] *)
Definition revenue_merged
    (users_df : list User.t) (events_df : list Event.t) (plans_df : list Plan.t)
    : list (User.t * option Plan.t) :=
  let paid_users := unique (Event.user_id <$> filter is_paid events_df) in
  merge_left User.plan_id (Some ∘ Plan.plan_id)
    (filter (λ u, User.user_id u ∈ paid_users) users_df) plans_df.

(** [compute_revenue_metrics(users_df, events_df, plans_df, as_of_date)];
    [as_of_date] is [utcnow()] when [None]. *)
Definition compute_revenue_metrics (now : Timestamp)
    (users_df : list User.t) (events_df : list Event.t) (plans_df : list Plan.t)
    (as_of_date : option Timestamp) : RevenueSummary :=
  let as_of_date := default now as_of_date in
  let paid_events := filter is_paid events_df in
  let paid_users := unique (Event.user_id <$> paid_events) in
  let paid_count := Z.of_nat (length paid_users) in
  let merged := revenue_merged users_df events_df plans_df in
  let price := (λ row : User.t * option Plan.t, Plan.price <$> row.2) <$> merged in
  let mrr := sum_skipna price in
  let arpu :=
    if bool_decide (0 < length users_df)%nat
    then F64.div mrr (F64.of_int (Z.of_nat (length users_df)))
    else Finite 0 in
  let avg_rev_per_paid :=
    if bool_decide (0 < length merged)%nat then mean_skipna price else Finite 0 in
  let last_30 := as_of_date - timedelta_days 30 in
  let recent_paid :=
    nunique (Event.user_id <$> filter (λ e, last_30 ≤ Event.event_date e) paid_events) in
  let churn_rate :=
    if bool_decide (0 < paid_count)
    then F64.mul (Finite 100)
           (F64.sub (Finite 1) (F64.div (F64.of_int recent_paid) (F64.of_int paid_count)))
    else Finite 0 in
  {| paid_count := paid_count;
     mrr := F64.round2 mrr;
     arpu := F64.round2 arpu;
     avg_rev_per_paid_user := F64.round2 avg_rev_per_paid;
     churn_rate_pct_30d := F64.round2 churn_rate |}.

(** ** Exceptions *)

Inductive exn : Type :=
  | ValueError (msg : string)
  | KeyError (label : string)
  | IndexError
  | TypeError.

Inductive outcome (A : Type) : Type :=
  | Ok (a : A)
  | Raise (e : exn).
Arguments Ok {A} a.
Arguments Raise {A} e.

#[global] Instance outcome_ret : MRet outcome := λ A a, Ok a.
#[global] Instance outcome_bind : MBind outcome := λ A B f m,
  match m with Ok a => f a | Raise e => Raise e end.
#[global] Instance outcome_fmap : FMap outcome := λ A B f m,
  match m with Ok a => Ok (f a) | Raise e => Raise e end.

(** ** Cohort retention *)

Record CohortRow := mkCohortRow
  { c_user_id : Z;
    c_event_date : Timestamp;
    c_signup_date : Timestamp;
    c_cohort : Timestamp;
    c_period_number : Z }.

(** The retention frame: [columns] are the period numbers, each row is a
    cohort label with one cell per column.  [pd.DataFrame()] has neither. *)
Record CohortMatrix := mkMatrix
  { columns : list Z;
    rows : list (Timestamp * list float64) }.

(** [pd.DataFrame()] *)
Definition empty_matrix : CohortMatrix := mkMatrix [] [].

(** The start of the period of [cohort_by], [None] for an unsupported value. *)
Definition cohort_bucket (cohort_by : string) : option (Timestamp → Timestamp) :=
  if decide (cohort_by = "week"%string) then Some week_start
  else if decide (cohort_by = "month"%string) then Some month_start
  else None.

(** Order of the group keys [(cohort, period_number)]. *)
Definition lex_le (a b : Z * Z) : Prop := a.1 < b.1 ∨ (a.1 = b.1 ∧ a.2 ≤ b.2).

#[global] Instance lex_le_dec : RelDecision lex_le.
Proof. intros a b. unfold lex_le. apply _. Defined.

(** [events[['user_id','event_date']].merge(users[['user_id','signup_date','cohort']],
    on='user_id', how='inner')] followed by the [period_number] column. *)
Definition cohort_merged (bucket : Timestamp → Timestamp)
    (users_df : list User.t) (events_df : list Event.t) : list CohortRow :=
  (λ r : Event.t * User.t,
     let ed := Event.event_date r.1 in
     let sd := User.signup_date r.2 in
     mkCohortRow (Event.user_id r.1) ed sd (bucket sd) (td_days (ed - sd) / 7))
    <$> merge_inner Event.user_id User.user_id events_df users_df.

(** [groupby(['cohort','period_number'])['user_id'].nunique()] pivoted on
    cohort (rows) and period number (columns), missing cells filled with 0. *)
Definition cohort_pivot (merged : list CohortRow) : list Z * list (Timestamp * list Z) :=
  let counts :=
    groupby_nunique lex_le (λ r, (c_cohort r, c_period_number r)) c_user_id merged in
  let index := merge_sort Z.le (unique (c_cohort <$> merged)) in
  let cols := merge_sort Z.le (unique (c_period_number <$> merged)) in
  (cols, (λ c, (c, (λ p, default 0 (series_get (c, p) counts)) <$> cols)) <$> index).

(** [row / size * 100], rounded. *)
Definition retention_pct (size n : Z) : float64 :=
  F64.round2 (F64.mul (F64.div (F64.of_int n) (F64.of_int size)) (Finite 100)).

(** [compute_cohort_retention(users_df, events_df, cohort_by)];
    [cohort_pivot.iloc[:, 0]] is the head of a row. *)
Definition compute_cohort_retention
    (users_df : list User.t) (events_df : list Event.t) (cohort_by : string)
    : outcome CohortMatrix :=
  match cohort_bucket cohort_by with
  | None => Raise (ValueError "cohort_by must be 'week' or 'month'")
  | Some bucket =>
      let merged := cohort_merged bucket users_df events_df in
      match merged with
      | [] => Ok empty_matrix
      | _ =>
          let pivot := cohort_pivot merged in
          match pivot.1 with
          | [] => Raise IndexError
          | _ =>
              Ok (mkMatrix pivot.1
                    ((λ row : Timestamp * list Z,
                        let cohort_size := default 0 (head row.2) in
                        (row.1, retention_pct cohort_size <$> row.2)) <$> pivot.2))
          end
      end
  end.

(** ** Weekly growth *)

Module Growth.
Record row := mk { week_start : Timestamp; value : Z; pct_change : float64 }.
End Growth.

(** The [metric_map] dictionary of [compute_weekly_growth]. *)
Definition metric_map : gmap string string :=
  list_to_map [("signups", "signup"); ("visits", "visit");
               ("trials", "trial"); ("paid", "paid")]%string.

(** [pd.date_range(start, end, freq=step)] *)
Definition date_range (start stop step : Z) : list Timestamp :=
  if bool_decide (start ≤ stop)
  then (λ k : nat, start + Z.of_nat k * step) <$> seq 0 (S (Z.to_nat ((stop - start) / step)))
  else [].

(** The row of week [w] after [reindex(idx, fill_value=0)]: the row of the
    series for that week, or a row of zeros. *)
Definition row_for (ts : list Growth.row) (w : Timestamp) : Growth.row :=
  default (Growth.mk w 0 (Finite 0)) (head (filter (λ r, Growth.week_start r = w) ts)).

(** [ts.set_index('week_start').reindex(idx, fill_value=0)] *)
Definition reindex_weeks (idx : list Timestamp) (ts : list Growth.row) : list Growth.row :=
  row_for ts <$> idx.

(** The per-week distinct-user series with its [pct_change] column, before
    the reindexing. *)
Definition weekly_series (events : list Event.t) : list Growth.row :=
  let series :=
    groupby_nunique Z.le (λ e, week_start (Event.event_date e)) Event.user_id events in
  let pct :=
    (λ x, F64.round2 (F64.mul x (Finite 100))) <$> fillna (Finite 0) (pct_change (series.*2)) in
  zip_with (λ (g : Z * Z) p, Growth.mk g.1 g.2 p) series pct.

(** The end of [compute_weekly_growth]: an empty series is returned as an
    empty frame, any other is reindexed on [date_range(min, max, freq='7D')]. *)
Definition fill_missing_weeks (ts : list Growth.row) : list Growth.row :=
  match ts with
  | [] => []
  | r :: _ =>
      let weeks := Growth.week_start <$> ts in
      let idx :=
        date_range (foldr Z.min (Growth.week_start r) weeks)
                   (foldr Z.max (Growth.week_start r) weeks) (timedelta_days 7) in
      reindex_weeks idx ts
  end.

(** [compute_weekly_growth(users_df, events_df, metric, weeks)] *)
Definition compute_weekly_growth (now : Timestamp)
    (users_df : list User.t) (events_df : list Event.t) (metric : string) (weeks : Z)
    : outcome (list Growth.row) :=
  let start := now - timedelta_weeks weeks in
  events ←
    (if decide (metric = "active_users"%string)
     then Ok (filter (λ e, start ≤ Event.event_date e) events_df)
     else match metric_map !! metric with
          | None => Raise (ValueError "Unsupported metric")
          | Some evt =>
              Ok (filter (λ e, Event.event_type e = evt ∧ start ≤ Event.event_date e)
                    events_df)
          end);
  Ok (fill_missing_weeks (weekly_series events)).

(** ** Plan and traffic-source metrics *)

Module PlanMetrics.
Record row := mk
  { plan_name : string; paid_users : Z; mrr : float64; avg_revenue_per_user : float64 }.
End PlanMetrics.

Module SourceMetrics.
Record row := mk { source_name : string; paid_users : Z }.
End SourceMetrics.

(** [users_df.merge(paid_events[['user_id']], on='user_id', how='inner')]:
    the user row, once per "paid" event of that user. *)
Definition paid_user_rows (users_df : list User.t) (events_df : list Event.t) : list User.t :=
  let paid_events := filter is_paid events_df in
  fst <$> merge_inner User.user_id Event.user_id users_df paid_events.

(** [compute_plan_metrics(users_df, events_df, plans_df)]: one row per
    [plan_name], in the order of the names. *)
Definition compute_plan_metrics
    (users_df : list User.t) (events_df : list Event.t) (plans_df : list Plan.t)
    : list PlanMetrics.row :=
  let merged := paid_user_rows users_df events_df in
  let merged := merge_left User.plan_id (Some ∘ Plan.plan_id) merged plans_df in
  (λ g : string * list (User.t * option Plan.t),
     let price := (λ row : User.t * option Plan.t, Plan.price <$> row.2) <$> g.2 in
     PlanMetrics.mk g.1
       (nunique ((λ row : User.t * option Plan.t, User.user_id row.1) <$> g.2))
       (sum_skipna price)
       (mean_skipna price))
    <$> groupby String.le (λ row : User.t * option Plan.t, Plan.plan_name <$> row.2) merged.

(** [compute_source_metrics(users_df, events_df, sources_df)] *)
Definition compute_source_metrics
    (users_df : list User.t) (events_df : list Event.t) (sources_df : list Source.t)
    : list SourceMetrics.row :=
  let merged := paid_user_rows users_df events_df in
  let merged := merge_left User.source_id (Some ∘ Source.source_id) merged sources_df in
  (λ g : string * list (User.t * option Source.t),
     SourceMetrics.mk g.1
       (nunique ((λ row : User.t * option Source.t, User.user_id row.1) <$> g.2)))
    <$> groupby String.le (λ row : User.t * option Source.t, Source.source_name <$> row.2) merged.

(** ** DataFrame objects, aliasing and missing columns

    The engines above work on well-typed rows.  The functions of this part
    take references to DataFrame objects held in a store, read the columns the
    source reads, in the order it reads them, and run the row-level engine on
    what they read.  [.copy()] allocates a new object; a column assignment
    updates the object it is addressed to. *)

Inductive column : Type :=
  | IntCol (xs : list (option Z))
  | FloatCol (xs : list (option Q))
  | StrCol (xs : list string)
  | TimeCol (xs : list (option Timestamp)).

Abbreviation DataFrame := (list (string * column)) (only parsing).

(** Boolean-mask row selection, [xs[mask]]. *)
Definition mask_list {A} (mask : list bool) (xs : list A) : list A :=
  (zip mask xs ≫= λ p : bool * A, if p.1 then [p.2] else []).

Definition mask_column (mask : list bool) (c : column) : column :=
  match c with
  | IntCol xs => IntCol (mask_list mask xs)
  | FloatCol xs => FloatCol (mask_list mask xs)
  | StrCol xs => StrCol (mask_list mask xs)
  | TimeCol xs => TimeCol (mask_list mask xs)
  end.

Definition mask_rows (mask : list bool) (df : DataFrame) : DataFrame :=
  prod_map id (mask_column mask) <$> df.

(** [df[name]] *)
Definition get_column (name : string) (df : DataFrame) : outcome column :=
  match series_get name df with
  | Some c => Ok c
  | None => Raise (KeyError name)
  end.

(** [df[name] = col]: replaces the column of that label, or appends it. *)
Fixpoint set_column (name : string) (col : column) (df : DataFrame) : DataFrame :=
  match df with
  | [] => [(name, col)]
  | (n, c) :: df' =>
      if decide (name = n) then (n, col) :: df' else (n, c) :: set_column name col df'
  end.

(** [df[[n1, n2, ...]]] *)
Definition select_columns (names : list string) (df : DataFrame) : outcome DataFrame :=
  mapM (λ n, c ← get_column n df; mret (n, c)) names.

(** Typed views of a column.  A column outside the data model (another
    dtype, a missing id or date) ends the computation with [TypeError]; the
    embedding makes no statement about pandas on such a table. *)
Definition as_opt_ints (c : column) : outcome (list (option Z)) :=
  match c with IntCol xs => Ok xs | _ => Raise TypeError end.

Definition all_present {A} (xs : list (option A)) : outcome (list A) :=
  match mapM id xs with Some l => Ok l | None => Raise TypeError end.

Definition as_ints (c : column) : outcome (list Z) :=
  match c with IntCol xs => all_present xs | _ => Raise TypeError end.

Definition as_strs (c : column) : outcome (list string) :=
  match c with StrCol xs => Ok xs | _ => Raise TypeError end.

Definition as_times (c : column) : outcome (list Timestamp) :=
  match c with TimeCol xs => all_present xs | _ => Raise TypeError end.

Definition as_nums (c : column) : outcome (list Q) :=
  match c with
  | FloatCol xs => all_present xs
  | IntCol xs => fmap (M:=list) inject_Z <$> all_present xs
  | _ => Raise TypeError
  end.

Definition read {A} (view : column → outcome A) (name : string) (df : DataFrame)
    : outcome A :=
  get_column name df ≫= view.

(** The column [name] of [left.merge(right, on=key)], for a label other than
    the key.  A label that both tables have is renamed to [name_x] and
    [name_y] by the merge, so [name] is a column of the result only when
    exactly one of the tables has it. *)
Inductive side : Type := FromLeft | FromRight.

Definition merged_column (name : string) (left right : DataFrame)
    : outcome (side * column) :=
  match series_get name left, series_get name right with
  | Some c, None => Ok (FromLeft, c)
  | None, Some c => Ok (FromRight, c)
  | _, _ => Raise (KeyError name)
  end.

(** A column of the joined table that the data model places in the right
    table.  When only the left table has it, pandas goes on with that column;
    such a table is outside the data model and the computation ends with
    [TypeError], as for the typed views. *)
Definition from_right (x : side * column) : outcome column :=
  match x with
  | (FromRight, c) => Ok c
  | (FromLeft, _) => Raise TypeError
  end.

(** [merged[name]] for a column of the right table. *)
Definition read_merged {A} (view : column → outcome A) (name : string)
    (left right : DataFrame) : outcome A :=
  x ← merged_column name left right; c ← from_right x; view c.

Module Frames.

Abbreviation ref := nat (only parsing).
Abbreviation store := (list (list (string * column))) (only parsing).

(** A computation on the store; the store survives an exception. *)
Definition M (A : Type) : Type := store → outcome A * store.

#[global] Instance M_ret : MRet M := λ A a h, (Ok a, h).
#[global] Instance M_bind : MBind M := λ A B f m h,
  match m h with
  | (Ok a, h') => f a h'
  | (Raise e, h') => (Raise e, h')
  end.

Definition lift {A} (o : outcome A) : M A := λ h, (o, h).

Definition load (r : ref) : M DataFrame := λ h, (Ok (default [] (h !! r)), h).

Definition alloc (df : DataFrame) : M ref := λ h, (Ok (length h), h ++ [df]).

Definition assign (r : ref) (name : string) (col : column) : M unit :=
  λ h, (Ok (), alter (set_column name col) r h).

Definition users_rows (uids : list Z) (signup : list Timestamp)
    (plan source : list (option Z)) : list User.t :=
  zip_with (λ (p : Z * Timestamp) (q : option Z * option Z), User.mk p.1 p.2 q.1 q.2)
    (zip uids signup) (zip plan source).

Definition events_rows (uids : list Z) (tys : list string) (dates : list Timestamp)
    : list Event.t :=
  zip_with (λ (p : Z * string) d, Event.mk p.1 p.2 d) (zip uids tys) dates.

Definition plans_rows (pids : list Z) (names : list string) (prices : list Q)
    : list Plan.t :=
  zip_with (λ (p : Z * string) x, Plan.mk p.1 p.2 x) (zip pids names) prices.

Definition sources_rows (sids : list Z) (names : list string) : list Source.t :=
  zip_with Source.mk sids names.

(** A column the engine does not read, as long as the columns it reads. *)
Definition unread {A B} (like : list A) (x : B) : list B := replicate (length like) x.

Definition compute_funnel (events_df : ref) (stages : option (list string))
    : M FunnelTable :=
  ev ← load events_df;
  tys ← lift (read as_strs "event_type" ev);
  uids ← lift (read as_ints "user_id" ev);
  mret (compute_funnel (events_rows uids tys (unread uids 0)) stages).

Definition compute_revenue_metrics (now : Timestamp)
    (users_df events_df plans_df : ref) (as_of_date : option Timestamp)
    : M RevenueSummary :=
  ev ← load events_df;
  tys ← lift (read as_strs "event_type" ev);
  paid_events ← alloc (mask_rows ((λ t, bool_decide (t = "paid"%string)) <$> tys) ev);
  uids ← lift (read as_ints "user_id" ev);
  us ← load users_df;
  u_uids ← lift (read as_ints "user_id" us);
  pl ← load plans_df;
  u_pids ← lift (read as_opt_ints "plan_id" us);
  p_pids ← lift (read as_ints "plan_id" pl);
  let users := users_rows u_uids (unread u_uids 0) u_pids (unread u_uids None) in
  match merged_column "price" us pl with
  | Ok x =>
      c ← lift (from_right x);
      prices ← lift (as_nums c);
      dates ← lift (read as_times "event_date" ev);
      mret (compute_revenue_metrics now users (events_rows uids tys dates)
              (plans_rows p_pids (unread p_pids ""%string) prices) as_of_date)
  | Raise _ =>
      let plans := plans_rows p_pids (unread p_pids ""%string) (unread p_pids 0%Q) in
      let events := events_rows uids tys (unread uids 0) in
      if bool_decide (0 < length (revenue_merged users events plans))%nat
      then lift (Raise (KeyError "price"))
      else
        dates ← lift (read as_times "event_date" ev);
        mret (compute_revenue_metrics now users (events_rows uids tys dates)
                plans as_of_date)
  end.

Definition compute_cohort_retention (users_df events_df : ref) (cohort_by : string)
    : M CohortMatrix :=
  us ← load users_df;
  sel ← lift (select_columns ["user_id"; "signup_date"]%string us);
  df_users ← alloc sel;
  bucket ← lift (match cohort_bucket cohort_by with
                 | Some b => Ok b
                 | None => Raise (ValueError "cohort_by must be 'week' or 'month'")
                 end);
  signup ← lift (read as_times "signup_date" sel);
  assign df_users "cohort" (TimeCol (Some ∘ bucket <$> signup));;
  ev ← load events_df;
  sel_e ← lift (select_columns ["user_id"; "event_date"]%string ev);
  df_events ← alloc sel_e;
  e_uids ← lift (read as_ints "user_id" sel_e);
  u_uids ← lift (read as_ints "user_id" sel);
  dates ← lift (read as_times "event_date" sel_e);
  let users := users_rows u_uids signup (unread u_uids None) (unread u_uids None) in
  let events := events_rows e_uids (unread e_uids ""%string) dates in
  merged ← alloc [("user_id", IntCol (Some ∘ c_user_id <$> cohort_merged bucket users events));
                  ("event_date", TimeCol (Some ∘ c_event_date <$> cohort_merged bucket users events));
                  ("signup_date", TimeCol (Some ∘ c_signup_date <$> cohort_merged bucket users events));
                  ("cohort", TimeCol (Some ∘ c_cohort <$> cohort_merged bucket users events))]%string;
  assign merged "period_number"
    (IntCol (Some ∘ c_period_number <$> cohort_merged bucket users events));;
  lift (compute_cohort_retention users events cohort_by).

Definition compute_weekly_growth (now : Timestamp)
    (users_df events_df : ref) (metric : string) (weeks : Z)
    : M (list Growth.row) :=
  let start := now - timedelta_weeks weeks in
  ev ← load events_df;
  evt ← (if decide (metric = "active_users"%string)
         then mret None
         else match metric_map !! metric with
              | None => lift (Raise (ValueError "Unsupported metric"))
              | Some evt => mret (Some evt)
              end);
  tys ← match evt with
        | Some _ => tys ← lift (read as_strs "event_type" ev); mret (Some tys)
        | None => mret None
        end;
  dates ← lift (read as_times "event_date" ev);
  let tys' := default (unread dates ""%string) tys in
  let mask :=
    zip_with (λ (t : string) (d : Timestamp),
                match evt with Some evt => bool_decide (t = evt) | None => true end
                && bool_decide (start ≤ d)) tys' dates in
  events ← alloc (mask_rows mask ev);
  assign events "week" (TimeCol (Some ∘ week_start <$> mask_list mask dates));;
  uids ← lift (read as_ints "user_id" ev);
  lift (compute_weekly_growth now [] (events_rows uids tys' dates) metric weeks).

Definition compute_plan_metrics (users_df events_df plans_df : ref)
    : M (list PlanMetrics.row) :=
  ev ← load events_df;
  tys ← lift (read as_strs "event_type" ev);
  paid_events ← alloc (mask_rows ((λ t, bool_decide (t = "paid"%string)) <$> tys) ev);
  e_uids ← lift (read as_ints "user_id" ev);
  us ← load users_df;
  u_uids ← lift (read as_ints "user_id" us);
  pl ← load plans_df;
  u_pids ← lift (read as_opt_ints "plan_id" us);
  p_pids ← lift (read as_ints "plan_id" pl);
  names ← lift (read_merged as_strs "plan_name" us pl);
  user_id ← lift (merged_column "user_id" us pl);
  prices ← lift (read_merged as_nums "price" us pl);
  mret (compute_plan_metrics
          (users_rows u_uids (unread u_uids 0) u_pids (unread u_uids None))
          (events_rows e_uids tys (unread e_uids 0))
          (plans_rows p_pids names prices)).

Definition compute_source_metrics (users_df events_df sources_df : ref)
    : M (list SourceMetrics.row) :=
  ev ← load events_df;
  tys ← lift (read as_strs "event_type" ev);
  paid_events ← alloc (mask_rows ((λ t, bool_decide (t = "paid"%string)) <$> tys) ev);
  e_uids ← lift (read as_ints "user_id" ev);
  us ← load users_df;
  u_uids ← lift (read as_ints "user_id" us);
  sr ← load sources_df;
  u_sids ← lift (read as_opt_ints "source_id" us);
  s_sids ← lift (read as_ints "source_id" sr);
  names ← lift (read_merged as_strs "source_name" us sr);
  user_id ← lift (merged_column "user_id" us sr);
  mret (compute_source_metrics
          (users_rows u_uids (unread u_uids 0) (unread u_uids None) u_sids)
          (events_rows e_uids tys (unread e_uids 0))
          (sources_rows s_sids names)).

Record Results := mkResults
  { funnel : FunnelTable;
    revenue : RevenueSummary;
    cohort : CohortMatrix;
    weekly_growth : list Growth.row;
    plan_metrics : list PlanMetrics.row;
    source_metrics : list SourceMetrics.row }.

(** The six engine calls of a runner and its result bundle. *)
Definition all_metrics (now : Timestamp) (users events plans sources : ref)
    : M Results :=
  funnel_df ← compute_funnel events None;
  revenue_dict ← compute_revenue_metrics now users events plans None;
  cohort_df ← compute_cohort_retention users events "week";
  weekly_growth_df ← compute_weekly_growth now users events "signups" 12;
  plan_metrics_df ← compute_plan_metrics users events plans;
  source_metrics_df ← compute_source_metrics users events sources;
  mret (mkResults funnel_df revenue_dict cohort_df weekly_growth_df
          plan_metrics_df source_metrics_df).

(** [data_dict[key]] *)
Definition dict_get (data_dict : gmap string ref) (key : string) : M ref :=
  lift (match data_dict !! key with
        | Some r => Ok r
        | None => Raise (KeyError key)
        end).

Section Runner.
(** [pd.to_datetime(col, errors='coerce')] *)
Variable to_datetime : column → column.

Definition run_all_metrics_from_csv (now : Timestamp) (data_dict : gmap string ref)
    : M Results :=
  users ← dict_get data_dict "users";
  events ← dict_get data_dict "events";
  plans ← dict_get data_dict "plans";
  sources ← dict_get data_dict "sources";
  us ← load users;
  signup ← lift (get_column "signup_date" us);
  assign users "signup_date" (to_datetime signup);;
  ev ← load events;
  dates ← lift (get_column "event_date" ev);
  assign events "event_date" (to_datetime dates);;
  all_metrics now users events plans sources.
End Runner.

End Frames.

(** ** The specification's wording

    Distinct-user counts are stated as sizes of finite sets of user ids. *)

(** Users with a "paid" event. *)
Definition paid_user_set (events : list Event.t) : gset Z :=
  list_to_set (Event.user_id <$> filter is_paid events).

(** Users with a "paid" event dated [since] or later. *)
Definition paid_since_set (since : Timestamp) (events : list Event.t) : gset Z :=
  list_to_set
    (Event.user_id <$> filter (λ e, is_paid e ∧ since ≤ Event.event_date e) events).

(** Users with a "paid" event in the 30 days that end at [as_of], later
    events excluded. *)
Definition paid_in_window_set (as_of : Timestamp) (events : list Event.t) : gset Z :=
  list_to_set
    (Event.user_id <$>
       filter (λ e, is_paid e ∧ as_of - timedelta_days 30 ≤ Event.event_date e
                    ∧ Event.event_date e ≤ as_of) events).

(** [100 * (1 - recent / paid)] rounded to two decimals, 0 without paid users. *)
Definition churn_formula (recent paid : nat) : float64 :=
  if decide (paid = 0%nat) then Finite 0
  else Finite (F64.round2_Q
                 (100 * (1 - inject_Z (Z.of_nat recent) / inject_Z (Z.of_nat paid)))%Q).

(** [cur / prev * 100] rounded to two decimals. *)
Definition conversion_pct (prev cur : Z) : float64 :=
  F64.round2 (F64.mul (F64.div (F64.of_int cur) (F64.of_int prev)) (Finite 100)).

(** Users of cohort [c] with an event in the relative period [p]. *)
Definition cohort_period_users (merged : list CohortRow) (c : Timestamp) (p : Z) : gset Z :=
  list_to_set
    (c_user_id <$> filter (λ r, c_cohort r = c ∧ c_period_number r = p) merged).

(** The cohort [c]: the users of the users table whose signup date falls in
    the period that starts at [c]; and its size. *)
Definition cohort_members (bucket : Timestamp → Timestamp) (users : list User.t)
    (c : Timestamp) : gset Z :=
  list_to_set (User.user_id <$> filter (λ u, bucket (User.signup_date u) = c) users).

Definition cohort_size (bucket : Timestamp → Timestamp) (users : list User.t)
    (c : Timestamp) : Z :=
  Z.of_nat (size (cohort_members bucket users c)).

(** The events a growth metric counts: those of the metric's event type
    (of any type for "active_users") dated [now] minus [weeks] weeks or later. *)
Definition metric_events (now : Timestamp) (events : list Event.t)
    (metric : string) (weeks : Z) : list Event.t :=
  filter (λ e, (metric = "active_users"%string
                ∨ metric_map !! metric = Some (Event.event_type e))
               ∧ now - timedelta_weeks weeks ≤ Event.event_date e) events.

(** The calendar weeks (by their Monday) in which the events fall. *)
Definition observed_weeks (events : list Event.t) : list Timestamp :=
  (λ e, week_start (Event.event_date e)) <$> events.

(** Users with an event in the week that starts at [w]. *)
Definition week_users (events : list Event.t) (w : Timestamp) : gset Z :=
  list_to_set
    (Event.user_id <$> filter (λ e, week_start (Event.event_date e) = w) events).

(** The growth metrics the engine accepts. *)
Definition supported_metric (metric : string) : Prop :=
  metric = "active_users"%string ∨ is_Some (metric_map !! metric).

(** A computation keeps the objects of the store [h0]: started in a store
    that extends [h0] it ends in a store that extends [h0], and a result it
    returns satisfies [Q]. *)
Definition keeps {A} (h0 : Frames.store) (m : Frames.M A) (Q : A → Prop) : Prop :=
  ∀ h, h0 `prefix_of` h → h0 `prefix_of` (m h).2 ∧ ∀ a, (m h).1 = Ok a → Q a.

(** The labels of the columns of a frame. *)
Definition column_labels (df : DataFrame) : list string := df.*1.

(** Store [h'] holds every object of [h], with the same column labels and
    with the same columns except [signup_date] and [event_date]; objects other
    than the users and the events table are the same. *)
Definition only_dates_changed (users events : option nat) (h h' : Frames.store) : Prop :=
  ∀ r df, h !! r = Some df →
    ∃ df', h' !! r = Some df'
      ∧ column_labels df' = column_labels df
      ∧ (∀ name, name ≠ "signup_date"%string → name ≠ "event_date"%string →
                 series_get name df' = series_get name df)
      ∧ (users ≠ Some r → events ≠ Some r → df' = df).

(** ** An instance of [pd.to_datetime] for the examples

    Strings of the form [YYYY-MM-DD] that name a calendar day become its
    midnight, any other string becomes NaT; integers are nanoseconds since
    the epoch. *)

Definition digit (c : ascii) : option Z :=
  let n := Z.of_nat (nat_of_ascii c) in
  if bool_decide (48 ≤ n ≤ 57) then Some (n - 48) else None.

Fixpoint number (acc : Z) (cs : list ascii) : option Z :=
  match cs with
  | [] => Some acc
  | c :: cs' => d ← digit c; number (10 * acc + d) cs'
  end.

Definition parse_iso_date (s : string) : option Timestamp :=
  match String.list_ascii_of_string s with
  | [y1; y2; y3; y4; "-"%char; m1; m2; "-"%char; d1; d2] =>
      y ← number 0 [y1; y2; y3; y4];
      m ← number 0 [m1; m2];
      d ← number 0 [d1; d2];
      if bool_decide (1 ≤ m ≤ 12 ∧ day_of_month (days_from_civil y m d) = d)
      then Some (date y m d) else None
  | _ => None
  end.

Definition to_datetime_iso (c : column) : column :=
  match c with
  | StrCol xs => TimeCol (parse_iso_date <$> xs)
  | TimeCol xs => TimeCol xs
  | IntCol xs => TimeCol xs
  | FloatCol xs => TimeCol (fmap (M:=option) Qfloor <$> xs)
  end.

(** ** Concrete inputs *)

Definition scenario_users : list User.t := [ User.mk 1 (date 2025 1 1) (Some 1) (Some 1) ].

Definition scenario_events : list Event.t :=
  [ Event.mk 1 "visit" (date 2025 1 1); Event.mk 1 "signup" (date 2025 1 2) ].

Definition scenario_plans : list Plan.t := [ Plan.mk 1 "Basic" 10 ].

(** One paying user whose only payment is dated after the reference date. *)
Definition late_payment : list Event.t := [ Event.mk 1 "paid" (date 2025 3 1) ].

(** One paying user with two payments. *)
Definition paid_twice : list Event.t :=
  [ Event.mk 1 "paid" (date 2025 1 3); Event.mk 1 "paid" (date 2025 1 20) ].

(** Three consecutive Mondays. *)
Definition w1 : Timestamp := date 2025 1 6.
Definition w2 : Timestamp := date 2025 1 13.
Definition w3 : Timestamp := date 2025 1 20.

(** Five users sign up in the week of [w1], nobody in the week of [w2]. *)
Definition signups_week1 : list Event.t :=
  (λ u, Event.mk u "signup" (w1 + timedelta_days (u mod 7))) <$> [1; 2; 3; 4; 5].

(** The same, followed by three sign-ups in the week of [w3]. *)
Definition signups_with_gap : list Event.t :=
  signups_week1 ++ ((λ u, Event.mk u "signup" (w3 + timedelta_days 2)) <$> [6; 7; 8]).

(** Two weekly cohorts; the second one has no event in its signup week. *)
Definition two_cohort_users : list User.t :=
  [ User.mk 1 w1 None None; User.mk 2 w2 None None ].

Definition two_cohort_events : list Event.t :=
  [ Event.mk 1 "visit" w1; Event.mk 2 "visit" (w2 + timedelta_days 7) ].

(** One weekly cohort of two users; only the first has an event in the week
    of the signup. *)
Definition same_cohort_users : list User.t :=
  [ User.mk 1 w1 None None; User.mk 2 w1 None None ].

Definition same_cohort_events : list Event.t :=
  [ Event.mk 1 "visit" w1; Event.mk 2 "visit" w2 ].

(** The four tables as read from CSV files: dates are still strings. *)
Definition users_csv : DataFrame :=
  [ ("user_id", IntCol [Some 1]); ("signup_date", StrCol ["2025-01-01"]);
    ("plan_id", IntCol [Some 1]); ("source_id", IntCol [Some 1]) ]%string.

Definition events_csv : DataFrame :=
  [ ("user_id", IntCol [Some 1; Some 1]); ("event_type", StrCol ["visit"; "signup"]);
    ("event_date", StrCol ["2025-01-01"; "2025-01-02"]) ]%string.

Definition plans_csv : DataFrame :=
  [ ("plan_id", IntCol [Some 1]); ("plan_name", StrCol ["Basic"]);
    ("price", FloatCol [Some 10%Q]) ]%string.

Definition sources_csv : DataFrame :=
  [ ("source_id", IntCol [Some 1]); ("source_name", StrCol ["Organic"]) ]%string.

Definition csv_store : Frames.store := [users_csv; events_csv; plans_csv; sources_csv].

Definition csv_dict : gmap string nat :=
  list_to_map [("users", 0%nat); ("events", 1%nat); ("plans", 2%nat); ("sources", 3%nat)]%string.

(** An events table without the [event_date] column, a plans table without
    [price], an events table without rows. *)
Definition events_without_date : DataFrame :=
  [ ("user_id", IntCol [Some 1; Some 1]); ("event_type", StrCol ["visit"; "signup"]) ]%string.

Definition plans_without_price : DataFrame :=
  [ ("plan_id", IntCol [Some 1]); ("plan_name", StrCol ["Basic"]) ]%string.

Definition events_empty : DataFrame :=
  [ ("user_id", IntCol []); ("event_type", StrCol []); ("event_date", TimeCol []) ]%string.

Definition users_typed : DataFrame :=
  [ ("user_id", IntCol [Some 1]); ("signup_date", TimeCol [Some (date 2025 1 1)]);
    ("plan_id", IntCol [Some 1]); ("source_id", IntCol [Some 1]) ]%string.

(** ** Further wording used by the properties of the engines *)

(** Users with an event dated in [[lo, hi)]. *)
Definition users_between (events : list Event.t) (lo hi : Timestamp) : gset Z :=
  list_to_set
    (Event.user_id <$> filter (λ e, lo ≤ Event.event_date e ∧ Event.event_date e < hi) events).

(** Users with an event of type [s]. *)
Definition stage_users (events : list Event.t) (s : string) : gset Z :=
  list_to_set (Event.user_id <$> filter (λ e, Event.event_type e = s) events).

(** The (event type, user) pairs that occur in the events table. *)
Definition stage_user_pairs (events : list Event.t) : gset (string * Z) :=
  list_to_set ((λ e, (Event.event_type e, Event.user_id e)) <$> events).

(** Users of the users table with a "paid" event whose key [lk] leads to a row
    of the joined table with the name [name]. *)
Definition joined_payers {T} (lk : User.t → option Z) (rk : T → Z) (nm : T → string)
    (users : list User.t) (events : list Event.t) (right : list T) (name : string)
    : gset Z :=
  list_to_set
    (User.user_id <$>
       filter (λ u, User.user_id u ∈ paid_user_set events
                    ∧ Exists (λ r, lk u = Some (rk r) ∧ nm r = name) right) users).

(** Paying users on a plan called [name], and paying users that came from a
    source called [name]. *)
Definition plan_payers : list User.t → list Event.t → list Plan.t → string → gset Z :=
  joined_payers User.plan_id Plan.plan_id Plan.plan_name.

Definition source_payers : list User.t → list Event.t → list Source.t → string → gset Z :=
  joined_payers User.source_id Source.source_id Source.source_name.

(** ** Tables of the data model as DataFrame objects

    A DataFrame holds a table when the columns of the data model are present
    under their names, with the cells of the rows in order; the order of the
    columns is free, and further columns may be present. *)

Definition is_users_table (df : DataFrame) (users : list User.t) : Prop :=
  series_get "user_id"%string df = Some (IntCol (Some ∘ User.user_id <$> users))
  ∧ series_get "signup_date"%string df = Some (TimeCol (Some ∘ User.signup_date <$> users))
  ∧ series_get "plan_id"%string df = Some (IntCol (User.plan_id <$> users))
  ∧ series_get "source_id"%string df = Some (IntCol (User.source_id <$> users)).

Definition is_events_table (df : DataFrame) (events : list Event.t) : Prop :=
  series_get "user_id"%string df = Some (IntCol (Some ∘ Event.user_id <$> events))
  ∧ series_get "event_type"%string df = Some (StrCol (Event.event_type <$> events))
  ∧ series_get "event_date"%string df = Some (TimeCol (Some ∘ Event.event_date <$> events)).

Definition is_plans_table (df : DataFrame) (plans : list Plan.t) : Prop :=
  series_get "plan_id"%string df = Some (IntCol (Some ∘ Plan.plan_id <$> plans))
  ∧ series_get "plan_name"%string df = Some (StrCol (Plan.plan_name <$> plans))
  ∧ series_get "price"%string df = Some (FloatCol (Some ∘ Plan.price <$> plans)).

Definition is_sources_table (df : DataFrame) (sources : list Source.t) : Prop :=
  series_get "source_id"%string df = Some (IntCol (Some ∘ Source.source_id <$> sources))
  ∧ series_get "source_name"%string df = Some (StrCol (Source.source_name <$> sources)).

(** Two tables that are joined on [key] have no other column label in
    common, so that the merge renames no column. *)
Definition shares_only (key : string) (left right : DataFrame) : Prop :=
  ∀ n, n ∈ column_labels left → n ∈ column_labels right → n = key.

(** Tables as uploaded: the date column is any column that [to_datetime]
    converts to the dates of the rows. *)
Definition is_users_upload (to_datetime : column → column)
    (df : DataFrame) (users : list User.t) : Prop :=
  series_get "user_id"%string df = Some (IntCol (Some ∘ User.user_id <$> users))
  ∧ (∃ c, series_get "signup_date"%string df = Some c
          ∧ to_datetime c = TimeCol (Some ∘ User.signup_date <$> users))
  ∧ series_get "plan_id"%string df = Some (IntCol (User.plan_id <$> users))
  ∧ series_get "source_id"%string df = Some (IntCol (User.source_id <$> users)).

Definition is_events_upload (to_datetime : column → column)
    (df : DataFrame) (events : list Event.t) : Prop :=
  series_get "user_id"%string df = Some (IntCol (Some ∘ Event.user_id <$> events))
  ∧ series_get "event_type"%string df = Some (StrCol (Event.event_type <$> events))
  ∧ (∃ c, series_get "event_date"%string df = Some c
          ∧ to_datetime c = TimeCol (Some ∘ Event.event_date <$> events)).

(** The result bundle of a runner computed on rows. *)
Definition all_metrics_rows (now : Timestamp) (users : list User.t)
    (events : list Event.t) (plans : list Plan.t) (sources : list Source.t)
    : outcome Frames.Results :=
  cohort_df ← compute_cohort_retention users events "week";
  weekly_growth_df ← compute_weekly_growth now users events "signups" 12;
  Ok (Frames.mkResults (compute_funnel events None)
        (compute_revenue_metrics now users events plans None)
        cohort_df weekly_growth_df
        (compute_plan_metrics users events plans)
        (compute_source_metrics users events sources)).

(** ** The database runner

    [mysql.connector.connect] and [pd.read_sql] are the environment of the
    runner: how the connection attempt ends and what each query returns are
    given.  The calls of [logger.info] are not part of the model. *)

Module Db.

(** The three ways the [try] block of [create_connection] can go:
    [connect] returns a connection that is connected, one that is not, or
    raises [mysql.connector.Error]. *)
Inductive connect_result : Type :=
  | Connected
  | NotConnected
  | ConnectError (msg : string).

(** [read_sql q] is the table a query returns, [None] when it fails. *)
Record env := mkEnv
  { connect : connect_result;
    read_sql : string → option (list (string * column)) }.

(** The state the runner acts on: the connection, what was printed, and
    the DataFrame objects. *)
Record session := mkSession
  { is_connected : bool;
    printed : list string;
    frames : Frames.store }.

Inductive failure : Type :=
  | RuntimeError (msg : string)
  | DatabaseError (query : string)
  | Raised (e : exn).

Inductive result (A : Type) : Type :=
  | Done (a : A)
  | Failed (f : failure).
Arguments Done {A} a.
Arguments Failed {A} f.

Definition M (A : Type) : Type := session → result A * session.

#[global] Instance M_ret : MRet M := λ A a w, (Done a, w).
#[global] Instance M_bind : MBind M := λ A B f m w,
  match m w with
  | (Done a, w') => f a w'
  | (Failed e, w') => (Failed e, w')
  end.

(** [create_connection()]: the connection, or [None]. *)
Definition create_connection (db : env) (w : session) : option unit * session :=
  match connect db with
  | Connected =>
      (Some (), mkSession true (printed w ++ ["Connected to MySQL database"]%string)
                  (frames w))
  | NotConnected => (None, w)
  | ConnectError msg =>
      (None, mkSession (is_connected w)
               (printed w ++ [String.append "Error: '" (String.append msg "'")])
               (frames w))
  end.

(** [close_connection(connection)] *)
Definition close_connection (connection : option unit) (w : session) : session :=
  match connection with
  | Some _ =>
      if is_connected w
      then mkSession false (printed w ++ ["MySQL connection closed"]%string) (frames w)
      else w
  | None => w
  end.

(** [pd.read_sql(q, conn)]: a new DataFrame object. *)
Definition query (db : env) (q : string) : M nat := λ w,
  match read_sql db q with
  | Some df =>
      (Done (length (frames w)),
       mkSession (is_connected w) (printed w) (frames w ++ [df]))
  | None => (Failed (DatabaseError q), w)
  end.

(** A computation on the DataFrame objects, run in a session. *)
Definition run_frames {A} (m : Frames.M A) : M A := λ w,
  match m (frames w) with
  | (Ok a, h) => (Done a, mkSession (is_connected w) (printed w) h)
  | (Raise e, h) => (Failed (Raised e), mkSession (is_connected w) (printed w) h)
  end.

Section Runner.
(** [pd.to_datetime(col)]: raises on a value it cannot parse. *)
Variable to_datetime : column → outcome column.

(** [if name in df.columns: df[name] = pd.to_datetime(df[name])] *)
Definition convert_if_present (r : nat) (name : string) : Frames.M unit :=
  df ← Frames.load r;
  match series_get name df with
  | None => mret ()
  | Some c => c' ← Frames.lift (to_datetime c); Frames.assign r name c'
  end.

(** [fetch_raw_data(conn)] *)
Definition fetch_raw_data (db : env) : M (nat * nat * nat * nat) :=
  users ← query db "SELECT * FROM Users;";
  events ← query db "SELECT * FROM Events;";
  plans ← query db "SELECT * FROM Plans;";
  sources ← query db "SELECT * FROM Sources;";
  run_frames (convert_if_present users "signup_date");;
  run_frames (convert_if_present events "event_date");;
  mret (users, events, plans, sources).

(** The body of the [try] block of [run_all_metrics]. *)
Definition fetch_and_compute (now : Timestamp) (db : env) : M Frames.Results :=
  raw ← fetch_raw_data db;
  run_frames (Frames.all_metrics now raw.1.1.1 raw.1.1.2 raw.1.2 raw.2).

(** [run_all_metrics()]: the connection is closed in the [finally]
    block, whatever the [try] block does. *)
Definition run_all_metrics (now : Timestamp) (db : env) : M Frames.Results := λ w,
  let cw := create_connection db w in
  match cw.1 with
  | None => (Failed (RuntimeError "DB connection failed"), cw.2)
  | Some _ =>
      let rw := fetch_and_compute now db cw.2 in
      (rw.1, close_connection cw.1 rw.2)
  end.
End Runner.

End Db.

(** A session computation that neither prints nor touches the connection. *)
Definition quiet {A} (m : Db.M A) : Prop :=
  ∀ w, Db.is_connected (m w).2 = Db.is_connected w
       ∧ Db.printed (m w).2 = Db.printed w.

(** [pd.to_datetime] on columns of ISO dates: a string that is not a date
    raises. *)
Definition to_datetime_strict (c : column) : outcome column :=
  match c with
  | StrCol xs =>
      match mapM parse_iso_date xs with
      | Some ds => Ok (TimeCol (Some <$> ds))
      | None => Raise (ValueError "Unknown datetime string format")
      end
  | _ => Ok (to_datetime_iso c)
  end.

(** A server that refuses the connection. *)
Definition unreachable_db : Db.env :=
  Db.mkEnv (Db.ConnectError "2003: Can't connect to MySQL server") (λ _, None).

(** A database without tables. *)
Definition empty_db : Db.env := Db.mkEnv Db.Connected (λ _, None).

Definition new_session : Db.session := Db.mkSession false [] [].
(** * Properties of the primitives *)

Section unique_facts.
Context {A : Type} `{EqDecision A}.
Implicit Types (l seen : list A) (x : A).

Lemma elem_of_unique_from seen l x :
  x ∈ unique_from seen l ↔ x ∈ l ∧ x ∉ seen.
Proof.
  revert seen. induction l as [|y l IH]; intros seen; simpl.
  - rewrite elem_of_nil. naive_solver.
  - destruct (decide (y ∈ seen)) as [Hy|Hy].
    + rewrite IH, elem_of_cons. naive_solver.
    + rewrite !elem_of_cons, IH, elem_of_cons.
      destruct (decide (x = y)); naive_solver.
Qed.

Lemma NoDup_unique_from seen l : NoDup (unique_from seen l).
Proof.
  revert seen. induction l as [|y l IH]; intros seen; simpl.
  - constructor.
  - destruct (decide (y ∈ seen)); [apply IH|].
    constructor; [|apply IH].
    rewrite elem_of_unique_from, elem_of_cons. naive_solver.
Qed.

Lemma elem_of_unique l x : x ∈ unique l ↔ x ∈ l.
Proof.
  unfold unique. rewrite elem_of_unique_from, elem_of_nil. naive_solver.
Qed.

Lemma NoDup_unique l : NoDup (unique l).
Proof. apply NoDup_unique_from. Qed.

Lemma unique_from_snoc_elem seen l x :
  x ∈ l ∨ x ∈ seen → unique_from seen (l ++ [x]) = unique_from seen l.
Proof.
  revert seen. induction l as [|y l IH]; intros seen Hx; simpl.
  - destruct Hx as [Hx|Hx]; [by apply elem_of_nil in Hx|].
    by rewrite decide_True.
  - destruct (decide (y ∈ seen)).
    + apply IH. rewrite elem_of_cons in Hx.
      destruct Hx as [[->|?]|?]; auto.
    + f_equal. apply IH. rewrite !elem_of_cons in *. naive_solver.
Qed.

Lemma unique_snoc_elem l x : x ∈ l → unique (l ++ [x]) = unique l.
Proof. intros. apply unique_from_snoc_elem. by left. Qed.

Lemma unique_nil_inv l : unique l = [] → l = [].
Proof.
  destruct l as [|y l]; [done|]. intros Hu.
  assert (y ∈ unique (y :: l)) as Hy by (apply elem_of_unique; left).
  rewrite Hu in Hy. by apply elem_of_nil in Hy.
Qed.

Lemma nunique_nil : nunique (@nil A) = 0.
Proof. reflexivity. Qed.

Lemma nunique_pos l : l ≠ [] → 0 < nunique l.
Proof.
  intros Hl. unfold nunique.
  destruct (unique l) eqn:Hu; [by apply unique_nil_inv in Hu|simpl; lia].
Qed.
End unique_facts.

Lemma nunique_size `{Countable A} (l : list A) :
  nunique l = Z.of_nat (size (list_to_set l : gset A)).
Proof.
  unfold nunique. f_equal.
  rewrite <- (size_list_to_set (C:=gset A) (unique l)) by apply NoDup_unique.
  f_equal. apply set_eq. intros x.
  rewrite !elem_of_list_to_set. apply elem_of_unique.
Qed.

Section series_facts.
Context {K : Type} `{EqDecision K}.

Lemma series_get_fmap {V} (g : K → K * V) (ks : list K) (k : K) :
  (∀ k', (g k').1 = k') →
  series_get k (g <$> ks) = if decide (k ∈ ks) then Some (g k).2 else None.
Proof.
  intros Hg. induction ks as [|k' ks IH].
  - destruct (decide (k ∈ [])) as [Hin|]; [by apply elem_of_nil in Hin|done].
  - rewrite fmap_cons. cbn [series_get].
    destruct (g k') as [k'' v] eqn:Hgk.
    assert (k'' = k') as -> by (rewrite <- (Hg k'), Hgk; done).
    destruct (decide (k = k')) as [->|Hne].
    + rewrite decide_True by left. by rewrite Hgk.
    + rewrite IH. destruct (decide (k ∈ ks)).
      * rewrite decide_True; [done|by right].
      * rewrite decide_False; [done|]. rewrite elem_of_cons. naive_solver.
Qed.

Context (R : relation K) `{!RelDecision R}.

Lemma elem_of_group_keys {A} (key : A → option K) (rows : list A) (k : K) :
  k ∈ merge_sort R (unique (omap key rows)) ↔ ∃ r, r ∈ rows ∧ key r = Some k.
Proof.
  rewrite merge_sort_Permutation, elem_of_unique, list_elem_of_omap. naive_solver.
Qed.

Lemma NoDup_group_keys {A} (key : A → option K) (rows : list A) :
  NoDup (merge_sort R (unique (omap key rows))).
Proof. rewrite merge_sort_Permutation. apply NoDup_unique. Qed.

Lemma groupby_nunique_keys {A V} `{EqDecision V} (key : A → K) (val : A → V) rows :
  (groupby_nunique R key val rows).*1 = merge_sort R (unique (omap (Some ∘ key) rows)).
Proof.
  unfold groupby_nunique, groupby. rewrite <- !list_fmap_compose.
  rewrite <- (list_fmap_id (merge_sort _ _)) at 2.
  by apply list_fmap_ext.
Qed.

Lemma groupby_nunique_values {A V} `{EqDecision V} (key : A → K) (val : A → V) rows :
  (groupby_nunique R key val rows).*2 =
  (λ k, nunique (val <$> filter (λ r, key r = k) rows))
    <$> merge_sort R (unique (omap (Some ∘ key) rows)).
Proof.
  unfold groupby_nunique, groupby. rewrite <- !list_fmap_compose.
  apply list_fmap_ext. intros _ k _. simpl. do 2 f_equal.
  apply list_filter_iff. intros r. simpl. naive_solver.
Qed.

(** The count of a group, 0 for a key without rows. *)
Lemma groupby_nunique_get {A V} `{EqDecision V} (key : A → K) (val : A → V) rows k :
  default 0 (series_get k (groupby_nunique R key val rows)) =
  nunique (val <$> filter (λ r, key r = k) rows).
Proof.
  unfold groupby_nunique, groupby. rewrite <- list_fmap_compose.
  rewrite series_get_fmap by done.
  destruct (decide _) as [Hin|Hout]; simpl.
  - do 2 f_equal. apply list_filter_iff. intros r. simpl. naive_solver.
  - rewrite elem_of_group_keys in Hout.
    destruct (filter (λ r, key r = k) rows) as [|r rs] eqn:Hempty; [done|].
    exfalso. apply Hout. exists r.
    assert (r ∈ filter (λ r, key r = k) rows) as Hr by (rewrite Hempty; left).
    apply list_elem_of_filter in Hr as [<- ?]. done.
Qed.
End series_facts.

(** * Rounding *)

Lemma round_half_even_proper (q q' : Q) :
  (q == q')%Q → F64.round_half_even q = F64.round_half_even q'.
Proof.
  intros Hq. unfold F64.round_half_even.
  rewrite (Qfloor_comp _ _ Hq).
  assert (q - inject_Z (Qfloor q') == q' - inject_Z (Qfloor q'))%Q as Hd
    by (rewrite Hq; reflexivity).
  by rewrite (Qcompare_comp _ _ Hd _ _ (Qeq_refl _)).
Qed.

Lemma round2_Q_proper (q q' : Q) : (q == q')%Q → F64.round2_Q q = F64.round2_Q q'.
Proof.
  intros Hq. unfold F64.round2_Q.
  rewrite (round_half_even_proper (q * 100) (q' * 100)); [done|].
  rewrite Hq. reflexivity.
Qed.

Lemma div_of_int_pos (a b : Z) :
  0 < b → F64.div (F64.of_int a) (F64.of_int b) = Finite (Qred (inject_Z a / inject_Z b)).
Proof.
  intros Hb. unfold F64.div, F64.of_int.
  destruct (Qeq_bool (inject_Z b) 0) eqn:Hz; [|done].
  apply Qeq_bool_iff in Hz. unfold Qeq in Hz. simpl in Hz. lia.
Qed.

(** * Revenue metrics *)

Lemma length_unique_size `{Countable A} (l : list A) :
  length (unique l) = size (list_to_set l : gset A).
Proof. pose proof (nunique_size l) as Hn. unfold nunique in Hn. lia. Qed.

Lemma paid_count_spec now users events plans as_of :
  paid_count (compute_revenue_metrics now users events plans as_of)
  = Z.of_nat (size (paid_user_set events)).
Proof. unfold compute_revenue_metrics, paid_user_set. simpl. by rewrite length_unique_size. Qed.

Lemma recent_paid_spec (since : Timestamp) (events : list Event.t) :
  nunique (Event.user_id <$> filter (λ e, since ≤ Event.event_date e) (filter is_paid events))
  = Z.of_nat (size (paid_since_set since events)).
Proof.
  rewrite nunique_size. unfold paid_since_set. do 4 f_equal.
  rewrite list_filter_filter. apply list_filter_iff. intros e. naive_solver.
Qed.

Lemma churn_value (recent paid : nat) :
  (if bool_decide (0 < Z.of_nat paid)
   then F64.round2
          (F64.mul (Finite 100)
             (F64.sub (Finite 1)
                (F64.div (F64.of_int (Z.of_nat recent)) (F64.of_int (Z.of_nat paid)))))
   else F64.round2 (Finite 0))
  = churn_formula recent paid.
Proof.
  unfold churn_formula. destruct (decide (paid = 0%nat)) as [->|Hp].
  - reflexivity.
  - rewrite bool_decide_true by lia. rewrite div_of_int_pos by lia.
    unfold F64.sub, F64.neg, F64.add, F64.mul, F64.round2. f_equal.
    apply round2_Q_proper. rewrite !Qred_correct. reflexivity.
Qed.

(** C4, as amended: the 30-day churn rate is [100 * (1 - recent / paid)]
    rounded to two decimals, 0 without paid users, where [paid] counts the
    distinct users with a "paid" event and [recent] those with a "paid" event
    dated [as_of] minus 30 days or later; there is no upper bound on the date. *)
Theorem C4_churn_rate_counts_paid_events_since_window_start
    (now : Timestamp) (users : list User.t) (events : list Event.t)
    (plans : list Plan.t) (as_of : option Timestamp) :
  churn_rate_pct_30d (compute_revenue_metrics now users events plans as_of)
  = churn_formula
      (size (paid_since_set (default now as_of - timedelta_days 30) events))
      (size (paid_user_set events)).
Proof.
  unfold compute_revenue_metrics. cbn [churn_rate_pct_30d].
  rewrite recent_paid_spec, length_unique_size.
  fold (paid_user_set events).
  rewrite <- churn_value. by destruct (bool_decide _).
Qed.

(** C4, as stated, fails: a payment dated after [as_of] still counts as
    recent, so the rate is 0 where the stated window gives 100. *)
Lemma C4_counterexample_payment_after_as_of :
  churn_rate_pct_30d
    (compute_revenue_metrics 0 scenario_users late_payment scenario_plans
       (Some (date 2025 2 1)))
  ≠ churn_formula (size (paid_in_window_set (date 2025 2 1) late_payment))
      (size (paid_user_set late_payment)).
Proof. vm_compute. intros [=]. Qed.

Example late_payment_churn :
  churn_rate_pct_30d
    (compute_revenue_metrics 0 scenario_users late_payment scenario_plans
       (Some (date 2025 2 1))) = Finite 0
  ∧ churn_formula (size (paid_in_window_set (date 2025 2 1) late_payment))
      (size (paid_user_set late_payment)) = Finite 100.
Proof. split; vm_compute; reflexivity. Qed.

Lemma filter_paid_snoc (events : list Event.t) (e : Event.t) :
  is_paid e → filter is_paid (events ++ [e]) = filter is_paid events ++ [e].
Proof. intros He. rewrite filter_app. f_equal. by rewrite filter_cons_True. Qed.

Lemma paid_users_snoc (events : list Event.t) (e : Event.t) :
  e ∈ events → is_paid e →
  unique (Event.user_id <$> filter is_paid (events ++ [e]))
  = unique (Event.user_id <$> filter is_paid events).
Proof.
  intros Hin He. rewrite filter_paid_snoc, fmap_app by done. simpl.
  apply unique_snoc_elem. apply list_elem_of_fmap_2.
  by apply list_elem_of_filter.
Qed.

Lemma recent_paid_snoc (since : Timestamp) (events : list Event.t) (e : Event.t) :
  e ∈ events → is_paid e →
  unique (Event.user_id <$>
            filter (λ e, since ≤ Event.event_date e) (filter is_paid (events ++ [e])))
  = unique (Event.user_id <$>
              filter (λ e, since ≤ Event.event_date e) (filter is_paid events)).
Proof.
  intros Hin He. rewrite filter_paid_snoc, filter_app by done.
  destruct (decide (since ≤ Event.event_date e)) as [Hd|Hd].
  - rewrite (filter_cons_True _ e) by done. rewrite fmap_app. simpl.
    apply unique_snoc_elem. apply list_elem_of_fmap_2.
    rewrite !list_elem_of_filter. done.
  - rewrite (filter_cons_False _ e) by done. simpl. by rewrite app_nil_r.
Qed.

(** C10: appending a copy of a "paid" event row that is already in the events
    table leaves the whole revenue summary unchanged. *)
Theorem C10_revenue_invariant_under_duplicate_paid_event
    (now : Timestamp) (users : list User.t) (events : list Event.t)
    (plans : list Plan.t) (as_of : option Timestamp) (e : Event.t) :
  e ∈ events → is_paid e →
  compute_revenue_metrics now users (events ++ [e]) plans as_of
  = compute_revenue_metrics now users events plans as_of.
Proof.
  intros Hin He. unfold compute_revenue_metrics, revenue_merged, nunique.
  cbv zeta. rewrite paid_users_snoc, recent_paid_snoc by done. reflexivity.
Qed.

Lemma C10_witness :
  compute_revenue_metrics (date 2025 2 1) scenario_users (paid_twice ++ [Event.mk 1 "paid" (date 2025 1 3)])
    scenario_plans None
  = compute_revenue_metrics (date 2025 2 1) scenario_users paid_twice scenario_plans None.
Proof.
  apply C10_revenue_invariant_under_duplicate_paid_event.
  - unfold paid_twice. left.
  - reflexivity.
Defined.

(** * Funnel and plan metrics on concrete inputs *)

(** C1: on the specification's own scenario (one user with a visit and a
    signup) the engine puts the relative change of the count into
    [conversion_from_prev_pct]: 0 for signup and -100 for trial, where the
    ratio to the previous stage is 100 and 0. *)
Theorem C1_funnel_prev_conversion_is_relative_change :
  let table := compute_funnel scenario_events (Some default_stages) in
  users table = [1; 1; 0; 0]
  ∧ conversion_from_prev_pct table = [Finite 100; Finite 0; Finite (-100); Finite 100]
  ∧ drop_off_pct_from_prev table = [Finite 0; Finite 100; Finite 200; Finite 0]
  ∧ conversion_pct 1 1 = Finite 100
  ∧ conversion_pct 1 0 = Finite 0.
Proof. vm_compute. repeat split; reflexivity. Qed.

(** C5: a user on a 10.0 plan with two "paid" events is one paid user of the
    plan, but the plan's [mrr] is 20: the price is summed once per "paid"
    event.  The revenue summary of the same input has [mrr] 10. *)
Theorem C5_plan_mrr_counts_each_paid_event :
  compute_plan_metrics scenario_users paid_twice scenario_plans
  = [PlanMetrics.mk "Basic" 1 (Finite 20) (Finite 10)]
  ∧ mrr (compute_revenue_metrics 0 scenario_users paid_twice scenario_plans None)
    = Finite 10.
Proof. vm_compute. split; reflexivity. Qed.

(** * Empty events table *)

Lemma round2_zero_div (n : Z) :
  0 < n → F64.round2 (F64.div (Finite (Qred 0)) (F64.of_int n)) = Finite 0.
Proof.
  intros Hn. change (Finite (Qred 0)) with (F64.of_int 0).
  rewrite div_of_int_pos by done. unfold F64.round2.
  rewrite (round2_Q_proper _ 0); [reflexivity|].
  rewrite Qred_correct. unfold Qdiv. ring.
Qed.

Lemma revenue_no_paid_event now users plans as_of :
  compute_revenue_metrics now users [] plans as_of
  = mkRevenue 0 (Finite 0) (Finite 0) (Finite 0) (Finite 0).
Proof.
  unfold compute_revenue_metrics, revenue_merged. cbv zeta.
  rewrite filter_nil. cbn [fmap list_fmap unique unique_from length].
  assert (filter (λ u, User.user_id u ∈ @nil Z) users = []) as ->.
  { induction users as [|u us IH]; [done|].
    rewrite filter_cons_False; [done|]. apply not_elem_of_nil. }
  cbn [merge_left mbind list_bind fmap list_fmap length].
  rewrite (bool_decide_false (0 < 0)%nat) by lia.
  rewrite (bool_decide_false (0 < Z.of_nat 0)) by lia.
  f_equal; try reflexivity.
  case_bool_decide as Hu; [|reflexivity].
  apply round2_zero_div. lia.
Qed.

Lemma cohort_no_event users cohort_by :
  cohort_by = "week"%string ∨ cohort_by = "month"%string →
  compute_cohort_retention users [] cohort_by = Ok empty_matrix.
Proof. intros [-> | ->]; reflexivity. Qed.

Lemma growth_no_event now users metric weeks :
  supported_metric metric → compute_weekly_growth now users [] metric weeks = Ok [].
Proof.
  intros [-> | [evt Hevt]]; [reflexivity|].
  unfold compute_weekly_growth. rewrite Hevt.
  destruct (decide (metric = "active_users"%string)); reflexivity.
Qed.

(** C7: with an events table without rows no engine raises:
    [compute_cohort_retention] returns the empty matrix,
    [compute_weekly_growth] the empty series, and [compute_revenue_metrics]
    the all-zero summary. *)
Theorem C7_empty_events_give_empty_results :
  (∀ users cohort_by,
     cohort_by = "week"%string ∨ cohort_by = "month"%string →
     compute_cohort_retention users [] cohort_by = Ok empty_matrix)
  ∧ (∀ now users metric weeks,
       supported_metric metric →
       compute_weekly_growth now users [] metric weeks = Ok [])
  ∧ (∀ now users plans as_of,
       compute_revenue_metrics now users [] plans as_of
       = mkRevenue 0 (Finite 0) (Finite 0) (Finite 0) (Finite 0)).
Proof.
  split; [|split].
  - apply cohort_no_event.
  - apply growth_no_event.
  - apply revenue_no_paid_event.
Qed.

Lemma C7_witness :
  compute_cohort_retention scenario_users [] "week" = Ok empty_matrix
  ∧ compute_weekly_growth 0 scenario_users [] "signups" 12 = Ok []
  ∧ compute_revenue_metrics 0 scenario_users [] scenario_plans None
    = mkRevenue 0 (Finite 0) (Finite 0) (Finite 0) (Finite 0).
Proof.
  destruct C7_empty_events_give_empty_results as (Hc & Hg & Hr).
  split; [|split].
  - apply Hc. by left.
  - apply Hg. right. by eexists.
  - apply Hr.
Defined.

(** * Cohort retention *)

(** The count of a cell of the pivot is the number of distinct users of the
    cohort with an event in the period. *)
Lemma cohort_count_spec (merged : list CohortRow) (c : Timestamp) (p : Z) :
  default 0 (series_get (c, p)
               (groupby_nunique lex_le (λ r, (c_cohort r, c_period_number r))
                  c_user_id merged))
  = Z.of_nat (size (cohort_period_users merged c p)).
Proof.
  rewrite groupby_nunique_get, nunique_size. unfold cohort_period_users.
  do 4 f_equal. apply list_filter_iff. intros r.
  split; [intros [= -> ->]; done|intros [-> ->]; done].
Qed.

(** C2: the rows are divided by the count of the first column of the pivot
    ([cohort_sizes = cohort_pivot.iloc[:, 0]]), which is not the size of the
    cohort.  With two weekly cohorts of one user each, the user of the
    second one having the only event one week after the signup, the counts of
    that cohort are 0 and 1, the row is divided by 0 and comes out as NaN and
    +inf, where the division by the cohort size 1 gives 0 and 100.  With one
    cohort of two users, one of them active in the week of the signup and the
    other one a week later, the row is divided by 1 and both cells are 100,
    where the division by the cohort size 2 gives 50 and 50. *)
Theorem C2_rows_are_divided_by_first_count_not_cohort_size :
  cohort_size week_start two_cohort_users w2 = 1
  ∧ cohort_pivot (cohort_merged week_start two_cohort_users two_cohort_events)
    = ([0; 1], [(w1, [1; 0]); (w2, [0; 1])])
  ∧ Z.of_nat (size (cohort_period_users
                      (cohort_merged week_start two_cohort_users two_cohort_events) w2 0))
    = 0
  ∧ compute_cohort_retention two_cohort_users two_cohort_events "week"
    = Ok (mkMatrix [0; 1] [(w1, [Finite 100; Finite 0]); (w2, [NaN; PosInf])])
  ∧ retention_pct (cohort_size week_start two_cohort_users w2) <$> [0; 1]
    = [Finite 0; Finite 100]
  ∧ cohort_size week_start same_cohort_users w1 = 2
  ∧ cohort_pivot (cohort_merged week_start same_cohort_users same_cohort_events)
    = ([0; 1], [(w1, [1; 1])])
  ∧ compute_cohort_retention same_cohort_users same_cohort_events "week"
    = Ok (mkMatrix [0; 1] [(w1, [Finite 100; Finite 100])])
  ∧ retention_pct (cohort_size week_start same_cohort_users w1) <$> [1; 1]
    = [Finite 50; Finite 50].
Proof. vm_compute. repeat split; reflexivity. Qed.

(** * Weekly growth *)

Lemma weekly_growth_supported now users events metric weeks :
  supported_metric metric →
  compute_weekly_growth now users events metric weeks
  = Ok (fill_missing_weeks (weekly_series (metric_events now events metric weeks))).
Proof.
  intros Hs. unfold compute_weekly_growth, metric_events.
  destruct (decide (metric = "active_users"%string)) as [->|Hne].
  - cbn. do 3 f_equal. apply list_filter_iff. intros e. naive_solver.
  - destruct Hs as [?|[evt Hevt]]; [done|]. rewrite Hevt. cbn.
    do 3 f_equal. apply list_filter_iff. intros e. naive_solver.
Qed.

Lemma weekly_growth_inv now users events metric weeks out :
  compute_weekly_growth now users events metric weeks = Ok out →
  supported_metric metric
  ∧ out = fill_missing_weeks (weekly_series (metric_events now events metric weeks)).
Proof.
  intros Hout.
  assert (supported_metric metric) as Hs.
  { unfold compute_weekly_growth in Hout. unfold supported_metric.
    destruct (decide (metric = "active_users"%string)); [by left|].
    destruct (metric_map !! metric); [right; by eexists|done]. }
  split; [done|]. rewrite weekly_growth_supported in Hout by done. by injection Hout.
Qed.

Lemma length_pct_change_from prev l : length (pct_change_from prev l) = length l.
Proof. revert prev. induction l as [|x l IH]; intros prev; simpl; [done|]. by rewrite IH. Qed.

Lemma length_pct_change l : length (pct_change l) = length l.
Proof. destruct l; simpl; [done|]. by rewrite length_pct_change_from. Qed.

Lemma pct_change_from_lookup prev l i a b :
  (prev :: l) !! i = Some a → l !! i = Some b →
  pct_change_from prev l !! i
  = Some (F64.sub (F64.div (F64.of_int b) (F64.of_int a)) (Finite 1)).
Proof.
  revert prev i. induction l as [|x l IH]; intros prev i Ha Hb; [done|].
  destruct i as [|i]; simpl in *.
  - by simplify_eq.
  - by apply IH.
Qed.

Lemma pct_change_lookup_S l i a b :
  l !! i = Some a → l !! S i = Some b →
  pct_change l !! S i = Some (F64.sub (F64.div (F64.of_int b) (F64.of_int a)) (Finite 1)).
Proof.
  destruct l as [|x l]; [done|]. simpl. intros Ha Hb.
  by apply pct_change_from_lookup.
Qed.

Lemma pct_change_lookup_0 l x : l !! 0%nat = Some x → pct_change l !! 0%nat = Some NaN.
Proof. destruct l; [done|]. done. Qed.

(** The rounded percentage of a relative change between positive counts. *)
Lemma growth_pct_value (a b : Z) :
  0 < a →
  F64.round2
    (F64.mul (F64.sub (F64.div (F64.of_int b) (F64.of_int a)) (Finite 1)) (Finite 100))
  = Finite (F64.round2_Q ((inject_Z b / inject_Z a - 1) * 100)%Q).
Proof.
  intros Ha. rewrite div_of_int_pos by done.
  unfold F64.sub, F64.neg, F64.add, F64.mul, F64.round2. f_equal.
  apply round2_Q_proper. rewrite !Qred_correct. reflexivity.
Qed.

Lemma filter_none {A} (P : A → Prop) `{!∀ x, Decision (P x)} (l : list A) :
  (∀ x, x ∈ l → ¬ P x) → filter P l = [].
Proof.
  induction l as [|x l IH]; intros Hl; [done|].
  rewrite filter_cons_False by (apply Hl; left).
  apply IH. intros y Hy. apply Hl. by right.
Qed.

Section zip_rows.
Implicit Types (series : list (Z * Z)) (pct : list float64).

Let mk_row (g : Z * Z) (p : float64) : Growth.row := Growth.mk g.1 g.2 p.

Lemma zip_rows_weeks series pct :
  (length series ≤ length pct)%nat →
  Growth.week_start <$> zip_with mk_row series pct = series.*1.
Proof.
  revert pct. induction series as [|g series IH]; intros [|p pct] Hlen;
    simpl in *; try done; try lia.
  f_equal. apply IH. lia.
Qed.

Lemma zip_rows_values series pct :
  (length series ≤ length pct)%nat →
  Growth.value <$> zip_with mk_row series pct = series.*2.
Proof.
  revert pct. induction series as [|g series IH]; intros [|p pct] Hlen;
    simpl in *; try done; try lia.
  f_equal. apply IH. lia.
Qed.

Lemma zip_rows_pct series pct :
  (length pct ≤ length series)%nat →
  Growth.pct_change <$> zip_with mk_row series pct = pct.
Proof.
  revert pct. induction series as [|g series IH]; intros [|p pct] Hlen;
    simpl in *; try done; try lia.
  f_equal. apply IH. lia.
Qed.
End zip_rows.

Section weekly_series_facts.
Context (sel : list Event.t).

Let keys : list Timestamp := merge_sort Z.le (unique (observed_weeks sel)).

Lemma omap_Some_fmap {A B} (f : A → B) (l : list A) : omap (Some ∘ f) l = f <$> l.
Proof. induction l as [|x l IH]; [done|]. cbn. by rewrite IH. Qed.

Lemma weekly_series_weeks : Growth.week_start <$> weekly_series sel = keys.
Proof.
  unfold weekly_series. cbv zeta. rewrite zip_rows_weeks.
  - rewrite groupby_nunique_keys, omap_Some_fmap. done.
  - unfold fillna. rewrite !length_fmap, length_pct_change, length_fmap. done.
Qed.

Lemma weekly_series_values :
  Growth.value <$> weekly_series sel
  = (λ w, Z.of_nat (size (week_users sel w))) <$> keys.
Proof.
  unfold weekly_series. cbv zeta. rewrite zip_rows_values.
  - rewrite groupby_nunique_values, omap_Some_fmap.
    apply list_fmap_ext. intros _ w _. by rewrite nunique_size.
  - unfold fillna. rewrite !length_fmap, length_pct_change, length_fmap. done.
Qed.

Lemma weekly_series_pct :
  Growth.pct_change <$> weekly_series sel
  = (λ x, F64.round2 (F64.mul x (Finite 100)))
      <$> fillna (Finite 0) (pct_change (Growth.value <$> weekly_series sel)).
Proof.
  rewrite weekly_series_values. unfold weekly_series. cbv zeta.
  rewrite zip_rows_pct.
  - rewrite groupby_nunique_values, omap_Some_fmap. do 3 f_equal.
    apply list_fmap_ext. intros _ w _. by rewrite nunique_size.
  - unfold fillna. rewrite !length_fmap, length_pct_change, length_fmap. done.
Qed.

Lemma elem_of_keys w : w ∈ keys ↔ w ∈ observed_weeks sel.
Proof. unfold keys. by rewrite merge_sort_Permutation, elem_of_unique. Qed.

Lemma NoDup_keys : NoDup keys.
Proof. unfold keys. rewrite merge_sort_Permutation. apply NoDup_unique. Qed.

Lemma sorted_keys : StronglySorted Z.le keys.
Proof. apply StronglySorted_merge_sort; apply _. Qed.

Lemma week_users_unobserved w : w ∉ observed_weeks sel → week_users sel w = ∅.
Proof.
  intros Hw. unfold week_users.
  rewrite filter_none; [done|].
  intros e He <-. apply Hw. unfold observed_weeks.
  by apply (list_elem_of_fmap_2 (λ e, week_start (Event.event_date e))).
Qed.
End weekly_series_facts.

(** ** Calendar weeks *)

Lemma week_start_aligned t : ∃ k, week_start t = timedelta_days (7 * k - 3).
Proof.
  unfold week_start, timedelta_days. set (d := day_number t).
  exists ((d + 3) / 7). f_equal. pose proof (Z.div_mod (d + 3) 7). lia.
Qed.

Lemma week_start_of_aligned k : week_start (timedelta_days (7 * k - 3)) = timedelta_days (7 * k - 3).
Proof.
  unfold week_start, timedelta_days, day_number.
  rewrite Z.div_mul by done.
  replace (7 * k - 3 + 3) with (k * 7) by lia.
  rewrite Z.mod_mul by done. f_equal. lia.
Qed.

Lemma week_start_idemp t : week_start (week_start t) = week_start t.
Proof. destruct (week_start_aligned t) as [k ->]. apply week_start_of_aligned. Qed.

Lemma aligned_weeks_apart (a b : Timestamp) :
  week_start a = a → week_start b = b → a ≤ b →
  ∃ j : nat, b = a + Z.of_nat j * timedelta_days 7
             ∧ (b - a) / timedelta_days 7 = Z.of_nat j.
Proof.
  intros Ha Hb Hab.
  destruct (week_start_aligned a) as [ka Hka]. rewrite Ha in Hka.
  destruct (week_start_aligned b) as [kb Hkb]. rewrite Hb in Hkb.
  subst a b. unfold timedelta_days, ns_per_day in *.
  exists (Z.to_nat (kb - ka)). rewrite Z2Nat.id by lia. split; [lia|].
  replace ((7 * kb - 3) * 86400000000000 - (7 * ka - 3) * 86400000000000)
    with ((kb - ka) * (7 * 86400000000000)) by lia.
  by rewrite Z.div_mul.
Qed.

(** ** [date_range] *)

Section date_range_facts.
Context (lo hi step : Z) (Hstep : 0 < step) (Hle : lo ≤ hi).

Lemma date_range_unfold :
  date_range lo hi step
  = (λ k : nat, lo + Z.of_nat k * step) <$> seq 0 (S (Z.to_nat ((hi - lo) / step))).
Proof using Hle. unfold date_range. by rewrite bool_decide_true. Qed.

Lemma length_date_range :
  length (date_range lo hi step) = S (Z.to_nat ((hi - lo) / step)).
Proof using Hle. by rewrite date_range_unfold, length_fmap, length_seq. Qed.

Lemma elem_of_date_range w :
  w ∈ date_range lo hi step
  ↔ ∃ k : nat, w = lo + Z.of_nat k * step ∧ Z.of_nat k ≤ (hi - lo) / step.
Proof using Hle Hstep.
  rewrite date_range_unfold, list_elem_of_fmap.
  assert (0 ≤ (hi - lo) / step) by (apply Z.div_pos; lia).
  split; intros (k & -> & Hk); exists k; (split; [done|]).
  - apply elem_of_seq in Hk. lia.
  - apply elem_of_seq. lia.
Qed.

Lemma date_range_bounds w : w ∈ date_range lo hi step → lo ≤ w ≤ hi.
Proof using Hle Hstep.
  intros (k & -> & Hk)%elem_of_date_range.
  pose proof (Z.mul_div_le (hi - lo) step Hstep).
  split; [nia|]. nia.
Qed.

Lemma NoDup_date_range : NoDup (date_range lo hi step).
Proof using Hle Hstep.
  rewrite date_range_unfold. apply NoDup_fmap_2_strong; [|apply NoDup_seq].
  intros j k _ _ Hjk. nia.
Qed.

Lemma sorted_date_range : StronglySorted Z.le (date_range lo hi step).
Proof using Hle Hstep.
  rewrite date_range_unfold. generalize (S (Z.to_nat ((hi - lo) / step))) as n.
  generalize 0%nat as j. intros j n. revert j.
  induction n as [|n IH]; intros j; simpl; constructor; [apply IH|].
  apply Forall_forall. intros w (k & -> & Hk%elem_of_seq)%list_elem_of_fmap. nia.
Qed.
End date_range_facts.

(** ** Reindexing *)

Section reindex_facts.
Implicit Types (ts : list Growth.row) (idx : list Timestamp).

Lemma reindex_weeks_rows idx ts : reindex_weeks idx ts = row_for ts <$> idx.
Proof. reflexivity. Qed.

Lemma row_for_week ts w : Growth.week_start (row_for ts w) = w.
Proof.
  unfold row_for.
  destruct (filter (λ r, Growth.week_start r = w) ts) as [|r rs] eqn:Hf; [done|].
  assert (r ∈ filter (λ r, Growth.week_start r = w) ts) as Hr by (rewrite Hf; left).
  by apply list_elem_of_filter in Hr as [? _].
Qed.

Lemma reindex_weeks_weeks idx ts : Growth.week_start <$> reindex_weeks idx ts = idx.
Proof.
  rewrite reindex_weeks_rows, <- list_fmap_compose.
  rewrite <- (list_fmap_id idx) at 2. apply list_fmap_ext.
  intros _ w _. apply row_for_week.
Qed.

Lemma row_for_unobserved ts w :
  w ∉ Growth.week_start <$> ts → row_for ts w = Growth.mk w 0 (Finite 0).
Proof.
  intros Hw. unfold row_for. rewrite filter_none; [done|].
  intros r Hr <-. apply Hw. by apply list_elem_of_fmap_2.
Qed.

Lemma row_for_observed ts r :
  NoDup (Growth.week_start <$> ts) → r ∈ ts → row_for ts (Growth.week_start r) = r.
Proof.
  unfold row_for. induction ts as [|x ts IH]; intros Hnd Hr.
  { by apply elem_of_nil in Hr. }
  rewrite fmap_cons in Hnd. apply NoDup_cons in Hnd as [Hx Hnd].
  destruct (decide (Growth.week_start x = Growth.week_start r)) as [Heq|Hne].
  - rewrite filter_cons_True by done. simpl.
    apply elem_of_cons in Hr as [->|Hr]; [done|].
    exfalso. apply Hx. rewrite Heq. by apply list_elem_of_fmap_2.
  - rewrite filter_cons_False by done.
    apply elem_of_cons in Hr as [->|Hr]; [done|]. by apply IH.
Qed.
End reindex_facts.

(** ** Minimum and maximum of the observed weeks *)

Lemma foldr_min_spec (x : Z) (l : list Z) :
  (foldr Z.min x l = x ∨ foldr Z.min x l ∈ l)
  ∧ foldr Z.min x l ≤ x ∧ ∀ y, y ∈ l → foldr Z.min x l ≤ y.
Proof.
  induction l as [|z l (Hin & Hx & Hall)]; simpl.
  - split; [by left|]. split; [lia|]. intros y Hy. by apply elem_of_nil in Hy.
  - split; [|split].
    + destruct (Z.min_spec z (foldr Z.min x l)) as [[_ ->]|[_ ->]].
      * right. left.
      * destruct Hin as [?|?]; [by left|right; by right].
    + lia.
    + intros y [->|Hy]%elem_of_cons; [lia|]. specialize (Hall y Hy). lia.
Qed.

Lemma foldr_max_spec (x : Z) (l : list Z) :
  (foldr Z.max x l = x ∨ foldr Z.max x l ∈ l)
  ∧ x ≤ foldr Z.max x l ∧ ∀ y, y ∈ l → y ≤ foldr Z.max x l.
Proof.
  induction l as [|z l (Hin & Hx & Hall)]; simpl.
  - split; [by left|]. split; [lia|]. intros y Hy. by apply elem_of_nil in Hy.
  - split; [|split].
    + destruct (Z.max_spec z (foldr Z.max x l)) as [[_ ->]|[_ ->]].
      * destruct Hin as [?|?]; [by left|right; by right].
      * right. left.
    + lia.
    + intros y [->|Hy]%elem_of_cons; [lia|]. specialize (Hall y Hy). lia.
Qed.

(** ** The gap-filled series *)

Lemma week_step_pos : 0 < timedelta_days 7.
Proof. reflexivity. Qed.

Lemma observed_week_aligned (sel : list Event.t) (w : Timestamp) :
  w ∈ observed_weeks sel → week_start w = w.
Proof. intros (e & -> & _)%list_elem_of_fmap. apply week_start_idemp. Qed.

Lemma filled_series_structure (sel : list Event.t) :
  sel ≠ [] →
  ∃ lo hi,
    lo ∈ observed_weeks sel ∧ hi ∈ observed_weeks sel
    ∧ (∀ w, w ∈ observed_weeks sel → lo ≤ w ≤ hi)
    ∧ fill_missing_weeks (weekly_series sel)
      = row_for (weekly_series sel) <$> date_range lo hi (timedelta_days 7).
Proof.
  intros Hsel.
  pose proof (weekly_series_weeks sel) as Hweeks.
  destruct (weekly_series sel) as [|r ts'] eqn:Hts.
  { exfalso. destruct sel as [|e sel']; [done|].
    assert (week_start (Event.event_date e) ∈ Growth.week_start <$> @nil Growth.row)
      as Hin by (rewrite Hweeks; apply elem_of_keys; left).
    rewrite fmap_nil in Hin. by apply elem_of_nil in Hin. }
  set (ts := r :: ts') in *.
  assert (∀ w, w ∈ Growth.week_start <$> ts ↔ w ∈ observed_weeks sel) as Hobs.
  { intros w. rewrite Hweeks. apply elem_of_keys. }
  assert (Growth.week_start r ∈ Growth.week_start <$> ts) as Hr by (subst ts; left).
  destruct (foldr_min_spec (Growth.week_start r) (Growth.week_start <$> ts))
    as (Hlo_in & _ & Hlo).
  destruct (foldr_max_spec (Growth.week_start r) (Growth.week_start <$> ts))
    as (Hhi_in & _ & Hhi).
  eexists _, _. split; [|split; [|split; [|reflexivity]]].
  - apply Hobs. destruct Hlo_in as [->|?]; done.
  - apply Hobs. destruct Hhi_in as [->|?]; done.
  - intros w Hw%Hobs. split; [by apply Hlo|by apply Hhi].
Qed.

Lemma weekly_series_value (sel : list Event.t) (r : Growth.row) :
  r ∈ weekly_series sel →
  Growth.value r = Z.of_nat (size (week_users sel (Growth.week_start r))).
Proof.
  intros (i & Hi)%list_elem_of_lookup.
  pose proof (weekly_series_values sel) as Hv.
  rewrite <- weekly_series_weeks, <- list_fmap_compose in Hv.
  apply (f_equal (λ l, l !! i)) in Hv. rewrite !list_lookup_fmap, Hi in Hv.
  simpl in Hv. by injection Hv.
Qed.

Lemma week_users_observed (sel : list Event.t) (w : Timestamp) :
  w ∈ observed_weeks sel → (0 < size (week_users sel w))%nat.
Proof.
  intros (e & -> & He)%list_elem_of_fmap.
  assert (Event.user_id e ∈ week_users sel (week_start (Event.event_date e))) as Hin.
  { unfold week_users. rewrite elem_of_list_to_set. apply list_elem_of_fmap_2.
    by apply list_elem_of_filter. }
  destruct (size (week_users sel (week_start (Event.event_date e)))) eqn:Hsize; [|lia].
  apply size_empty_inv in Hsize. rewrite Hsize in Hin. by apply elem_of_empty in Hin.
Qed.

Lemma filter_fmap_comm {A B} (f : A → B) (P : B → Prop) `{!∀ y, Decision (P y)}
    (l : list A) :
  filter P (f <$> l) = f <$> filter (λ x, P (f x)) l.
Proof.
  induction l as [|x l IH]; [done|]. rewrite fmap_cons.
  destruct (decide (P (f x))).
  - rewrite !filter_cons_True by done. rewrite fmap_cons. by f_equal.
  - by rewrite !filter_cons_False.
Qed.

Lemma StronglySorted_filter {A} (R : relation A) (P : A → Prop)
    `{!∀ x, Decision (P x)} (l : list A) :
  StronglySorted R l → StronglySorted R (filter P l).
Proof.
  induction 1 as [|x l Hl IH Hx]; [constructor|].
  destruct (decide (P x)).
  - rewrite filter_cons_True by done. constructor; [done|].
    rewrite Forall_forall in Hx. apply Forall_forall.
    intros y [_ Hy]%list_elem_of_filter. by apply Hx.
  - by rewrite filter_cons_False.
Qed.

Lemma aligned_add_weeks (a : Timestamp) (k : Z) :
  week_start a = a → week_start (a + k * timedelta_days 7) = a + k * timedelta_days 7.
Proof.
  intros Ha. destruct (week_start_aligned a) as [ka Hka]. rewrite Ha in Hka. subst a.
  replace (timedelta_days (7 * ka - 3) + k * timedelta_days 7)
    with (timedelta_days (7 * (ka + k) - 3)) by (unfold timedelta_days; lia).
  apply week_start_of_aligned.
Qed.

Section filled_series.
Context (sel : list Event.t) (lo hi : Timestamp).
Context (Hlo : lo ∈ observed_weeks sel) (Hhi : hi ∈ observed_weeks sel).
Context (Hbounds : ∀ w, w ∈ observed_weeks sel → lo ≤ w ≤ hi).

Let ts := weekly_series sel.
Let idx := date_range lo hi (timedelta_days 7).

Lemma lo_le_hi : lo ≤ hi.
Proof using Type*. by apply Hbounds. Qed.

Lemma calendar_week_in_range w : week_start w = w → lo ≤ w ≤ hi → w ∈ idx.
Proof using Type*.
  intros Hw [Hl Hh]. apply elem_of_date_range; [apply week_step_pos|apply lo_le_hi|].
  destruct (aligned_weeks_apart lo w) as (j & Hj & Hdiv);
    [by eapply observed_week_aligned|done|done|].
  exists j. split; [done|]. rewrite <- Hdiv.
  apply Z.div_le_mono; [apply week_step_pos|lia].
Qed.

Lemma range_is_calendar_week w : w ∈ idx → week_start w = w ∧ lo ≤ w ≤ hi.
Proof using Type*.
  intros Hw. split.
  - apply elem_of_date_range in Hw as (k & -> & _);
      [|apply week_step_pos|apply lo_le_hi].
    apply aligned_add_weeks. by eapply observed_week_aligned.
  - eapply date_range_bounds; [apply week_step_pos|apply lo_le_hi|done].
Qed.

Lemma series_week_observed r : r ∈ ts → Growth.week_start r ∈ observed_weeks sel.
Proof.
  intros Hr. apply elem_of_keys. rewrite <- weekly_series_weeks.
  by apply list_elem_of_fmap_2.
Qed.

Lemma NoDup_series_weeks : NoDup (Growth.week_start <$> ts).
Proof. unfold ts. rewrite weekly_series_weeks. apply NoDup_keys. Qed.

Lemma row_for_series_observed w :
  w ∈ observed_weeks sel → row_for ts w ∈ ts.
Proof.
  intros Hw. apply elem_of_keys in Hw. rewrite <- weekly_series_weeks in Hw.
  apply list_elem_of_fmap in Hw as (r & -> & Hr).
  rewrite row_for_observed; [done|apply NoDup_series_weeks|done].
Qed.

Lemma row_for_series_unobserved w :
  w ∉ observed_weeks sel → row_for ts w = Growth.mk w 0 (Finite 0).
Proof.
  intros Hw. apply row_for_unobserved. unfold ts.
  rewrite weekly_series_weeks. by rewrite elem_of_keys.
Qed.

Lemma observed_part_of_range : filter (λ w, w ∈ observed_weeks sel) idx
                               = Growth.week_start <$> ts.
Proof using Type*.
  apply (StronglySorted_unique Z.le).
  - apply StronglySorted_filter, sorted_date_range; [apply week_step_pos|apply lo_le_hi].
  - unfold ts. rewrite weekly_series_weeks. apply sorted_keys.
  - apply NoDup_Permutation.
    + apply NoDup_filter, NoDup_date_range; [apply week_step_pos|apply lo_le_hi].
    + apply NoDup_series_weeks.
    + intros w. unfold ts. rewrite weekly_series_weeks, elem_of_keys, list_elem_of_filter.
      split; [by intros [? _]|]. intros Hw. split; [done|].
      apply calendar_week_in_range; [by eapply observed_week_aligned|by apply Hbounds].
Qed.

Lemma observed_rows_of_range :
  filter (λ r, Growth.week_start r ∈ observed_weeks sel) (row_for ts <$> idx) = ts.
Proof using Type*.
  rewrite filter_fmap_comm.
  erewrite (list_filter_iff _ (λ w, w ∈ observed_weeks sel));
    [|intros w; by rewrite row_for_week].
  rewrite observed_part_of_range, <- list_fmap_compose.
  transitivity (id <$> ts); [|apply list_fmap_id]. apply list_fmap_ext.
  intros i r Hr. simpl. apply row_for_observed; [apply NoDup_series_weeks|].
  by eapply list_elem_of_lookup_2.
Qed.
End filled_series.

(** C6: for a supported metric with at least one counted event, the returned
    series has [floor((max_week - min_week) / 7 days) + 1] rows, no duplicate
    [week_start], exactly the calendar weeks from the minimum to the maximum
    observed week, each with its distinct-user count, which is 0 for a week
    without events. *)
Theorem C6_weekly_series_is_contiguous
    (now : Timestamp) (users : list User.t) (events : list Event.t)
    (metric : string) (weeks : Z) :
  supported_metric metric →
  let sel := metric_events now events metric weeks in
  sel ≠ [] →
  ∃ out lo hi,
    compute_weekly_growth now users events metric weeks = Ok out
    ∧ lo ∈ observed_weeks sel ∧ hi ∈ observed_weeks sel
    ∧ (∀ w, w ∈ observed_weeks sel → lo ≤ w ≤ hi)
    ∧ length out = S (Z.to_nat ((hi - lo) / timedelta_days 7))
    ∧ NoDup (Growth.week_start <$> out)
    ∧ (∀ w, w ∈ Growth.week_start <$> out ↔ week_start w = w ∧ lo ≤ w ≤ hi)
    ∧ (∀ r, r ∈ out →
         Growth.value r = Z.of_nat (size (week_users sel (Growth.week_start r))))
    ∧ (∀ r, r ∈ out → Growth.week_start r ∉ observed_weeks sel → Growth.value r = 0).
Proof.
  intros Hs sel Hsel.
  destruct (filled_series_structure sel Hsel) as (lo & hi & Hlo & Hhi & Hb & Hfill).
  pose proof (lo_le_hi sel lo hi Hlo Hhi Hb) as Hle.
  exists (row_for (weekly_series sel) <$> date_range lo hi (timedelta_days 7)), lo, hi.
  assert (Growth.week_start <$> (row_for (weekly_series sel) <$> date_range lo hi (timedelta_days 7))
          = date_range lo hi (timedelta_days 7)) as Hweeks
    by apply reindex_weeks_weeks.
  assert (∀ r, r ∈ row_for (weekly_series sel) <$> date_range lo hi (timedelta_days 7) →
               Growth.week_start r ∉ observed_weeks sel → Growth.value r = 0) as Hzero.
  { intros r (w & -> & _)%list_elem_of_fmap Hw. rewrite row_for_week in Hw.
    by rewrite row_for_series_unobserved. }
  split; [rewrite weekly_growth_supported by done; fold sel; by rewrite Hfill|].
  do 3 (split; [done|]).
  split; [by rewrite length_fmap, length_date_range|].
  split; [rewrite Hweeks; apply NoDup_date_range; [apply week_step_pos|done]|].
  split; [|split; [|done]].
  - intros w. rewrite Hweeks. split.
    + by apply (range_is_calendar_week sel).
    + intros [? ?]. by apply (calendar_week_in_range sel).
  - intros r Hr. destruct (decide (Growth.week_start r ∈ observed_weeks sel)) as [Hw|Hw].
    + apply weekly_series_value.
      apply list_elem_of_fmap in Hr as (w & -> & _). rewrite row_for_week in Hw.
      by apply row_for_series_observed.
    + rewrite (Hzero r Hr Hw). by rewrite week_users_unobserved.
Qed.

Lemma C6_witness :
  ∃ out lo hi,
    compute_weekly_growth (date 2025 2 1) [] signups_with_gap "signups" 12 = Ok out
    ∧ lo ∈ observed_weeks (metric_events (date 2025 2 1) signups_with_gap "signups" 12)
    ∧ hi ∈ observed_weeks (metric_events (date 2025 2 1) signups_with_gap "signups" 12)
    ∧ length out = S (Z.to_nat ((hi - lo) / timedelta_days 7))
    ∧ NoDup (Growth.week_start <$> out).
Proof.
  destruct (C6_weekly_series_is_contiguous (date 2025 2 1) [] signups_with_gap
              "signups" 12) as (out & lo & hi & H1 & H2 & H3 & _ & H5 & H6 & _).
  - right. by eexists.
  - vm_compute. discriminate.
  - by exists out, lo, hi.
Defined.

Lemma weekly_series_first_pct (sel : list Event.t) (r : Growth.row) :
  weekly_series sel !! 0%nat = Some r → Growth.pct_change r = Finite 0.
Proof.
  intros Hr. pose proof (weekly_series_pct sel) as Hp.
  apply (f_equal (λ l, l !! 0%nat)) in Hp.
  unfold fillna in Hp. rewrite !list_lookup_fmap, Hr in Hp.
  erewrite pct_change_lookup_0 in Hp by (by rewrite list_lookup_fmap, Hr).
  simpl in Hp. injection Hp as ->. reflexivity.
Qed.

Lemma weekly_series_next_pct (sel : list Event.t) (i : nat) (a b : Growth.row) :
  weekly_series sel !! i = Some a → weekly_series sel !! S i = Some b →
  0 < Growth.value a
  ∧ Growth.pct_change b
    = Finite (F64.round2_Q
                ((inject_Z (Growth.value b) / inject_Z (Growth.value a) - 1) * 100)%Q).
Proof.
  intros Ha Hb.
  assert (0 < Growth.value a) as Hpos.
  { rewrite (weekly_series_value sel a) by (by eapply list_elem_of_lookup_2).
    assert (Growth.week_start a ∈ observed_weeks sel) as Hobs
      by (apply series_week_observed; by eapply list_elem_of_lookup_2).
    pose proof (week_users_observed sel _ Hobs). lia. }
  split; [done|].
  pose proof (weekly_series_pct sel) as Hp.
  apply (f_equal (λ l, l !! S i)) in Hp.
  unfold fillna in Hp. rewrite !list_lookup_fmap, Hb in Hp.
  erewrite pct_change_lookup_S in Hp.
  2:{ by rewrite list_lookup_fmap, Ha. }
  2:{ by rewrite list_lookup_fmap, Hb. }
  rewrite div_of_int_pos in Hp by done.
  cbv [fmap option_fmap option_map] in Hp. injection Hp as ->.
  rewrite <- growth_pct_value by done.
  rewrite div_of_int_pos by done. reflexivity.
Qed.

(** C3, as amended: [pct_change] is computed on the observed weeks before the
    gaps are filled.  A week without events carries value 0 and pct_change 0;
    the first observed week has pct_change 0; every later observed week holds
    the relative change of its count against the previous observed week, in
    percent, rounded to two decimals. *)
Theorem C3_pct_change_is_taken_before_gap_filling
    (now : Timestamp) (users : list User.t) (events : list Event.t)
    (metric : string) (weeks : Z) (out : list Growth.row) :
  compute_weekly_growth now users events metric weeks = Ok out →
  let sel := metric_events now events metric weeks in
  let observed := filter (λ r, Growth.week_start r ∈ observed_weeks sel) out in
  (∀ r, r ∈ out → Growth.week_start r ∉ observed_weeks sel →
        Growth.value r = 0 ∧ Growth.pct_change r = Finite 0)
  ∧ (∀ r, observed !! 0%nat = Some r → Growth.pct_change r = Finite 0)
  ∧ (∀ i a b, observed !! i = Some a → observed !! S i = Some b →
       0 < Growth.value a
       ∧ Growth.pct_change b
         = Finite (F64.round2_Q
                     ((inject_Z (Growth.value b) / inject_Z (Growth.value a) - 1) * 100)%Q)).
Proof.
  intros [Hs ->]%weekly_growth_inv sel observed. subst observed. fold sel.
  destruct (decide (sel = [])) as [Hnil|Hsel].
  { rewrite Hnil. split; [|split].
    - intros r Hr. by apply elem_of_nil in Hr.
    - intros r Hr. done.
    - intros i a b Ha. done. }
  destruct (filled_series_structure sel Hsel) as (lo & hi & Hlo & Hhi & Hb & Hfill).
  rewrite Hfill. rewrite (observed_rows_of_range sel lo hi) by done.
  split; [|split].
  - intros r (w & -> & _)%list_elem_of_fmap Hw. rewrite row_for_week in Hw.
    by rewrite row_for_series_unobserved.
  - apply weekly_series_first_pct.
  - apply weekly_series_next_pct.
Qed.

Lemma C3_witness :
  compute_weekly_growth (date 2025 2 1) [] signups_with_gap "signups" 12
  = Ok [Growth.mk w1 5 (Finite 0); Growth.mk w2 0 (Finite 0);
        Growth.mk w3 3 (Finite (-40))]
  ∧ 0 < Growth.value (Growth.mk w1 5 (Finite 0))
  ∧ Growth.pct_change (Growth.mk w3 3 (Finite (-40)))
    = Finite (F64.round2_Q ((inject_Z 3 / inject_Z 5 - 1) * 100)%Q).
Proof.
  assert (compute_weekly_growth (date 2025 2 1) [] signups_with_gap "signups" 12
          = Ok [Growth.mk w1 5 (Finite 0); Growth.mk w2 0 (Finite 0);
                Growth.mk w3 3 (Finite (-40))]) as Hrun
    by (vm_compute; reflexivity).
  split; [exact Hrun|].
  destruct (C3_pct_change_is_taken_before_gap_filling _ _ _ _ _ _ Hrun)
    as (_ & _ & Hnext).
  apply (Hnext 0%nat (Growth.mk w1 5 (Finite 0)) (Growth.mk w3 3 (Finite (-40))));
    vm_compute; reflexivity.
Defined.

(** C3, as stated, fails: five sign-ups in one week and none in the next give
    a one-row series, and a week without events between two observed weeks
    gets pct_change 0, not -100. *)
Lemma C3_counterexample_gap_week_has_zero_pct_change :
  compute_weekly_growth (date 2025 2 1) [] signups_week1 "signups" 12
  ≠ Ok [Growth.mk w1 5 (Finite 0); Growth.mk w2 0 (Finite (-100))]
  ∧ compute_weekly_growth (date 2025 2 1) [] signups_with_gap "signups" 12
    = Ok [Growth.mk w1 5 (Finite 0); Growth.mk w2 0 (Finite 0);
          Growth.mk w3 3 (Finite (-40))].
Proof. split; vm_compute; [discriminate|reflexivity]. Qed.

(** * Funnel: what the previous-stage column holds *)

Lemma relative_change_finite (a b : Z) :
  0 < a →
  F64.sub (F64.div (F64.of_int b) (F64.of_int a)) (Finite 1)
  = Finite (Qred (Qred (inject_Z b / inject_Z a) + Qred (- 1))).
Proof. intros Ha. by rewrite div_of_int_pos. Qed.

(** For every events table and stage list, the cell of
    [conversion_from_prev_pct] after a stage with a positive count is the
    relative change of the count, [(b / a - 1) * 100], rounded; the first
    cell is 100. *)
Lemma funnel_prev_pct_is_relative_change
    (events : list Event.t) (stages : option (list string)) (i : nat) (a b : Z) :
  users (compute_funnel events stages) !! i = Some a →
  users (compute_funnel events stages) !! S i = Some b →
  0 < a →
  conversion_from_prev_pct (compute_funnel events stages) !! S i
  = Some (Finite (F64.round2_Q ((inject_Z b / inject_Z a - 1) * 100)%Q)).
Proof.
  unfold compute_funnel. cbn [users conversion_from_prev_pct].
  set (counts := default 0 <$> reindex _ _). intros Ha Hb Hpos.
  unfold fillna. rewrite !list_lookup_fmap.
  rewrite (pct_change_lookup_S counts i a b) by done.
  rewrite relative_change_finite by done.
  cbv [fmap option_fmap option_map F64.isna]. f_equal.
  set (q := Qred (Qred (inject_Z b / inject_Z a) + Qred (- 1))).
  assert (q == inject_Z b / inject_Z a - 1)%Q as Hq
    by (unfold q; rewrite !Qred_correct; reflexivity).
  unfold F64.neb. destruct (Qeq_bool q 1) eqn:Hone; simpl.
  - apply Qeq_bool_iff in Hone. f_equal. apply round2_Q_proper.
    rewrite <- Hq, Hone. reflexivity.
  - f_equal. apply round2_Q_proper. rewrite Qred_correct, Hq. reflexivity.
Qed.

Lemma funnel_first_prev_pct (events : list Event.t) (stages : option (list string)) (a : Z) :
  users (compute_funnel events stages) !! 0%nat = Some a →
  conversion_from_prev_pct (compute_funnel events stages) !! 0%nat = Some (Finite 100).
Proof.
  unfold compute_funnel. cbn [users conversion_from_prev_pct].
  set (counts := default 0 <$> reindex _ _). intros Ha.
  unfold fillna. rewrite !list_lookup_fmap.
  rewrite (pct_change_lookup_0 counts a) by done. reflexivity.
Qed.

(** The count of a stage is the number of distinct users with an event of
    that type, 0 when there is none. *)
Lemma funnel_count_is_distinct_users
    (events : list Event.t) (stages : list string) (i : nat) (s : string) :
  stages !! i = Some s →
  users (compute_funnel events (Some stages)) !! i
  = Some (Z.of_nat (size (list_to_set
       (Event.user_id <$> filter (λ e, Event.event_type e = s) events) : gset Z))).
Proof.
  intros Hs. unfold compute_funnel, reindex. cbn [users default].
  change (id stages) with stages.
  rewrite !list_lookup_fmap, Hs. cbn [fmap option_fmap option_map]. f_equal.
  rewrite groupby_nunique_get, nunique_size. do 4 f_equal.
Qed.

(** * DataFrame objects *)

Lemma series_get_None {K V} `{EqDecision K} (k : K) (s : list (K * V)) :
  series_get k s = None ↔ k ∉ s.*1.
Proof.
  induction s as [|[k' v] s IH]; simpl.
  - split; [intros _; apply not_elem_of_nil|done].
  - destruct (decide (k = k')) as [->|Hne].
    + split; [done|]. intros Hk. exfalso. apply Hk. left.
    + rewrite IH, not_elem_of_cons. naive_solver.
Qed.

Lemma get_column_missing (name : string) (df : DataFrame) :
  name ∉ column_labels df → get_column name df = Raise (KeyError name).
Proof.
  intros Hn. unfold get_column.
  by rewrite (proj2 (series_get_None name df) Hn).
Qed.

Lemma series_get_set_column_eq (name : string) (col : column) (df : DataFrame) :
  series_get name (set_column name col df) = Some col.
Proof.
  induction df as [|[n c] df IH]; simpl.
  - by rewrite decide_True.
  - destruct (decide (name = n)) as [->|Hne]; simpl.
    + by rewrite decide_True.
    + by rewrite decide_False.
Qed.

Lemma series_get_set_column_ne (name name' : string) (col : column) (df : DataFrame) :
  name ≠ name' → series_get name' (set_column name col df) = series_get name' df.
Proof.
  intros Hne. induction df as [|[n c] df IH]; simpl.
  - by rewrite decide_False.
  - destruct (decide (name = n)) as [->|Hn]; simpl.
    + by rewrite !decide_False.
    + destruct (decide (name' = n)); [done|apply IH].
Qed.

Lemma set_column_labels (name : string) (col : column) (df : DataFrame) :
  name ∈ column_labels df → column_labels (set_column name col df) = column_labels df.
Proof.
  unfold column_labels. induction df as [|[n c] df IH]; simpl; intros Hin.
  - by apply elem_of_nil in Hin.
  - destruct (decide (name = n)) as [->|Hn]; simpl; [done|].
    f_equal. apply IH. apply elem_of_cons in Hin as [?|?]; done.
Qed.

Lemma get_column_Ok_labels (name : string) (df : DataFrame) (c : column) :
  get_column name df = Ok c → series_get name df = Some c ∧ name ∈ column_labels df.
Proof.
  unfold get_column. destruct (series_get name df) as [c'|] eqn:Hget; [|done].
  intros [= ->]. split; [done|].
  destruct (decide (name ∈ column_labels df)) as [|Hn]; [done|].
  apply (series_get_None name df) in Hn. congruence.
Qed.

(** Running the steps of a store computation. *)
Lemma run_bind {A B} (m : Frames.M A) (k : A → Frames.M B) (h : Frames.store) :
  (m ≫= k) h = match m h with
               | (Ok a, h') => k a h'
               | (Raise e, h') => (Raise e, h')
               end.
Proof. reflexivity. Qed.

Lemma run_load {A} (r : nat) (k : DataFrame → Frames.M A) (h : Frames.store) :
  (Frames.load r ≫= k) h = k (default [] (h !! r)) h.
Proof. reflexivity. Qed.

Lemma run_lift_Ok {A B} (a : A) (k : A → Frames.M B) (h : Frames.store) :
  (Frames.lift (Ok a) ≫= k) h = k a h.
Proof. reflexivity. Qed.

Lemma run_lift_Raise {A B} (e : exn) (k : A → Frames.M B) (h : Frames.store) :
  (Frames.lift (Raise e) ≫= k) h = (Raise e, h).
Proof. reflexivity. Qed.

Lemma run_ret {A B} (a : A) (k : A → Frames.M B) (h : Frames.store) :
  (mret a ≫= k) h = k a h.
Proof. reflexivity. Qed.

Lemma read_missing {A} (view : column → outcome A) (name : string) (df : DataFrame) (e : exn) :
  get_column name df = Raise e → read view name df = Raise e.
Proof. intros Hg. unfold read. by rewrite Hg. Qed.

Lemma active_users_not_in_metric_map (metric : string) :
  is_Some (metric_map !! metric) → metric ≠ "active_users"%string.
Proof. intros [evt Hevt] ->. vm_compute in Hevt. discriminate. Qed.

(** C8, as amended: when the events table has no [event_type] column, the
    funnel, revenue, plan and source engines, and the growth engine for the
    metrics of [metric_map], raise [KeyError] carrying the label of the
    missing column, before anything is allocated or computed. *)
Theorem C8_missing_event_type_raises_KeyError
    (h : Frames.store) (users_df events_df plans_df sources_df : nat)
    (stages : option (list string)) (now : Timestamp) (as_of : option Timestamp)
    (metric : string) (weeks : Z) :
  "event_type"%string ∉ column_labels (default [] (h !! events_df)) →
  Frames.compute_funnel events_df stages h = (Raise (KeyError "event_type"), h)
  ∧ Frames.compute_revenue_metrics now users_df events_df plans_df as_of h
    = (Raise (KeyError "event_type"), h)
  ∧ Frames.compute_plan_metrics users_df events_df plans_df h
    = (Raise (KeyError "event_type"), h)
  ∧ Frames.compute_source_metrics users_df events_df sources_df h
    = (Raise (KeyError "event_type"), h)
  ∧ (is_Some (metric_map !! metric) →
     Frames.compute_weekly_growth now users_df events_df metric weeks h
     = (Raise (KeyError "event_type"), h)).
Proof.
  intros Hmissing%get_column_missing.
  pose proof (read_missing as_strs _ _ _ Hmissing) as Hread.
  repeat split.
  - unfold Frames.compute_funnel. by rewrite run_load, Hread, run_lift_Raise.
  - unfold Frames.compute_revenue_metrics. by rewrite run_load, Hread, run_lift_Raise.
  - unfold Frames.compute_plan_metrics. by rewrite run_load, Hread, run_lift_Raise.
  - unfold Frames.compute_source_metrics. by rewrite run_load, Hread, run_lift_Raise.
  - intros Hm. pose proof (active_users_not_in_metric_map metric Hm) as Hne.
    destruct Hm as [evt Hevt].
    unfold Frames.compute_weekly_growth. cbv zeta.
    rewrite run_load, decide_False by done. rewrite Hevt, run_ret.
    rewrite run_bind, run_bind, Hread. reflexivity.
Qed.

Lemma C8_witness :
  Frames.compute_funnel 0 None [plans_csv] = (Raise (KeyError "event_type"), [plans_csv])
  ∧ Frames.compute_weekly_growth 0 0 0 "signups" 12 [plans_csv]
    = (Raise (KeyError "event_type"), [plans_csv]).
Proof.
  destruct (C8_missing_event_type_raises_KeyError [plans_csv] 0 0 0 0 None 0 None
              "signups" 12) as (Hf & _ & _ & _ & Hg).
  - vm_compute. intros Hin. repeat (apply elem_of_cons in Hin as [Hin|Hin]; [discriminate|]).
    by apply elem_of_nil in Hin.
  - split; [done|]. apply Hg. by eexists.
Defined.

(** C8, as stated, fails: there is no schema check.  The funnel engine does
    not read [event_date] and returns its table without it; the revenue
    engine returns a summary for a plans table without [price] when no paid
    user is joined to it. *)
Lemma C8_counterexample_missing_column_tolerated :
  ("event_date"%string ∉ column_labels events_without_date)
  ∧ (Frames.compute_funnel 0 None [events_without_date]).1
    = Ok (mkFunnel default_stages [1; 1; 0; 0]
            [Finite 100; Finite 100; Finite 0; Finite 0]
            [Finite 100; Finite 0; Finite (-100); Finite 100]
            [Finite 0; Finite 100; Finite 200; Finite 0])
  ∧ ("price"%string ∉ column_labels plans_without_price)
  ∧ (Frames.compute_revenue_metrics 0 0 1 2 None
       [users_typed; events_empty; plans_without_price]).1
    = Ok (mkRevenue 0 (Finite 0) (Finite 0) (Finite 0) (Finite 0)).
Proof.
  split; [apply (bool_decide_unpack _); vm_compute; exact I|].
  split; [vm_compute; reflexivity|].
  split; [apply (bool_decide_unpack _); vm_compute; exact I|].
  vm_compute. reflexivity.
Qed.

(** ** Objects an engine leaves alone *)

Section keeps_rules.
Context (h0 : Frames.store).

Lemma keeps_weaken {A} (m : Frames.M A) (Q Q' : A → Prop) :
  keeps h0 m Q → (∀ a, Q a → Q' a) → keeps h0 m Q'.
Proof. intros Hm HQ h Hpre. destruct (Hm h Hpre) as [? Hq]. split; [done|]. eauto. Qed.

Lemma keeps_ret {A} (a : A) : keeps h0 (mret a) (λ _, True).
Proof. intros h Hpre. split; done. Qed.

Lemma keeps_lift {A} (o : outcome A) : keeps h0 (Frames.lift o) (λ _, True).
Proof. intros h Hpre. split; done. Qed.

Lemma keeps_load (r : nat) : keeps h0 (Frames.load r) (λ _, True).
Proof. intros h Hpre. split; done. Qed.

Lemma keeps_alloc (df : DataFrame) :
  keeps h0 (Frames.alloc df) (λ r, (length h0 ≤ r)%nat).
Proof.
  intros h Hpre. split; simpl.
  - by apply prefix_app_r.
  - intros r [= <-]. by apply prefix_length.
Qed.

Lemma keeps_assign (r : nat) (name : string) (col : column) :
  (length h0 ≤ r)%nat → keeps h0 (Frames.assign r name col) (λ _, True).
Proof.
  intros Hr h [k ->]. split; [|done]. simpl.
  rewrite alter_app_r_alt by done. by eexists.
Qed.

Lemma keeps_bind {A B} (m : Frames.M A) (k : A → Frames.M B)
    (Q : A → Prop) (Q' : B → Prop) :
  keeps h0 m Q → (∀ a, Q a → keeps h0 (k a) Q') → keeps h0 (m ≫= k) Q'.
Proof.
  intros Hm Hk h Hpre. rewrite run_bind.
  destruct (Hm h Hpre) as [Hpre' Hq].
  destruct (m h) as [[a|e] h']; simpl in *.
  - apply Hk; [by apply Hq|done].
  - split; done.
Qed.
End keeps_rules.

Ltac keeps_atom rule := first [ apply rule | eapply keeps_weaken; [apply rule|done] ].

Ltac keeps_tac :=
  lazymatch goal with
  | |- keeps _ (mbind _ _) _ => eapply keeps_bind; [keeps_tac|intros ? ?; keeps_tac]
  | |- keeps _ (mret _) _ => keeps_atom keeps_ret
  | |- keeps _ (Frames.lift _) _ => keeps_atom keeps_lift
  | |- keeps _ (Frames.load _) _ => keeps_atom keeps_load
  | |- keeps _ (Frames.alloc _) _ => keeps_atom keeps_alloc
  | |- keeps _ (Frames.assign _ _ _) _ => keeps_atom keeps_assign; assumption
  | |- keeps _ (match ?x with _ => _ end) _ => destruct x; keeps_tac
  end.

Section engines_keep.
Context (h0 : Frames.store).

Lemma keeps_compute_funnel events_df stages :
  keeps h0 (Frames.compute_funnel events_df stages) (λ _, True).
Proof. unfold Frames.compute_funnel. keeps_tac. Qed.

Lemma keeps_compute_revenue_metrics now users_df events_df plans_df as_of :
  keeps h0 (Frames.compute_revenue_metrics now users_df events_df plans_df as_of)
    (λ _, True).
Proof. unfold Frames.compute_revenue_metrics. keeps_tac. Qed.

Lemma keeps_compute_cohort_retention users_df events_df cohort_by :
  keeps h0 (Frames.compute_cohort_retention users_df events_df cohort_by) (λ _, True).
Proof. unfold Frames.compute_cohort_retention. keeps_tac. Qed.

Lemma keeps_compute_weekly_growth now users_df events_df metric weeks :
  keeps h0 (Frames.compute_weekly_growth now users_df events_df metric weeks) (λ _, True).
Proof. unfold Frames.compute_weekly_growth. cbv zeta. keeps_tac. Qed.

Lemma keeps_compute_plan_metrics users_df events_df plans_df :
  keeps h0 (Frames.compute_plan_metrics users_df events_df plans_df) (λ _, True).
Proof. unfold Frames.compute_plan_metrics. keeps_tac. Qed.

Lemma keeps_compute_source_metrics users_df events_df sources_df :
  keeps h0 (Frames.compute_source_metrics users_df events_df sources_df) (λ _, True).
Proof. unfold Frames.compute_source_metrics. keeps_tac. Qed.
End engines_keep.

Lemma keeps_all_metrics h0 now users events plans sources :
  keeps h0 (Frames.all_metrics now users events plans sources) (λ _, True).
Proof.
  unfold Frames.all_metrics.
  eapply keeps_bind; [apply keeps_compute_funnel|intros ? _].
  eapply keeps_bind; [apply keeps_compute_revenue_metrics|intros ? _].
  eapply keeps_bind; [apply keeps_compute_cohort_retention|intros ? _].
  eapply keeps_bind; [apply keeps_compute_weekly_growth|intros ? _].
  eapply keeps_bind; [apply keeps_compute_plan_metrics|intros ? _].
  eapply keeps_bind; [apply keeps_compute_source_metrics|intros ? _].
  apply keeps_ret.
Qed.

Lemma keeps_prefix {A} (h : Frames.store) (m : Frames.M A) (Q : A → Prop) :
  keeps h m Q → h `prefix_of` (m h).2.
Proof. intros Hm. by apply Hm. Qed.

(** ** The CSV runner *)

Lemma run_assign {A} (r : nat) (name : string) (col : column)
    (k : unit → Frames.M A) (h : Frames.store) :
  (Frames.assign r name col ≫= k) h = k () (alter (set_column name col) r h).
Proof. reflexivity. Qed.

Section only_dates_changed_facts.
Context (users events : option nat).

Lemma only_dates_changed_refl h : only_dates_changed users events h h.
Proof. intros r df Hr. exists df. done. Qed.

Lemma only_dates_changed_assign h h1 r0 name col :
  only_dates_changed users events h h1 →
  users = Some r0 ∨ events = Some r0 →
  name = "signup_date"%string ∨ name = "event_date"%string →
  (∀ df1, h1 !! r0 = Some df1 → name ∈ column_labels df1) →
  only_dates_changed users events h (alter (set_column name col) r0 h1).
Proof.
  intros Hodc Hr0 Hname Hlabel r df Hr.
  destruct (Hodc r df Hr) as (df1 & Hdf1 & Hl & Hcols & Hsame).
  destruct (decide (r0 = r)) as [->|Hne].
  - exists (set_column name col df1). rewrite list_lookup_alter_eq, Hdf1.
    split; [done|]. split; [|split].
    + rewrite set_column_labels; [done|]. by apply Hlabel.
    + intros name' H1 H2. rewrite series_get_set_column_ne; [by apply Hcols|].
      destruct Hname as [-> | ->]; done.
    + intros Hu He. destruct Hr0; congruence.
  - exists df1. by rewrite list_lookup_alter_ne.
Qed.

Lemma only_dates_changed_prefix h h1 h' :
  only_dates_changed users events h h1 → h1 `prefix_of` h' →
  only_dates_changed users events h h'.
Proof.
  intros Hodc Hpre r df Hr.
  destruct (Hodc r df Hr) as (df1 & Hdf1 & ?). exists df1.
  split; [by eapply prefix_lookup_Some|done].
Qed.
End only_dates_changed_facts.

Lemma get_column_default_labels (name : string) (h : Frames.store) (r : nat) (c : column) :
  get_column name (default [] (h !! r)) = Ok c →
  ∀ df, h !! r = Some df → name ∈ column_labels df.
Proof.
  intros Hget df Hdf. rewrite Hdf in Hget. simpl in Hget.
  by destruct (get_column_Ok_labels _ _ _ Hget).
Qed.

Lemma runner_only_changes_dates
    (to_datetime : column → column) (now : Timestamp) (data_dict : gmap string nat)
    (h : Frames.store) :
  only_dates_changed (data_dict !! "users"%string) (data_dict !! "events"%string) h
    (Frames.run_all_metrics_from_csv to_datetime now data_dict h).2.
Proof.
  unfold Frames.run_all_metrics_from_csv, Frames.dict_get.
  destruct (data_dict !! "users"%string) as [u|] eqn:Hu;
    [rewrite run_lift_Ok|apply only_dates_changed_refl].
  destruct (data_dict !! "events"%string) as [e|] eqn:He;
    [rewrite run_lift_Ok|apply only_dates_changed_refl].
  destruct (data_dict !! "plans"%string) as [p|] eqn:Hp;
    [rewrite run_lift_Ok|apply only_dates_changed_refl].
  destruct (data_dict !! "sources"%string) as [s|] eqn:Hs;
    [rewrite run_lift_Ok|apply only_dates_changed_refl].
  rewrite run_load.
  destruct (get_column "signup_date" (default [] (h !! u))) as [c1|e1] eqn:Hc1;
    [rewrite run_lift_Ok|apply only_dates_changed_refl].
  rewrite run_assign. set (h1 := alter _ u h).
  assert (only_dates_changed (Some u) (Some e) h h1) as H1.
  { apply only_dates_changed_assign; [apply only_dates_changed_refl|by left|by left|].
    by eapply get_column_default_labels. }
  rewrite run_load.
  destruct (get_column "event_date" (default [] (h1 !! e))) as [c2|e2] eqn:Hc2;
    [rewrite run_lift_Ok|done].
  rewrite run_assign. set (h2 := alter _ e h1).
  assert (only_dates_changed (Some u) (Some e) h h2) as H2.
  { apply only_dates_changed_assign; [done|by right|by right|].
    by eapply get_column_default_labels. }
  eapply only_dates_changed_prefix; [done|].
  apply (keeps_prefix h2 _ _ (keeps_all_metrics h2 now u e p s)).
Qed.

Lemma runner_converts_dates
    (to_datetime : column → column) (now : Timestamp) (data_dict : gmap string nat)
    (h : Frames.store) (u e : nat) (du de : DataFrame) (c1 c2 : column) :
  data_dict !! "users"%string = Some u → data_dict !! "events"%string = Some e →
  is_Some (data_dict !! "plans"%string) → is_Some (data_dict !! "sources"%string) →
  h !! u = Some du → h !! e = Some de →
  series_get "signup_date"%string du = Some c1 →
  series_get "event_date"%string de = Some c2 →
  let h' := (Frames.run_all_metrics_from_csv to_datetime now data_dict h).2 in
  (h' !! u ≫= series_get "signup_date"%string) = Some (to_datetime c1)
  ∧ (h' !! e ≫= series_get "event_date"%string) = Some (to_datetime c2).
Proof.
  intros Hu He [p Hp] [s Hs] Hdu Hde Hc1 Hc2.
  unfold Frames.run_all_metrics_from_csv, Frames.dict_get.
  rewrite Hu, run_lift_Ok, He, run_lift_Ok, Hp, run_lift_Ok, Hs, run_lift_Ok.
  assert (get_column "signup_date" (default [] (h !! u)) = Ok c1) as G1
    by (rewrite Hdu; simpl; unfold get_column; by rewrite Hc1).
  rewrite run_load, G1, run_lift_Ok.
  rewrite run_assign. set (h1 := alter _ u h).
  assert (h1 !! u = Some (set_column "signup_date" (to_datetime c1) du)) as H1u
    by (unfold h1; by rewrite list_lookup_alter_eq, Hdu).
  assert (∃ d1, h1 !! e = Some d1
                ∧ series_get "event_date"%string d1 = Some c2) as (d1 & H1e & Hd1).
  { destruct (decide (u = e)) as [->|Hne].
    - eexists. split; [done|]. rewrite series_get_set_column_ne by done. congruence.
    - exists de. unfold h1. by rewrite list_lookup_alter_ne. }
  assert (get_column "event_date" (default [] (h1 !! e)) = Ok c2) as G2
    by (rewrite H1e; simpl; unfold get_column; by rewrite Hd1).
  rewrite run_load, G2, run_lift_Ok.
  rewrite run_assign. set (h2 := alter _ e h1).
  assert (h2 !! e = Some (set_column "event_date" (to_datetime c2) d1)) as H2e
    by (unfold h2; by rewrite list_lookup_alter_eq, H1e).
  assert (∃ d2, h2 !! u = Some d2
                ∧ series_get "signup_date"%string d2 = Some (to_datetime c1))
    as (d2 & H2u & Hd2).
  { destruct (decide (e = u)) as [->|Hne].
    - eexists. split; [done|]. rewrite series_get_set_column_ne by done.
      assert (d1 = set_column "signup_date" (to_datetime c1) du) as -> by congruence.
      apply series_get_set_column_eq.
    - eexists. unfold h2. rewrite list_lookup_alter_ne by done. split; [done|].
      apply series_get_set_column_eq. }
  pose proof (keeps_prefix h2 _ _ (keeps_all_metrics h2 now u e p s)) as Hpre.
  cbv zeta. split.
  - rewrite (prefix_lookup_Some _ _ _ _ H2u Hpre). done.
  - rewrite (prefix_lookup_Some _ _ _ _ H2e Hpre). simpl.
    apply series_get_set_column_eq.
Qed.

(** C9, as amended: every engine leaves each object of the store as it is (it
    only allocates new ones).  The CSV runner keeps every object, its column
    labels and all columns other than [signup_date] and [event_date], and
    leaves every table other than Users and Events as it is; it replaces the
    [signup_date] column of the Users table and the [event_date] column of the
    Events table by their [to_datetime] conversion. *)
Theorem C9_engines_keep_inputs_runner_converts_dates
    (to_datetime : column → column) (h : Frames.store) (now : Timestamp)
    (data_dict : gmap string nat) :
  (∀ events_df stages,
     h `prefix_of` (Frames.compute_funnel events_df stages h).2)
  ∧ (∀ users_df events_df plans_df as_of,
       h `prefix_of`
         (Frames.compute_revenue_metrics now users_df events_df plans_df as_of h).2)
  ∧ (∀ users_df events_df cohort_by,
       h `prefix_of` (Frames.compute_cohort_retention users_df events_df cohort_by h).2)
  ∧ (∀ users_df events_df metric weeks,
       h `prefix_of` (Frames.compute_weekly_growth now users_df events_df metric weeks h).2)
  ∧ (∀ users_df events_df plans_df,
       h `prefix_of` (Frames.compute_plan_metrics users_df events_df plans_df h).2)
  ∧ (∀ users_df events_df sources_df,
       h `prefix_of` (Frames.compute_source_metrics users_df events_df sources_df h).2)
  ∧ only_dates_changed (data_dict !! "users"%string) (data_dict !! "events"%string) h
      (Frames.run_all_metrics_from_csv to_datetime now data_dict h).2
  ∧ (∀ u e du de c1 c2,
       data_dict !! "users"%string = Some u → data_dict !! "events"%string = Some e →
       is_Some (data_dict !! "plans"%string) → is_Some (data_dict !! "sources"%string) →
       h !! u = Some du → h !! e = Some de →
       series_get "signup_date"%string du = Some c1 →
       series_get "event_date"%string de = Some c2 →
       let h' := (Frames.run_all_metrics_from_csv to_datetime now data_dict h).2 in
       (h' !! u ≫= series_get "signup_date"%string) = Some (to_datetime c1)
       ∧ (h' !! e ≫= series_get "event_date"%string) = Some (to_datetime c2)).
Proof.
  split; [intros; apply keeps_prefix with (Q := λ _, True), keeps_compute_funnel|].
  split; [intros; apply keeps_prefix with (Q := λ _, True),
                        keeps_compute_revenue_metrics|].
  split; [intros; apply keeps_prefix with (Q := λ _, True),
                        keeps_compute_cohort_retention|].
  split; [intros; apply keeps_prefix with (Q := λ _, True),
                        keeps_compute_weekly_growth|].
  split; [intros; apply keeps_prefix with (Q := λ _, True),
                        keeps_compute_plan_metrics|].
  split; [intros; apply keeps_prefix with (Q := λ _, True),
                        keeps_compute_source_metrics|].
  split; [apply runner_only_changes_dates|].
  intros u e du de c1 c2. apply runner_converts_dates.
Qed.

Lemma C9_witness :
  ((Frames.run_all_metrics_from_csv to_datetime_iso (date 2025 2 1)
      csv_dict csv_store).2 !! 0%nat ≫= series_get "signup_date"%string)
  = Some (to_datetime_iso (StrCol ["2025-01-01"]%string))
  ∧ ((Frames.run_all_metrics_from_csv to_datetime_iso (date 2025 2 1)
        csv_dict csv_store).2 !! 1%nat ≫= series_get "event_date"%string)
    = Some (to_datetime_iso (StrCol ["2025-01-01"; "2025-01-02"]%string)).
Proof.
  destruct (C9_engines_keep_inputs_runner_converts_dates to_datetime_iso csv_store
              (date 2025 2 1) csv_dict) as (_ & _ & _ & _ & _ & _ & _ & Hconv).
  apply (Hconv 0%nat 1%nat users_csv events_csv).
  - vm_compute. reflexivity.
  - vm_compute. reflexivity.
  - eexists. vm_compute. reflexivity.
  - eexists. vm_compute. reflexivity.
  - reflexivity.
  - reflexivity.
  - reflexivity.
  - reflexivity.
Defined.

(** C9, as stated, fails for the CSV runner: after a run on tables whose
    dates are strings, the caller's Users table holds timestamps in
    [signup_date]. *)
Lemma C9_counterexample_runner_rewrites_date_columns :
  csv_store !! 0%nat = Some users_csv
  ∧ (∃ results,
       (Frames.run_all_metrics_from_csv to_datetime_iso (date 2025 2 1)
          csv_dict csv_store).1 = Ok results)
  ∧ ((Frames.run_all_metrics_from_csv to_datetime_iso (date 2025 2 1)
        csv_dict csv_store).2 !! 0%nat ≫= series_get "signup_date"%string)
    = Some (TimeCol [Some (date 2025 1 1)])
  ∧ (Frames.run_all_metrics_from_csv to_datetime_iso (date 2025 2 1)
       csv_dict csv_store).2 !! 0%nat ≠ Some users_csv.
Proof.
  split; [reflexivity|]. split; [|split].
  - eexists. vm_compute. reflexivity.
  - vm_compute. reflexivity.
  - vm_compute. intros [=].
Qed.

(** * Worked examples *)

Example day_2025_01_01 : days_from_civil 2025 1 1 = 20089.
Proof. reflexivity. Qed.

Example week_of_2025_01_01 : week_start (date 2025 1 1) = date 2024 12 30.
Proof. reflexivity. Qed.

Example month_of_2025_03_17 : month_start (date 2025 3 17 + 5) = date 2025 3 1.
Proof. reflexivity. Qed.

Example week_before_epoch : week_start (-1) = date 1969 12 29.
Proof. reflexivity. Qed.

Example parse_valid_date : parse_iso_date "2025-01-02" = Some (date 2025 1 2).
Proof. vm_compute. reflexivity. Qed.

Example parse_invalid_date : parse_iso_date "2025-02-30" = None.
Proof. vm_compute. reflexivity. Qed.

Example round_half_to_even :
  F64.round2_Q (1 # 8) = (3 # 25)%Q ∧ F64.round2_Q (3 # 8) = (19 # 50)%Q.
Proof. split; reflexivity. Qed.

(** The whole funnel table of the specification's scenario. *)
Example funnel_scenario :
  compute_funnel scenario_events None =
  mkFunnel default_stages [1; 1; 0; 0]
    [Finite 100; Finite 100; Finite 0; Finite 0]
    [Finite 100; Finite 0; Finite (-100); Finite 100]
    [Finite 0; Finite 100; Finite 200; Finite 0].
Proof. vm_compute. reflexivity. Qed.

(** Two users visit, one of them signs up: the conversion from the previous
    stage is reported as -50, the drop-off as 150. *)
Example funnel_half_converts :
  let table :=
    compute_funnel [Event.mk 1 "visit" 0; Event.mk 2 "visit" 0; Event.mk 1 "signup" 0]
      (Some ["visit"; "signup"]%string) in
  users table = [2; 1]
  ∧ conversion_from_prev_pct table = [Finite 100; Finite (-50)]
  ∧ drop_off_pct_from_prev table = [Finite 0; Finite 150]
  ∧ conversion_pct 2 1 = Finite 50.
Proof. vm_compute. repeat split; reflexivity. Qed.

(** A stage reached from an empty stage has an infinite relative change. *)
Example funnel_from_empty_stage :
  conversion_from_prev_pct
    (compute_funnel [Event.mk 1 "signup" 0] (Some ["visit"; "signup"]%string))
  = [Finite 100; PosInf].
Proof. vm_compute. reflexivity. Qed.

Example revenue_scenario :
  compute_revenue_metrics (date 2025 2 1) scenario_users
    (scenario_events ++ paid_twice) scenario_plans None
  = mkRevenue 1 (Finite 10) (Finite 10) (Finite 10) (Finite 0).
Proof. vm_compute. reflexivity. Qed.

(** Events dated before the signup give negative period numbers, and the
    first column is then the most negative one. *)
Example first_column_is_negative_period :
  compute_cohort_retention [User.mk 1 w2 None None]
    [Event.mk 1 "visit" w1; Event.mk 1 "signup" w2] "week"
  = Ok (mkMatrix [-1; 0] [(w2, [Finite 100; Finite 100])]).
Proof. vm_compute. reflexivity. Qed.

(** The engines on DataFrame objects whose events table has no rows. *)
Example frames_empty_events :
  let h := [users_typed; events_empty; plans_csv] in
  (Frames.compute_cohort_retention 0 1 "week" h).1 = Ok empty_matrix
  ∧ (Frames.compute_weekly_growth 0 0 1 "signups" 12 h).1 = Ok []
  ∧ (Frames.compute_revenue_metrics 0 0 1 2 None h).1
    = Ok (mkRevenue 0 (Finite 0) (Finite 0) (Finite 0) (Finite 0)).
Proof. vm_compute. repeat split; reflexivity. Qed.

(** A run of the CSV runner on the specification's scenario. *)
Example runner_on_csv_tables :
  match (Frames.run_all_metrics_from_csv to_datetime_iso (date 2025 2 1)
           csv_dict csv_store).1 with
  | Ok results =>
      users (Frames.funnel results) = [1; 1; 0; 0]
      ∧ Frames.revenue results = mkRevenue 0 (Finite 0) (Finite 0) (Finite 0) (Finite 0)
      ∧ Frames.cohort results = mkMatrix [0] [(date 2024 12 30, [Finite 100])]
      ∧ Frames.plan_metrics results = []
  | Raise _ => False
  end.
Proof. vm_compute. repeat split; reflexivity. Qed.

(** * Further properties of the weekly growth engine *)

Lemma fill_missing_weeks_no_event : fill_missing_weeks (weekly_series []) = [].
Proof. reflexivity. Qed.

Lemma date_range_lookup (lo hi step : Z) (i : nat) (w : Timestamp) :
  date_range lo hi step !! i = Some w → w = lo + Z.of_nat i * step.
Proof.
  unfold date_range. case_bool_decide; [|done].
  rewrite list_lookup_fmap. intros Hw.
  destruct (seq 0 _ !! i) as [k|] eqn:Hk; [|done].
  apply lookup_seq in Hk as [-> _]. simpl in Hw. by injection Hw as <-.
Qed.

(** Consecutive rows of the returned series are exactly seven days apart. *)
Theorem growth_rows_are_seven_days_apart
    (now : Timestamp) (users : list User.t) (events : list Event.t)
    (metric : string) (weeks : Z) (out : list Growth.row)
    (i : nat) (r r' : Growth.row) :
  compute_weekly_growth now users events metric weeks = Ok out →
  out !! i = Some r → out !! S i = Some r' →
  Growth.week_start r' = Growth.week_start r + timedelta_days 7.
Proof.
  intros [_ ->]%weekly_growth_inv.
  set (sel := metric_events now events metric weeks).
  destruct (decide (sel = [])) as [->|Hsel]; [done|].
  destruct (filled_series_structure sel Hsel) as (lo & hi & _ & _ & _ & ->).
  rewrite !list_lookup_fmap. intros Hr Hr'.
  destruct (date_range lo hi (timedelta_days 7) !! i) as [w|] eqn:Hw; [|done].
  destruct (date_range lo hi (timedelta_days 7) !! S i) as [w'|] eqn:Hw'; [|done].
  simpl in Hr, Hr'. injection Hr as <-. injection Hr' as <-.
  rewrite !row_for_week.
  apply date_range_lookup in Hw, Hw'. lia.
Qed.

Lemma growth_rows_are_seven_days_apart_witness :
  Growth.week_start (Growth.mk w2 0 (Finite 0))
  = Growth.week_start (Growth.mk w1 5 (Finite 0)) + timedelta_days 7.
Proof.
  apply (growth_rows_are_seven_days_apart (date 2025 2 1) [] signups_with_gap
           "signups" 12
           [Growth.mk w1 5 (Finite 0); Growth.mk w2 0 (Finite 0);
            Growth.mk w3 3 (Finite (-40))] 0%nat).
  - vm_compute. reflexivity.
  - reflexivity.
  - reflexivity.
Defined.

(** The week of a timestamp: the Monday [w] with [w <= t < w + 7 days]. *)
Lemma week_start_spec (t w : Timestamp) :
  week_start t = w ↔ week_start w = w ∧ w ≤ t ∧ t < w + timedelta_days 7.
Proof.
  split.
  - intros <-. split; [apply week_start_idemp|].
    unfold week_start, day_number, timedelta_days, ns_per_day.
    Z.div_mod_to_equations. lia.
  - intros (Hw & Hlo & Hhi).
    destruct (week_start_aligned w) as [k Hk]. rewrite Hw in Hk. subst w.
    unfold week_start, day_number, timedelta_days, ns_per_day in *.
    Z.div_mod_to_equations. lia.
Qed.

Lemma filled_row_value (sel : list Event.t) (r : Growth.row) :
  r ∈ fill_missing_weeks (weekly_series sel) →
  week_start (Growth.week_start r) = Growth.week_start r
  ∧ Growth.value r = Z.of_nat (size (week_users sel (Growth.week_start r))).
Proof.
  destruct (decide (sel = [])) as [->|Hsel].
  { rewrite fill_missing_weeks_no_event. intros Hr. by apply elem_of_nil in Hr. }
  destruct (filled_series_structure sel Hsel) as (lo & hi & Hlo & Hhi & Hb & ->).
  intros (w & -> & Hw)%list_elem_of_fmap. rewrite row_for_week.
  split; [by apply (range_is_calendar_week sel lo hi)|].
  destruct (decide (w ∈ observed_weeks sel)) as [Hobs|Hobs].
  - rewrite <- (row_for_week (weekly_series sel) w) at 2.
    apply weekly_series_value. by apply row_for_series_observed.
  - rewrite row_for_series_unobserved by done. by rewrite week_users_unobserved.
Qed.

(** The value of a row is the number of distinct users with a counted event
    dated from the row's [week_start] up to, and not including, seven days
    later. *)
Theorem growth_value_counts_users_of_the_week
    (now : Timestamp) (users : list User.t) (events : list Event.t)
    (metric : string) (weeks : Z) (out : list Growth.row) (r : Growth.row) :
  compute_weekly_growth now users events metric weeks = Ok out → r ∈ out →
  Growth.value r
  = Z.of_nat (size (users_between (metric_events now events metric weeks)
                      (Growth.week_start r) (Growth.week_start r + timedelta_days 7))).
Proof.
  intros [_ ->]%weekly_growth_inv Hr.
  destruct (filled_row_value _ _ Hr) as [Haligned ->].
  unfold week_users, users_between. do 4 f_equal.
  apply list_filter_iff. intros e. rewrite week_start_spec. naive_solver.
Qed.

Lemma growth_value_counts_users_of_the_week_witness :
  Growth.value (Growth.mk w3 3 (Finite (-40)))
  = Z.of_nat (size (users_between
                      (metric_events (date 2025 2 1) signups_with_gap "signups" 12)
                      w3 (w3 + timedelta_days 7))).
Proof.
  apply (growth_value_counts_users_of_the_week (date 2025 2 1) [] signups_with_gap
           "signups" 12
           [Growth.mk w1 5 (Finite 0); Growth.mk w2 0 (Finite 0);
            Growth.mk w3 3 (Finite (-40))] (Growth.mk w3 3 (Finite (-40)))).
  - vm_compute. reflexivity.
  - right. right. left.
Defined.

(** Events dated before [now] minus [weeks] weeks never change the result. *)
Theorem growth_ignores_events_before_the_window
    (now : Timestamp) (users : list User.t) (old events : list Event.t)
    (metric : string) (weeks : Z) :
  Forall (λ e, Event.event_date e < now - timedelta_weeks weeks) old →
  compute_weekly_growth now users (old ++ events) metric weeks
  = compute_weekly_growth now users events metric weeks.
Proof.
  intros Hold. rewrite Forall_forall in Hold.
  unfold compute_weekly_growth. cbv zeta.
  rewrite !filter_app.
  rewrite (filter_none (λ e, now - timedelta_weeks weeks ≤ Event.event_date e) old)
    by (intros e He; specialize (Hold e He); lia).
  destruct (decide (metric = "active_users"%string)); [done|].
  destruct (metric_map !! metric) as [evt|]; [|done].
  rewrite filter_app.
  rewrite (filter_none (λ e, Event.event_type e = evt
                             ∧ now - timedelta_weeks weeks ≤ Event.event_date e) old)
    by (intros e He [_ ?]; specialize (Hold e He); lia).
  done.
Qed.

Lemma growth_ignores_events_before_the_window_witness :
  compute_weekly_growth (date 2025 2 1) []
    ([Event.mk 9 "signup" (date 2024 1 1)] ++ signups_with_gap) "signups" 12
  = compute_weekly_growth (date 2025 2 1) [] signups_with_gap "signups" 12.
Proof.
  apply growth_ignores_events_before_the_window.
  constructor; [vm_compute; reflexivity|constructor].
Defined.

(** * Further properties of the cohort engine *)

Lemma elem_of_merge_inner {L R K} `{EqDecision K} (lkey : L → K) (rkey : R → K)
    (left : list L) (right : list R) (l : L) (r : R) :
  (l, r) ∈ merge_inner lkey rkey left right ↔ l ∈ left ∧ r ∈ right ∧ rkey r = lkey l.
Proof.
  unfold merge_inner. rewrite list_elem_of_bind. split.
  - intros (l' & Hin & Hl'). apply list_elem_of_fmap in Hin as (r' & [= -> ->] & Hr').
    apply list_elem_of_filter in Hr'. naive_solver.
  - intros (Hl & Hr & Hk). exists l. split; [|done].
    apply list_elem_of_fmap. exists r. split; [done|]. by apply list_elem_of_filter.
Qed.

Lemma elem_of_cohort_merged (bucket : Timestamp → Timestamp)
    (users : list User.t) (events : list Event.t) (r : CohortRow) :
  r ∈ cohort_merged bucket users events ↔
  ∃ e u, e ∈ events ∧ u ∈ users ∧ User.user_id u = Event.user_id e
         ∧ r = mkCohortRow (Event.user_id e) (Event.event_date e) (User.signup_date u)
                 (bucket (User.signup_date u))
                 (td_days (Event.event_date e - User.signup_date u) / 7).
Proof.
  unfold cohort_merged. rewrite list_elem_of_fmap. split.
  - intros ([e u] & -> & Hin). apply elem_of_merge_inner in Hin as (? & ? & ?).
    exists e, u. done.
  - intros (e & u & He & Hu & Hid & ->). exists (e, u). split; [done|].
    by apply elem_of_merge_inner.
Qed.



Lemma StronglySorted_le_NoDup_lt (l : list Z) :
  StronglySorted Z.le l → NoDup l → StronglySorted Z.lt l.
Proof.
  induction 1 as [|x l Hs IH Hall]; intros Hnd; [constructor|].
  apply NoDup_cons in Hnd as [Hx Hnd]. constructor; [by apply IH|].
  rewrite Forall_forall in Hall. apply Forall_forall. intros y Hy.
  specialize (Hall y Hy). assert (x ≠ y) by (intros ->; done). lia.
Qed.

Lemma sorted_unique_lt (l : list Z) : StronglySorted Z.lt (merge_sort Z.le (unique l)).
Proof.
  apply StronglySorted_le_NoDup_lt; [apply (StronglySorted_merge_sort Z.le)|].
  rewrite merge_sort_Permutation. apply NoDup_unique.
Qed.

Lemma cohort_retention_pivot users events cohort_by m :
  compute_cohort_retention users events cohort_by = Ok m →
  ∃ bucket,
    cohort_bucket cohort_by = Some bucket
    ∧ m = mkMatrix (cohort_pivot (cohort_merged bucket users events)).1
            ((λ row : Timestamp * list Z,
                (row.1, retention_pct (default 0 (head row.2)) <$> row.2))
               <$> (cohort_pivot (cohort_merged bucket users events)).2).
Proof.
  unfold compute_cohort_retention. intros Hm.
  destruct (cohort_bucket cohort_by) as [bucket|] eqn:Hb; [|done].
  exists bucket. split; [done|].
  destruct (cohort_merged bucket users events) as [|r0 merged'] eqn:Hmerged.
  { injection Hm as <-. done. }
  destruct ((cohort_pivot (r0 :: merged')).1) as [|p0 ps] eqn:Hcols; [done|].
  injection Hm as <-. reflexivity.
Qed.

Lemma fmap_labels {A B C} (g : A * B → A * C) (h : A → A * B) (l : list A) :
  (∀ x, (g x).1 = x.1) → (∀ a, (h a).1 = a) → (g <$> (h <$> l)).*1 = l.
Proof.
  intros Hg Hh. rewrite <- !list_fmap_compose.
  transitivity (id <$> l); [|apply list_fmap_id].
  apply list_fmap_ext. intros _ a _. cbn. by rewrite Hg, Hh.
Qed.

(** The shape of the matrix: its columns are the period numbers of the joined
    rows and its row labels the cohorts of the joined rows, each once and in
    ascending order, and every row has one cell per column. *)
Theorem cohort_matrix_shape
    (users : list User.t) (events : list Event.t) (cohort_by : string) (m : CohortMatrix) :
  compute_cohort_retention users events cohort_by = Ok m →
  ∃ bucket,
    cohort_bucket cohort_by = Some bucket
    ∧ StronglySorted Z.lt (columns m)
    ∧ StronglySorted Z.lt ((rows m).*1)
    ∧ (∀ p, p ∈ columns m ↔
            ∃ r, r ∈ cohort_merged bucket users events ∧ c_period_number r = p)
    ∧ (∀ c, c ∈ (rows m).*1 ↔
            ∃ r, r ∈ cohort_merged bucket users events ∧ c_cohort r = c)
    ∧ Forall (λ row, length row.2 = length (columns m)) (rows m).
Proof.
  intros (bucket & Hb & ->)%cohort_retention_pivot. exists bucket. split; [done|].
  cbn [columns rows cohort_pivot fst snd].
  set (merged := cohort_merged bucket users events).
  rewrite fmap_labels by done.
  split; [apply sorted_unique_lt|]. split; [apply sorted_unique_lt|].
  split; [|split].
  - intros p. rewrite merge_sort_Permutation, elem_of_unique, list_elem_of_fmap.
    naive_solver.
  - intros c. rewrite merge_sort_Permutation, elem_of_unique, list_elem_of_fmap.
    naive_solver.
  - apply Forall_forall. intros row Hrow.
    apply list_elem_of_fmap in Hrow as (row0 & -> & Hrow).
    apply list_elem_of_fmap in Hrow as (c & -> & _). cbn. by rewrite !length_fmap.
Qed.

Lemma cohort_matrix_shape_witness :
  ∃ bucket,
    cohort_bucket "week" = Some bucket
    ∧ StronglySorted Z.lt [0; 1]
    ∧ StronglySorted Z.lt [w1; w2]
    ∧ (∀ p, p ∈ [0; 1] ↔
            ∃ r, r ∈ cohort_merged bucket two_cohort_users two_cohort_events
                 ∧ c_period_number r = p)
    ∧ (∀ c, c ∈ [w1; w2] ↔
            ∃ r, r ∈ cohort_merged bucket two_cohort_users two_cohort_events
                 ∧ c_cohort r = c)
    ∧ Forall (λ row : Timestamp * list float64, length row.2 = 2%nat)
        [(w1, [Finite 100; Finite 0]); (w2, [NaN; PosInf])].
Proof.
  apply (cohort_matrix_shape two_cohort_users two_cohort_events "week"
           (mkMatrix [0; 1] [(w1, [Finite 100; Finite 0]); (w2, [NaN; PosInf])])).
  vm_compute. reflexivity.
Defined.

Lemma merge_inner_app_l {L R K} `{EqDecision K} (lkey : L → K) (rkey : R → K)
    (l1 l2 : list L) (right : list R) :
  merge_inner lkey rkey (l1 ++ l2) right
  = merge_inner lkey rkey l1 right ++ merge_inner lkey rkey l2 right.
Proof. unfold merge_inner. apply bind_app. Qed.

Lemma merge_inner_unmatched_l {L R K} `{EqDecision K} (lkey : L → K) (rkey : R → K)
    (left : list L) (right : list R) :
  Forall (λ l, lkey l ∉ rkey <$> right) left → merge_inner lkey rkey left right = [].
Proof.
  induction 1 as [|l left Hl _ IH]; [done|].
  change (l :: left) with ([l] ++ left). rewrite merge_inner_app_l, IH, app_nil_r.
  unfold merge_inner. cbn. rewrite app_nil_r.
  rewrite (filter_none _ right); [done|].
  intros r Hr Hk. apply Hl. rewrite <- Hk. by apply list_elem_of_fmap_2.
Qed.

Lemma merge_inner_unmatched_r {L R K} `{EqDecision K} (lkey : L → K) (rkey : R → K)
    (left : list L) (extra right : list R) :
  Forall (λ r, rkey r ∉ lkey <$> left) extra →
  merge_inner lkey rkey left (extra ++ right) = merge_inner lkey rkey left right.
Proof.
  intros Hx. induction left as [|l left IH]; [done|].
  change (l :: left) with ([l] ++ left) in *. rewrite !merge_inner_app_l.
  rewrite IH.
  2:{ eapply Forall_impl; [exact Hx|]. intros r Hr Hin. apply Hr.
      rewrite fmap_app. apply elem_of_app. by right. }
  f_equal. unfold merge_inner. cbn. rewrite !app_nil_r.
  rewrite filter_app, (filter_none _ extra); [done|].
  intros r Hr Hk. rewrite Forall_forall in Hx. apply (Hx r Hr).
  rewrite Hk. cbn. left.
Qed.

(** The join is an inner join: events of users that are not in the users
    table, and users without any event, have no effect on the matrix. *)
Theorem cohort_ignores_rows_without_partner
    (users extra_users : list User.t) (events extra_events : list Event.t)
    (cohort_by : string) :
  Forall (λ e, Event.user_id e ∉ User.user_id <$> extra_users ++ users) extra_events →
  Forall (λ u, User.user_id u ∉ Event.user_id <$> events) extra_users →
  compute_cohort_retention (extra_users ++ users) (extra_events ++ events) cohort_by
  = compute_cohort_retention users events cohort_by.
Proof.
  intros He Hu. unfold compute_cohort_retention.
  destruct (cohort_bucket cohort_by) as [bucket|]; [|done].
  assert (cohort_merged bucket (extra_users ++ users) (extra_events ++ events)
          = cohort_merged bucket users events) as ->; [|done].
  unfold cohort_merged. f_equal.
  rewrite merge_inner_app_l, merge_inner_unmatched_l by done.
  by rewrite app_nil_l, merge_inner_unmatched_r.
Qed.

Lemma cohort_ignores_rows_without_partner_witness :
  compute_cohort_retention
    ([User.mk 7 w3 None None] ++ two_cohort_users)
    ([Event.mk 9 "visit" w1] ++ two_cohort_events) "week"
  = compute_cohort_retention two_cohort_users two_cohort_events "week".
Proof.
  apply cohort_ignores_rows_without_partner.
  - constructor; [|constructor]. apply (bool_decide_unpack _). vm_compute. exact I.
  - constructor; [|constructor]. apply (bool_decide_unpack _). vm_compute. exact I.
Defined.

(** * Further properties of the funnel engine *)

Lemma funnel_counts_spec (events : list Event.t) (stages : list string) :
  default 0 <$> reindex stages
    (groupby_nunique String.le Event.event_type Event.user_id events)
  = (λ s, Z.of_nat (size (stage_users events s))) <$> stages.
Proof.
  unfold reindex. rewrite <- list_fmap_compose. apply list_fmap_ext.
  intros _ s _. cbn. by rewrite groupby_nunique_get, nunique_size.
Qed.

(** The table has one row per requested stage, in the order of the request
    (of the default list when none is given), whatever the events are: all
    five columns have the length of the stage list, and the [users] cell of a
    stage is the number of distinct users with an event of that type, 0 for a
    stage without events. *)
Theorem funnel_rows_follow_stages
    (events : list Event.t) (stages : option (list string)) (i : nat) (s : string) :
  default default_stages stages !! i = Some s →
  stage (compute_funnel events stages) = default default_stages stages
  ∧ length (users (compute_funnel events stages))
    = length (default default_stages stages)
  ∧ length (conversion_from_start_pct (compute_funnel events stages))
    = length (default default_stages stages)
  ∧ length (conversion_from_prev_pct (compute_funnel events stages))
    = length (default default_stages stages)
  ∧ length (drop_off_pct_from_prev (compute_funnel events stages))
    = length (default default_stages stages)
  ∧ users (compute_funnel events stages) !! i
    = Some (Z.of_nat (size (stage_users events s))).
Proof.
  intros Hs. unfold compute_funnel.
  cbn [stage users conversion_from_start_pct conversion_from_prev_pct
       drop_off_pct_from_prev].
  rewrite funnel_counts_spec. unfold fillna.
  rewrite !length_fmap, length_pct_change, !length_fmap.
  repeat split. by rewrite list_lookup_fmap, Hs.
Qed.

Lemma funnel_rows_follow_stages_witness :
  stage (compute_funnel scenario_events None) = default default_stages None
  ∧ length (users (compute_funnel scenario_events None))
    = length (default default_stages None)
  ∧ length (conversion_from_start_pct (compute_funnel scenario_events None))
    = length (default default_stages None)
  ∧ length (conversion_from_prev_pct (compute_funnel scenario_events None))
    = length (default default_stages None)
  ∧ length (drop_off_pct_from_prev (compute_funnel scenario_events None))
    = length (default default_stages None)
  ∧ users (compute_funnel scenario_events None) !! 2%nat
    = Some (Z.of_nat (size (stage_users scenario_events "trial"))).
Proof. apply (funnel_rows_follow_stages scenario_events None 2 "trial"). reflexivity. Defined.

(** [conversion_from_start_pct] is the count of the stage over the count of
    the first stage, in percent and rounded; when the first stage has no
    user the divisor is 1, so that the cell is 100 times the count and exceeds
    100 for every stage that has users.  The cell is always a finite number. *)
Theorem funnel_start_pct_divides_by_first_count
    (events : list Event.t) (stages : option (list string)) (i : nat) (c0 c : Z) :
  users (compute_funnel events stages) !! 0%nat = Some c0 →
  users (compute_funnel events stages) !! i = Some c →
  conversion_from_start_pct (compute_funnel events stages) !! i
  = Some (Finite (F64.round2_Q
       (if bool_decide (0 < c0) then (inject_Z c / inject_Z c0 * 100)%Q
        else (inject_Z c * 100)%Q))).
Proof.
  unfold compute_funnel. cbn [users conversion_from_start_pct].
  set (counts := default 0 <$> reindex _ _). intros H0 Hi.
  rewrite list_lookup_fmap, Hi. cbn [fmap option_fmap option_map]. f_equal.
  destruct counts as [|x counts']; [done|]. injection H0 as ->.
  assert (0 < (if bool_decide (0 < c0) then c0 else 1)) as Hden
    by (case_bool_decide; lia).
  rewrite div_of_int_pos by done. unfold F64.mul, F64.round2. f_equal.
  apply round2_Q_proper. rewrite !Qred_correct.
  case_bool_decide; [reflexivity|]. unfold Qdiv.
  change (/ inject_Z 1)%Q with 1%Q. ring.
Qed.

Lemma funnel_start_pct_divides_by_first_count_witness :
  conversion_from_start_pct
    (compute_funnel [Event.mk 1 "signup" w1; Event.mk 2 "signup" w1; Event.mk 3 "signup" w2]
       (Some ["visit"; "signup"]%string)) !! 1%nat
  = Some (Finite 300).
Proof.
  apply (funnel_start_pct_divides_by_first_count
           [Event.mk 1 "signup" w1; Event.mk 2 "signup" w1; Event.mk 3 "signup" w2]
           (Some ["visit"; "signup"]%string) 1 0 3); reflexivity.
Defined.

Lemma funnel_prev_pct_is_relative_change_witness :
  conversion_from_prev_pct
    (compute_funnel [Event.mk 1 "visit" w1; Event.mk 2 "visit" w1; Event.mk 1 "signup" w2]
       None) !! 1%nat
  = Some (Finite (-50)).
Proof.
  apply (funnel_prev_pct_is_relative_change
           [Event.mk 1 "visit" w1; Event.mk 2 "visit" w1; Event.mk 1 "signup" w2]
           None 0 2 1); [reflexivity|reflexivity|lia].
Defined.

(** After a stage without users the relative change divides by zero: the
    cell of [conversion_from_prev_pct] is 100 (and the drop-off 0) when the
    stage has no user either, and plus infinity (drop-off minus infinity)
    when it has some. *)
Theorem funnel_prev_pct_after_empty_stage
    (events : list Event.t) (stages : option (list string)) (i : nat) (b : Z) :
  users (compute_funnel events stages) !! i = Some 0 →
  users (compute_funnel events stages) !! S i = Some b →
  0 ≤ b →
  conversion_from_prev_pct (compute_funnel events stages) !! S i
  = Some (if bool_decide (b = 0) then Finite 100 else PosInf)
  ∧ drop_off_pct_from_prev (compute_funnel events stages) !! S i
    = Some (if bool_decide (b = 0) then Finite 0 else NegInf).
Proof.
  unfold compute_funnel.
  cbn [users conversion_from_prev_pct drop_off_pct_from_prev].
  set (counts := default 0 <$> reindex _ _). intros Ha Hb Hpos.
  unfold fillna. rewrite !list_lookup_fmap.
  rewrite (pct_change_lookup_S counts i 0 b) by done.
  case_bool_decide as Hz.
  - subst b. split; vm_compute; reflexivity.
  - assert (F64.div (F64.of_int b) (F64.of_int 0) = PosInf) as ->.
    { unfold F64.div, F64.of_int. change (Qeq_bool (inject_Z 0) 0) with true.
      cbv iota. assert ((inject_Z b ?= 0)%Q = Gt) as ->; [|done].
      apply Qgt_alt. unfold Qlt. simpl. lia. }
    split; reflexivity.
Qed.

Lemma funnel_prev_pct_after_empty_stage_witness :
  conversion_from_prev_pct
    (compute_funnel [Event.mk 1 "signup" w1; Event.mk 2 "signup" w1]
       (Some ["visit"; "signup"]%string)) !! 1%nat
  = Some PosInf
  ∧ drop_off_pct_from_prev
      (compute_funnel [Event.mk 1 "signup" w1; Event.mk 2 "signup" w1]
         (Some ["visit"; "signup"]%string)) !! 1%nat
    = Some NegInf.
Proof.
  apply (funnel_prev_pct_after_empty_stage
           [Event.mk 1 "signup" w1; Event.mk 2 "signup" w1]
           (Some ["visit"; "signup"]%string) 0 2); [reflexivity|reflexivity|lia].
Defined.

Lemma stage_users_pairs (events : list Event.t) (s : string) (u : Z) :
  u ∈ stage_users events s ↔ (s, u) ∈ stage_user_pairs events.
Proof.
  unfold stage_users, stage_user_pairs.
  rewrite !elem_of_list_to_set, !list_elem_of_fmap. split.
  - intros (e & -> & [<- He]%list_elem_of_filter). by exists e.
  - intros (e & [= -> ->] & He). exists e. split; [done|]. by apply list_elem_of_filter.
Qed.

Lemma compute_funnel_pairs_ext
    (events1 events2 : list Event.t) (stages : option (list string)) :
  stage_user_pairs events1 = stage_user_pairs events2 →
  compute_funnel events1 stages = compute_funnel events2 stages.
Proof.
  intros Hpairs. unfold compute_funnel. rewrite !funnel_counts_spec.
  assert (∀ s, stage_users events1 s = stage_users events2 s) as Hst.
  { intros s. apply set_eq. intros u. by rewrite !stage_users_pairs, Hpairs. }
  assert ((λ s, Z.of_nat (size (stage_users events1 s))) <$> default default_stages stages
          = (λ s, Z.of_nat (size (stage_users events2 s))) <$> default default_stages stages)
    as ->; [|done].
  apply list_fmap_ext. intros _ s _. by rewrite Hst.
Qed.

(** The funnel depends on the events only through the set of (event type,
    user) pairs: dates, the order of the rows and repeated events of a user
    in a stage do not change any column. *)
Theorem funnel_depends_on_stage_user_pairs
    (events1 events2 : list Event.t) (stages : option (list string)) :
  stage_user_pairs events1 = stage_user_pairs events2 →
  compute_funnel events1 stages = compute_funnel events2 stages.
Proof. apply compute_funnel_pairs_ext. Qed.

Lemma funnel_depends_on_stage_user_pairs_witness :
  compute_funnel
    [Event.mk 1 "signup" w2; Event.mk 1 "visit" w1; Event.mk 1 "visit" w3] None
  = compute_funnel [Event.mk 1 "visit" w1; Event.mk 1 "signup" w1] None.
Proof.
  apply funnel_depends_on_stage_user_pairs.
  apply set_eq. intros [s u]. unfold stage_user_pairs.
  rewrite !elem_of_list_to_set. cbn. rewrite !elem_of_cons, !elem_of_nil. naive_solver.
Defined.

(** * Further properties of the revenue engine *)

Lemma round_half_even_bounds (q : Q) (a b : Z) :
  (inject_Z a <= q)%Q → (q <= inject_Z b)%Q →
  a ≤ F64.round_half_even q ≤ b.
Proof.
  intros Ha Hb. unfold F64.round_half_even.
  assert (a ≤ Qfloor q) as Hfa.
  { rewrite <- (Qfloor_Z a). by apply Qfloor_resp_le. }
  assert (Qfloor q ≤ b) as Hfb.
  { rewrite <- (Qfloor_Z b). by apply Qfloor_resp_le. }
  assert ((1 # 2 <= q - inject_Z (Qfloor q))%Q → Qfloor q + 1 ≤ b) as Hup.
  { intros Hhalf. destruct (decide (Qfloor q = b)) as [Heq|]; [|lia].
    rewrite Heq in Hhalf. exfalso. clear -Hb Hhalf.
    destruct q as [n d]. unfold Qle, Qminus, Qplus, Qopp, inject_Z in *.
    cbn in *. nia. }
  destruct (_ ?= _)%Q eqn:Hc.
  - apply Qeq_alt in Hc. destruct (Z.even _); [lia|].
    split; [lia|]. apply Hup. rewrite Hc. apply Qle_refl.
  - lia.
  - apply Qgt_alt in Hc. split; [lia|]. apply Hup. by apply Qlt_le_weak.
Qed.

Lemma round2_Q_bounds (q : Q) (a b : Z) :
  (inject_Z a <= q)%Q → (q <= inject_Z b)%Q →
  (inject_Z a <= F64.round2_Q q)%Q ∧ (F64.round2_Q q <= inject_Z b)%Q.
Proof.
  intros Ha Hb. unfold F64.round2_Q. rewrite !Qred_correct.
  destruct (round_half_even_bounds (q * 100) (a * 100) (b * 100)) as [H1 H2].
  - rewrite inject_Z_mult. apply Qmult_le_compat_r; [done|]. by vm_compute.
  - rewrite inject_Z_mult. apply Qmult_le_compat_r; [done|]. by vm_compute.
  - unfold Qle. cbn. lia.
Qed.

Lemma paid_since_subseteq (since : Timestamp) (events : list Event.t) :
  paid_since_set since events ⊆ paid_user_set events.
Proof.
  intros u. unfold paid_since_set, paid_user_set.
  rewrite !elem_of_list_to_set, !list_elem_of_fmap.
  intros (e & -> & He). exists e. split; [done|].
  apply list_elem_of_filter in He. apply list_elem_of_filter. naive_solver.
Qed.

(** [churn_rate_pct_30d] is always a finite number between 0 and 100: the
    recently paying users are among the paying users, and the division is
    guarded. *)
Theorem revenue_churn_is_a_percentage
    (now : Timestamp) (users : list User.t) (events : list Event.t)
    (plans : list Plan.t) (as_of : option Timestamp) :
  ∃ q, churn_rate_pct_30d (compute_revenue_metrics now users events plans as_of) = Finite q
       ∧ (0 <= q)%Q ∧ (q <= 100)%Q.
Proof.
  unfold compute_revenue_metrics. cbn [churn_rate_pct_30d].
  rewrite recent_paid_spec, length_unique_size.
  fold (paid_user_set events).
  pose proof (subseteq_size _ _ (paid_since_subseteq (default now as_of - timedelta_days 30)
                                  events)) as Hle.
  set (recent := size (paid_since_set _ _)) in *.
  set (paid := size (paid_user_set events)) in *.
  case_bool_decide as Hpaid.
  - rewrite div_of_int_pos by done. eexists. split; [reflexivity|].
    change 0%Q with (inject_Z 0). change 100%Q with (inject_Z 100).
    apply round2_Q_bounds; rewrite !Qred_correct.
    + unfold Qle, Qdiv, Qinv, Qmult, Qplus, Qopp. cbn.
      destruct (Z.of_nat paid) as [|p|p] eqn:Hp; [lia| |lia]. cbn. nia.
    + unfold Qle, Qdiv, Qinv, Qmult, Qplus, Qopp. cbn.
      destruct (Z.of_nat paid) as [|p|p] eqn:Hp; [lia| |lia]. cbn. nia.
  - exists 0%Q. split; [reflexivity|]. split; by vm_compute.
Qed.

Lemma revenue_merged_paid_set (users : list User.t) (events1 events2 : list Event.t)
    (plans : list Plan.t) :
  paid_user_set events1 = paid_user_set events2 →
  revenue_merged users events1 plans = revenue_merged users events2 plans.
Proof.
  intros Hset. unfold revenue_merged. f_equal. apply list_filter_iff. intros u.
  rewrite !elem_of_unique.
  rewrite <- !(elem_of_list_to_set (C:=gset Z)). fold (paid_user_set events1).
  fold (paid_user_set events2). by rewrite Hset.
Qed.

(** The summary depends on the events only through the set of users with a
    "paid" event and the set of users with a "paid" event since the start of
    the window: events of other types, the order of the rows and repeated
    payments change nothing. *)
Theorem revenue_depends_on_paid_user_sets
    (now : Timestamp) (users : list User.t) (events1 events2 : list Event.t)
    (plans : list Plan.t) (as_of : option Timestamp) :
  paid_user_set events1 = paid_user_set events2 →
  paid_since_set (default now as_of - timedelta_days 30) events1
  = paid_since_set (default now as_of - timedelta_days 30) events2 →
  compute_revenue_metrics now users events1 plans as_of
  = compute_revenue_metrics now users events2 plans as_of.
Proof.
  intros Hpaid Hsince. unfold compute_revenue_metrics.
  rewrite !recent_paid_spec, !length_unique_size.
  fold (paid_user_set events1). fold (paid_user_set events2).
  by rewrite Hpaid, Hsince, (revenue_merged_paid_set users events1 events2 plans Hpaid).
Qed.

Ltac eval_lists :=
  match goal with
  | |- list_to_set ?a = list_to_set ?b =>
      let a' := eval vm_compute in a in
      let b' := eval vm_compute in b in
      replace a with a' by (vm_compute; reflexivity);
      replace b with b' by (vm_compute; reflexivity)
  end.

Lemma revenue_depends_on_paid_user_sets_witness :
  compute_revenue_metrics 0 scenario_users
    (Event.mk 1 "visit" (date 2025 1 1) :: Event.mk 1 "paid" (date 2025 1 20) :: paid_twice)
    scenario_plans (Some (date 2025 2 1))
  = compute_revenue_metrics 0 scenario_users
      [Event.mk 1 "paid" (date 2025 1 20)] scenario_plans (Some (date 2025 2 1)).
Proof.
  apply revenue_depends_on_paid_user_sets.
  - unfold paid_user_set. eval_lists. set_solver.
  - unfold paid_since_set. eval_lists. set_solver.
Defined.

Lemma merge_left_unmatched {L R K} `{EqDecision K} (lkey : L → K) (rkey : R → K)
    (left : list L) (right : list R) :
  Forall (λ l, lkey l ∉ rkey <$> right) left →
  merge_left lkey rkey left right = (λ l, (l, None)) <$> left.
Proof.
  induction 1 as [|l left Hl _ IH]; [done|].
  unfold merge_left in *. change (l :: left) with ([l] ++ left).
  rewrite bind_app, IH, bind_singleton.
  rewrite (filter_none _ right); [done|].
  intros r Hr Hk. apply Hl. rewrite <- Hk. by apply list_elem_of_fmap_2.
Qed.

(** When some user of the users table has paid but no paying user has a plan
    of the plans table, the left join leaves every price empty: [mrr] and
    [arpu] are 0 and [avg_rev_per_paid_user], the mean of no value, is NaN. *)
Theorem revenue_without_matching_plan
    (now : Timestamp) (users : list User.t) (events : list Event.t)
    (plans : list Plan.t) (as_of : option Timestamp) (u : User.t) :
  u ∈ users → User.user_id u ∈ paid_user_set events →
  (∀ v, v ∈ users → User.user_id v ∈ paid_user_set events →
        User.plan_id v ∉ Some ∘ Plan.plan_id <$> plans) →
  mrr (compute_revenue_metrics now users events plans as_of) = Finite 0
  ∧ arpu (compute_revenue_metrics now users events plans as_of) = Finite 0
  ∧ avg_rev_per_paid_user (compute_revenue_metrics now users events plans as_of) = NaN.
Proof.
  intros Hu Hpaid Hnone. unfold compute_revenue_metrics.
  cbn [mrr arpu avg_rev_per_paid_user].
  set (payers := filter (λ v, User.user_id v ∈ unique (Event.user_id <$> filter is_paid events))
                   users).
  assert (revenue_merged users events plans = (λ l, (l, None)) <$> payers) as ->.
  { unfold revenue_merged. apply merge_left_unmatched, Forall_forall.
    intros v [Hv Hin]%list_elem_of_filter. apply Hnone; [done|].
    unfold paid_user_set. rewrite elem_of_list_to_set. by apply elem_of_unique. }
  assert (u ∈ payers) as Hin.
  { apply list_elem_of_filter. split; [|done]. apply elem_of_unique.
    unfold paid_user_set in Hpaid. by rewrite elem_of_list_to_set in Hpaid. }
  rewrite <- list_fmap_compose.
  assert (sum_skipna ((λ row : User.t * option Plan.t, Plan.price <$> row.2)
                      ∘ (λ l, (l, None)) <$> payers) = Finite (Qred 0)
          ∧ mean_skipna ((λ row : User.t * option Plan.t, Plan.price <$> row.2)
                         ∘ (λ l, (l, None)) <$> payers) = NaN) as [-> ->].
  { unfold mean_skipna, sum_skipna.
    assert (omap id ((λ row : User.t * option Plan.t, Plan.price <$> row.2)
                     ∘ (λ l, (l, None)) <$> payers) = []) as ->; [|done].
    clear. induction payers as [|v vs IH]; [done|]. cbn. exact IH. }
  split; [reflexivity|]. split.
  - rewrite bool_decide_true by (destruct users; [by apply elem_of_nil in Hu|cbn; lia]).
    apply round2_zero_div. destruct users; [by apply elem_of_nil in Hu|cbn; lia].
  - rewrite length_fmap.
    rewrite bool_decide_true; [done|].
    destruct payers; [by apply elem_of_nil in Hin|cbn; lia].
Qed.

Lemma revenue_without_matching_plan_witness :
  mrr (compute_revenue_metrics 0 scenario_users paid_twice [] None) = Finite 0
  ∧ arpu (compute_revenue_metrics 0 scenario_users paid_twice [] None) = Finite 0
  ∧ avg_rev_per_paid_user (compute_revenue_metrics 0 scenario_users paid_twice [] None)
    = NaN.
Proof.
  apply (revenue_without_matching_plan 0 scenario_users paid_twice [] None
           (User.mk 1 (date 2025 1 1) (Some 1) (Some 1))).
  - left.
  - unfold paid_user_set. rewrite elem_of_list_to_set. vm_compute. left.
  - intros v _ _. cbn. apply not_elem_of_nil.
Defined.

(** * Plan and traffic-source metrics *)

Lemma elem_of_paid_user_rows (users : list User.t) (events : list Event.t) (u : User.t) :
  u ∈ paid_user_rows users events ↔ u ∈ users ∧ User.user_id u ∈ paid_user_set events.
Proof.
  unfold paid_user_rows, paid_user_set.
  rewrite list_elem_of_fmap, elem_of_list_to_set, list_elem_of_fmap. split.
  - intros ([u' e] & -> & (Hu & He & Hid)%elem_of_merge_inner). cbn.
    split; [done|]. by exists e.
  - intros (Hu & e & Hid & He). exists (u, e). split; [done|].
    by apply elem_of_merge_inner.
Qed.

Lemma elem_of_merge_left_Some {L R K} `{EqDecision K} (lkey : L → K) (rkey : R → K)
    (left : list L) (right : list R) (l : L) (r : R) :
  (l, Some r) ∈ merge_left lkey rkey left right ↔ l ∈ left ∧ r ∈ right ∧ rkey r = lkey l.
Proof.
  unfold merge_left. rewrite list_elem_of_bind. split.
  - intros (l' & Hin & Hl').
    destruct (filter (λ r, rkey r = lkey l') right) as [|m ms] eqn:Hf.
    { apply list_elem_of_singleton in Hin. done. }
    apply list_elem_of_fmap in Hin as (r' & [= -> ->] & Hr').
    rewrite <- Hf in Hr'. apply list_elem_of_filter in Hr'. naive_solver.
  - intros (Hl & Hr & Hk). exists l. split; [|done].
    assert (r ∈ filter (λ r, rkey r = lkey l) right) as Hin
      by by apply list_elem_of_filter.
    destruct (filter (λ r, rkey r = lkey l) right) as [|m ms];
      [by apply elem_of_nil in Hin|].
    apply list_elem_of_fmap. by exists r.
Qed.

Section joined_groups.
Context {T : Type} (lk : User.t → option Z) (rk : T → Z) (nm : T → string).
Context (users : list User.t) (events : list Event.t) (right : list T).

Let merged : list (User.t * option T) :=
  merge_left lk (Some ∘ rk) (paid_user_rows users events) right.

Lemma group_users_joined_payers (name : string) :
  list_to_set ((λ row : User.t * option T, User.user_id row.1)
                 <$> filter (λ row : User.t * option T, nm <$> row.2 = Some name) merged)
  = joined_payers lk rk nm users events right name.
Proof using Type*.
  apply set_eq. intros x. unfold joined_payers.
  rewrite !elem_of_list_to_set, !list_elem_of_fmap. split.
  - intros ([u [r|]] & -> & [Hname Hin]%list_elem_of_filter); [|done].
    cbn in Hname. injection Hname as Hname.
    apply elem_of_merge_left_Some in Hin as (Hu & Hr & Hk).
    apply elem_of_paid_user_rows in Hu as [Hu Hpaid].
    exists u. split; [done|]. apply list_elem_of_filter. split; [|done].
    split; [done|]. apply Exists_exists. exists r. done.
  - intros (u & -> & [[Hpaid Hex] Hu]%list_elem_of_filter).
    apply Exists_exists in Hex as (r & Hr & Hk & Hname).
    exists (u, Some r). split; [done|]. apply list_elem_of_filter.
    split; [cbn; by rewrite Hname|].
    apply elem_of_merge_left_Some. split; [|done].
    by apply elem_of_paid_user_rows.
Qed.

Lemma group_name_joined_payers (name : string) :
  name ∈ merge_sort String.le
           (unique (omap (λ row : User.t * option T, nm <$> row.2) merged))
  ↔ joined_payers lk rk nm users events right name ≠ ∅.
Proof using Type*.
  rewrite elem_of_group_keys, <- group_users_joined_payers. split.
  - intros (row & Hrow & Hname) Hempty.
    assert (User.user_id row.1 ∈ (∅ : gset Z)) as Hin; [|set_solver].
    rewrite <- Hempty, elem_of_list_to_set. apply list_elem_of_fmap.
    exists row. split; [done|]. by apply list_elem_of_filter.
  - intros Hne.
    destruct (filter (λ row : User.t * option T, nm <$> row.2 = Some name) merged)
      as [|row rows'] eqn:Hf; [done|].
    assert (row ∈ filter (λ row : User.t * option T, nm <$> row.2 = Some name) merged)
      as Hin by (rewrite Hf; left).
    apply list_elem_of_filter in Hin as [Hname Hin]. by exists row.
Qed.
End joined_groups.

Lemma StronglySorted_group_names {A} (key : A → option string) (rows : list A) :
  StronglySorted String.le (merge_sort String.le (unique (omap key rows))).
Proof. apply (StronglySorted_merge_sort String.le). Qed.

Lemma plan_metrics_names (users : list User.t) (events : list Event.t)
    (plans : list Plan.t) :
  PlanMetrics.plan_name <$> compute_plan_metrics users events plans
  = merge_sort String.le
      (unique (omap (λ row : User.t * option Plan.t, Plan.plan_name <$> row.2)
                 (merge_left User.plan_id (Some ∘ Plan.plan_id)
                    (paid_user_rows users events) plans))).
Proof.
  unfold compute_plan_metrics, groupby. rewrite <- !list_fmap_compose.
  transitivity (id <$> merge_sort String.le
      (unique (omap (λ row : User.t * option Plan.t, Plan.plan_name <$> row.2)
                 (merge_left User.plan_id (Some ∘ Plan.plan_id)
                    (paid_user_rows users events) plans))));
    [|apply list_fmap_id].
  by apply list_fmap_ext.
Qed.

(** The plan table has one row per plan name that has at least one paying
    user of the users table, in ascending order of the names; [paid_users]
    is the number of distinct such users.  A plan nobody paid for, and users
    without a plan of the plans table, give no row. *)
Theorem plan_metrics_rows_are_plans_with_payers
    (users : list User.t) (events : list Event.t) (plans : list Plan.t) :
  StronglySorted String.le (PlanMetrics.plan_name <$> compute_plan_metrics users events plans)
  ∧ NoDup (PlanMetrics.plan_name <$> compute_plan_metrics users events plans)
  ∧ (∀ name, name ∈ PlanMetrics.plan_name <$> compute_plan_metrics users events plans
             ↔ plan_payers users events plans name ≠ ∅)
  ∧ (∀ row, row ∈ compute_plan_metrics users events plans →
            PlanMetrics.paid_users row
            = Z.of_nat (size (plan_payers users events plans (PlanMetrics.plan_name row)))).
Proof.
  rewrite plan_metrics_names.
  split; [apply StronglySorted_group_names|]. split; [apply NoDup_group_keys|].
  split; [intros name; apply group_name_joined_payers|].
  intros row Hrow. unfold compute_plan_metrics, groupby in Hrow.
  rewrite <- list_fmap_compose in Hrow.
  apply list_elem_of_fmap in Hrow as (name & -> & _). cbn.
  rewrite nunique_size. do 2 f_equal. apply group_users_joined_payers.
Qed.

Lemma source_metrics_names (users : list User.t) (events : list Event.t)
    (sources : list Source.t) :
  SourceMetrics.source_name <$> compute_source_metrics users events sources
  = merge_sort String.le
      (unique (omap (λ row : User.t * option Source.t, Source.source_name <$> row.2)
                 (merge_left User.source_id (Some ∘ Source.source_id)
                    (paid_user_rows users events) sources))).
Proof.
  unfold compute_source_metrics, groupby. rewrite <- !list_fmap_compose.
  transitivity (id <$> merge_sort String.le
      (unique (omap (λ row : User.t * option Source.t, Source.source_name <$> row.2)
                 (merge_left User.source_id (Some ∘ Source.source_id)
                    (paid_user_rows users events) sources))));
    [|apply list_fmap_id].
  by apply list_fmap_ext.
Qed.

(** The source table has one row per source name that has at least one
    paying user of the users table, in ascending order of the names, and
    [paid_users] is the number of distinct such users: repeated payments of
    a user count once. *)
Theorem source_metrics_rows_are_sources_with_payers
    (users : list User.t) (events : list Event.t) (sources : list Source.t) :
  StronglySorted String.le
    (SourceMetrics.source_name <$> compute_source_metrics users events sources)
  ∧ NoDup (SourceMetrics.source_name <$> compute_source_metrics users events sources)
  ∧ (∀ name, name ∈ SourceMetrics.source_name <$> compute_source_metrics users events sources
             ↔ source_payers users events sources name ≠ ∅)
  ∧ (∀ row, row ∈ compute_source_metrics users events sources →
            SourceMetrics.paid_users row
            = Z.of_nat (size (source_payers users events sources
                                (SourceMetrics.source_name row)))).
Proof.
  rewrite source_metrics_names.
  split; [apply StronglySorted_group_names|]. split; [apply NoDup_group_keys|].
  split; [intros name; apply group_name_joined_payers|].
  intros row Hrow. unfold compute_source_metrics, groupby in Hrow.
  rewrite <- list_fmap_compose in Hrow.
  apply list_elem_of_fmap in Hrow as (name & -> & _). cbn.
  rewrite nunique_size. do 2 f_equal. apply group_users_joined_payers.
Qed.

(** * The columns an engine reads

    Each engine depends on its tables only through the columns it reads: the
    result is the same on rows whose other fields are replaced. *)

Lemma merge_inner_fmap {L L' R R' K} `{EqDecision K} (lkey : L' → K) (rkey : R' → K)
    (f : L → L') (g : R → R') (left : list L) (right : list R) :
  merge_inner lkey rkey (f <$> left) (g <$> right)
  = prod_map f g <$> merge_inner (lkey ∘ f) (rkey ∘ g) left right.
Proof.
  unfold merge_inner. induction left as [|l left IH]; [done|].
  rewrite fmap_cons. change (f l :: (f <$> left)) with ([f l] ++ (f <$> left)).
  change (l :: left) with ([l] ++ left).
  rewrite !bind_app, !bind_singleton, fmap_app, IH. f_equal.
  rewrite filter_fmap_comm, <- !list_fmap_compose. done.
Qed.

Lemma merge_left_fmap {L L' R R' K} `{EqDecision K} (lkey : L' → K) (rkey : R' → K)
    (f : L → L') (g : R → R') (left : list L) (right : list R) :
  merge_left lkey rkey (f <$> left) (g <$> right)
  = prod_map f (fmap (M:=option) g) <$> merge_left (lkey ∘ f) (rkey ∘ g) left right.
Proof.
  unfold merge_left. induction left as [|l left IH]; [done|].
  rewrite fmap_cons. change (f l :: (f <$> left)) with ([f l] ++ (f <$> left)).
  change (l :: left) with ([l] ++ left).
  rewrite !bind_app, !bind_singleton, fmap_app, IH. f_equal.
  rewrite filter_fmap_comm. unfold compose.
  destruct (filter (λ x, rkey (g x) = lkey (f l)) right) as [|m ms]; [done|].
  rewrite fmap_cons. change (g m :: (g <$> ms)) with (g <$> m :: ms).
  rewrite <- !list_fmap_compose. done.
Qed.

Lemma omap_fmap_compose {A B C} (f : A → B) (g : B → option C) (l : list A) :
  omap g (f <$> l) = omap (g ∘ f) l.
Proof.
  induction l as [|x l IH]; [done|]. cbn. rewrite IH. done.
Qed.

Lemma groupby_fmap {A B K} `{EqDecision K} (R : relation K) `{!RelDecision R}
    (key : B → option K) (f : A → B) (rows : list A) :
  groupby R key (f <$> rows)
  = prod_map id (fmap (M:=list) f) <$> groupby R (key ∘ f) rows.
Proof.
  unfold groupby. rewrite omap_fmap_compose, <- list_fmap_compose.
  apply list_fmap_ext. intros _ k _. cbn. by rewrite filter_fmap_comm.
Qed.

Lemma groupby_ext {A K} `{EqDecision K} (R : relation K) `{!RelDecision R}
    (key key' : A → option K) (rows : list A) :
  (∀ r, key r = key' r) → groupby R key rows = groupby R key' rows.
Proof.
  intros Hk. unfold groupby.
  assert (omap key rows = omap key' rows) as ->.
  { induction rows as [|r rows IH]; [done|]. cbn. by rewrite Hk, IH. }
  apply list_fmap_ext. intros _ k _. f_equal. apply list_filter_iff.
  intros r. by rewrite Hk.
Qed.

Lemma merge_inner_ext {L R K} `{EqDecision K} (lkey lkey' : L → K) (rkey rkey' : R → K)
    (left : list L) (right : list R) :
  (∀ l, lkey l = lkey' l) → (∀ r, rkey r = rkey' r) →
  merge_inner lkey rkey left right = merge_inner lkey' rkey' left right.
Proof.
  intros Hl Hr. unfold merge_inner. apply list_bind_ext; [|done]. intros l.
  f_equal. apply list_filter_iff. intros r. by rewrite Hl, Hr.
Qed.

Lemma merge_left_ext {L R K} `{EqDecision K} (lkey lkey' : L → K) (rkey rkey' : R → K)
    (left : list L) (right : list R) :
  (∀ l, lkey l = lkey' l) → (∀ r, rkey r = rkey' r) →
  merge_left lkey rkey left right = merge_left lkey' rkey' left right.
Proof.
  intros Hl Hr. unfold merge_left. apply list_bind_ext; [|done]. intros l.
  rewrite (list_filter_iff _ (λ r, rkey' r = lkey' l)); [done|].
  intros r. by rewrite Hl, Hr.
Qed.

(** The funnel reads [event_type] and [user_id] of the events. *)
Lemma funnel_reads_type_and_user (fe : Event.t → Event.t) (events : list Event.t)
    (stages : option (list string)) :
  (∀ e, Event.user_id (fe e) = Event.user_id e) →
  (∀ e, Event.event_type (fe e) = Event.event_type e) →
  compute_funnel (fe <$> events) stages = compute_funnel events stages.
Proof.
  intros Hid Hty. apply compute_funnel_pairs_ext. unfold stage_user_pairs.
  rewrite <- list_fmap_compose. f_equal.
  apply list_fmap_ext. intros _ e _. cbn. by rewrite Hid, Hty.
Qed.

(** The cohort engine reads [user_id] and [signup_date] of the users and
    [user_id] and [event_date] of the events. *)
Lemma cohort_reads_ids_and_dates (fu : User.t → User.t) (fe : Event.t → Event.t)
    (users : list User.t) (events : list Event.t) (cohort_by : string) :
  (∀ u, User.user_id (fu u) = User.user_id u) →
  (∀ u, User.signup_date (fu u) = User.signup_date u) →
  (∀ e, Event.user_id (fe e) = Event.user_id e) →
  (∀ e, Event.event_date (fe e) = Event.event_date e) →
  compute_cohort_retention (fu <$> users) (fe <$> events) cohort_by
  = compute_cohort_retention users events cohort_by.
Proof.
  intros Hu Hs He Hd. unfold compute_cohort_retention.
  destruct (cohort_bucket cohort_by) as [bucket|]; [|done].
  assert (cohort_merged bucket (fu <$> users) (fe <$> events)
          = cohort_merged bucket users events) as ->; [|done].
  unfold cohort_merged. rewrite merge_inner_fmap, <- list_fmap_compose.
  rewrite (merge_inner_ext _ Event.user_id _ User.user_id) by done.
  apply list_fmap_ext. intros _ [e u] _. cbn. by rewrite He, Hd, Hs.
Qed.

(** The revenue engine reads [user_id] and [plan_id] of the users and
    [plan_id] and [price] of the plans. *)
Lemma revenue_reads_ids_and_price (fu : User.t → User.t) (fp : Plan.t → Plan.t)
    (now : Timestamp) (users : list User.t) (events : list Event.t)
    (plans : list Plan.t) (as_of : option Timestamp) :
  (∀ u, User.user_id (fu u) = User.user_id u) →
  (∀ u, User.plan_id (fu u) = User.plan_id u) →
  (∀ p, Plan.plan_id (fp p) = Plan.plan_id p) →
  (∀ p, Plan.price (fp p) = Plan.price p) →
  compute_revenue_metrics now (fu <$> users) events (fp <$> plans) as_of
  = compute_revenue_metrics now users events plans as_of.
Proof.
  intros Hu Hpl Hp Hprice.
  assert (revenue_merged (fu <$> users) events (fp <$> plans)
          = prod_map fu (fmap (M:=option) fp) <$> revenue_merged users events plans) as Hm.
  { unfold revenue_merged. rewrite filter_fmap_comm, merge_left_fmap. f_equal.
    rewrite (list_filter_iff _ (λ u, User.user_id u
               ∈ unique (Event.user_id <$> filter is_paid events)))
      by (intros u; by rewrite Hu).
    apply merge_left_ext; [intros u; cbn; by rewrite Hpl|intros p; cbn; by rewrite Hp]. }
  unfold compute_revenue_metrics. rewrite Hm, <- list_fmap_compose, !length_fmap.
  assert ((λ row : User.t * option Plan.t, Plan.price <$> row.2)
            ∘ prod_map fu (fmap (M:=option) fp) <$> revenue_merged users events plans
          = (λ row : User.t * option Plan.t, Plan.price <$> row.2)
              <$> revenue_merged users events plans) as ->; [|done].
  apply list_fmap_ext. intros _ [u [p|]] _; cbn; [by rewrite Hprice|done].
Qed.

Lemma groupby_nunique_fmap {A B K V} `{EqDecision K, EqDecision V}
    (R : relation K) `{!RelDecision R} (key : B → K) (val : B → V)
    (f : A → B) (rows : list A) :
  groupby_nunique R key val (f <$> rows) = groupby_nunique R (key ∘ f) (val ∘ f) rows.
Proof.
  unfold groupby_nunique. rewrite groupby_fmap, <- list_fmap_compose.
  apply list_fmap_ext. intros _ [k g] _. cbn. by rewrite <- list_fmap_compose.
Qed.

Lemma groupby_nunique_ext {A K V} `{EqDecision K, EqDecision V}
    (R : relation K) `{!RelDecision R} (key key' : A → K) (val val' : A → V)
    (rows : list A) :
  (∀ r, key r = key' r) → (∀ r, val r = val' r) →
  groupby_nunique R key val rows = groupby_nunique R key' val' rows.
Proof.
  intros Hk Hv. unfold groupby_nunique.
  rewrite (groupby_ext R (Some ∘ key) (Some ∘ key')) by (intros r; cbn; by rewrite Hk).
  apply list_fmap_ext. intros _ [k g] _. cbn. do 2 f_equal.
  apply list_fmap_ext. intros _ r _. apply Hv.
Qed.

Lemma weekly_series_reads_user_and_date (fe : Event.t → Event.t) (events : list Event.t) :
  (∀ e, Event.user_id (fe e) = Event.user_id e) →
  (∀ e, Event.event_date (fe e) = Event.event_date e) →
  weekly_series (fe <$> events) = weekly_series events.
Proof.
  intros Hid Hd. unfold weekly_series. rewrite groupby_nunique_fmap.
  rewrite (groupby_nunique_ext Z.le _ (λ e, week_start (Event.event_date e))
             _ Event.user_id events); [done| |done].
  intros e. cbn. by rewrite Hd.
Qed.

(** The growth engine never reads the users table, and for "active_users"
    it reads only [user_id] and [event_date] of the events. *)
Lemma growth_active_users_reads_user_and_date (fe : Event.t → Event.t)
    (now : Timestamp) (users users' : list User.t) (events : list Event.t) (weeks : Z) :
  (∀ e, Event.user_id (fe e) = Event.user_id e) →
  (∀ e, Event.event_date (fe e) = Event.event_date e) →
  compute_weekly_growth now users' (fe <$> events) "active_users" weeks
  = compute_weekly_growth now users events "active_users" weeks.
Proof.
  intros Hid Hd. unfold compute_weekly_growth.
  rewrite !decide_True by done. cbn [mbind outcome_bind]. do 2 f_equal.
  rewrite filter_fmap_comm.
  rewrite (list_filter_iff _ (λ e, now - timedelta_weeks weeks ≤ Event.event_date e))
    by (intros e; by rewrite Hd).
  by apply weekly_series_reads_user_and_date.
Qed.

Lemma paid_user_rows_fmap (fu : User.t → User.t) (fe : Event.t → Event.t)
    (users : list User.t) (events : list Event.t) :
  (∀ u, User.user_id (fu u) = User.user_id u) →
  (∀ e, Event.user_id (fe e) = Event.user_id e) →
  (∀ e, Event.event_type (fe e) = Event.event_type e) →
  paid_user_rows (fu <$> users) (fe <$> events) = fu <$> paid_user_rows users events.
Proof.
  intros Hu He Hty. unfold paid_user_rows.
  rewrite filter_fmap_comm, merge_inner_fmap, <- !list_fmap_compose.
  rewrite (list_filter_iff _ is_paid) by (intros e; unfold is_paid; by rewrite Hty).
  rewrite (merge_inner_ext _ User.user_id _ Event.user_id) by done.
  by apply list_fmap_ext.
Qed.

Lemma merge_left_fmap_l {L L' R K} `{EqDecision K} (lkey : L' → K) (rkey : R → K)
    (f : L → L') (left : list L) (right : list R) :
  merge_left lkey rkey (f <$> left) right
  = prod_map f id <$> merge_left (lkey ∘ f) rkey left right.
Proof.
  unfold merge_left. induction left as [|l left IH]; [done|].
  rewrite fmap_cons. change (f l :: (f <$> left)) with ([f l] ++ (f <$> left)).
  change (l :: left) with ([l] ++ left).
  rewrite !bind_app, !bind_singleton, fmap_app, IH. f_equal. unfold compose.
  destruct (filter (λ r, rkey r = lkey (f l)) right) as [|m ms]; [done|].
  rewrite <- !list_fmap_compose. done.
Qed.

(** The plan engine reads [user_id] and [plan_id] of the users and
    [user_id] and [event_type] of the events. *)
Lemma plan_metrics_read_ids_and_type (fu : User.t → User.t) (fe : Event.t → Event.t)
    (users : list User.t) (events : list Event.t) (plans : list Plan.t) :
  (∀ u, User.user_id (fu u) = User.user_id u) →
  (∀ u, User.plan_id (fu u) = User.plan_id u) →
  (∀ e, Event.user_id (fe e) = Event.user_id e) →
  (∀ e, Event.event_type (fe e) = Event.event_type e) →
  compute_plan_metrics (fu <$> users) (fe <$> events) plans
  = compute_plan_metrics users events plans.
Proof.
  intros Hu Hpl He Hty. unfold compute_plan_metrics.
  rewrite paid_user_rows_fmap by done. rewrite merge_left_fmap_l.
  rewrite (merge_left_ext _ User.plan_id _ (Some ∘ Plan.plan_id))
    by (try done; intros u; cbn; by rewrite Hpl).
  rewrite groupby_fmap, <- list_fmap_compose.
  rewrite (groupby_ext String.le _
             (λ row : User.t * option Plan.t, Plan.plan_name <$> row.2)) by (by intros []).
  apply list_fmap_ext. intros _ [name g] _. cbn.
  rewrite <- !list_fmap_compose. f_equal.
  - f_equal. apply list_fmap_ext. intros _ [u p] _. cbn. apply Hu.
Qed.

(** The source engine reads [user_id] and [source_id] of the users and
    [user_id] and [event_type] of the events. *)
Lemma source_metrics_read_ids_and_type (fu : User.t → User.t) (fe : Event.t → Event.t)
    (users : list User.t) (events : list Event.t) (sources : list Source.t) :
  (∀ u, User.user_id (fu u) = User.user_id u) →
  (∀ u, User.source_id (fu u) = User.source_id u) →
  (∀ e, Event.user_id (fe e) = Event.user_id e) →
  (∀ e, Event.event_type (fe e) = Event.event_type e) →
  compute_source_metrics (fu <$> users) (fe <$> events) sources
  = compute_source_metrics users events sources.
Proof.
  intros Hu Hs He Hty. unfold compute_source_metrics.
  rewrite paid_user_rows_fmap by done. rewrite merge_left_fmap_l.
  rewrite (merge_left_ext _ User.source_id _ (Some ∘ Source.source_id))
    by (try done; intros u; cbn; by rewrite Hs).
  rewrite groupby_fmap, <- list_fmap_compose.
  rewrite (groupby_ext String.le _
             (λ row : User.t * option Source.t, Source.source_name <$> row.2))
    by (by intros []).
  apply list_fmap_ext. intros _ [name g] _. cbn.
  rewrite <- !list_fmap_compose. f_equal.
  f_equal. apply list_fmap_ext. intros _ [u p] _. cbn. apply Hu.
Qed.

(** * The engines on DataFrame objects and on rows

    On tables of the data model that share no column label besides the join
    key, the engine that works on DataFrame objects returns what the engine on
    rows returns. *)

Lemma all_present_Some {A B} (f : A → B) (l : list A) :
  all_present (Some ∘ f <$> l) = Ok (f <$> l).
Proof.
  unfold all_present.
  assert (mapM id (Some ∘ f <$> l) = Some (f <$> l)) as ->; [|done].
  induction l as [|x l IH]; [done|]. cbn. cbn in IH. by rewrite IH.
Qed.

Lemma read_ints {A} (name : string) (df : DataFrame) (f : A → Z) (l : list A) :
  series_get name df = Some (IntCol (Some ∘ f <$> l)) → read as_ints name df = Ok (f <$> l).
Proof. intros H. unfold read, get_column. rewrite H. cbn. apply all_present_Some. Qed.

Lemma read_times {A} (name : string) (df : DataFrame) (f : A → Timestamp) (l : list A) :
  series_get name df = Some (TimeCol (Some ∘ f <$> l)) →
  read as_times name df = Ok (f <$> l).
Proof. intros H. unfold read, get_column. rewrite H. cbn. apply all_present_Some. Qed.

Lemma read_nums {A} (name : string) (df : DataFrame) (f : A → Q) (l : list A) :
  series_get name df = Some (FloatCol (Some ∘ f <$> l)) →
  read as_nums name df = Ok (f <$> l).
Proof. intros H. unfold read, get_column. rewrite H. cbn. apply all_present_Some. Qed.

Lemma read_strs (name : string) (df : DataFrame) (l : list string) :
  series_get name df = Some (StrCol l) → read as_strs name df = Ok l.
Proof. intros H. unfold read, get_column. by rewrite H. Qed.

Lemma read_opt_ints (name : string) (df : DataFrame) (l : list (option Z)) :
  series_get name df = Some (IntCol l) → read as_opt_ints name df = Ok l.
Proof. intros H. unfold read, get_column. by rewrite H. Qed.

Lemma unread_fmap {A B C} (f : A → B) (l : list A) (x : C) :
  Frames.unread (f <$> l) x = (λ _, x) <$> l.
Proof.
  unfold Frames.unread. rewrite length_fmap.
  induction l as [|a l IH]; [done|]. cbn. by rewrite IH.
Qed.

Lemma events_rows_fmap {A} (f1 : A → Z) (f2 : A → string) (f3 : A → Timestamp)
    (l : list A) :
  Frames.events_rows (f1 <$> l) (f2 <$> l) (f3 <$> l)
  = (λ x, Event.mk (f1 x) (f2 x) (f3 x)) <$> l.
Proof.
  unfold Frames.events_rows. induction l as [|a l IH]; [done|]. cbn. by rewrite <- IH.
Qed.

Lemma users_rows_fmap {A} (f1 : A → Z) (f2 : A → Timestamp) (f3 f4 : A → option Z)
    (l : list A) :
  Frames.users_rows (f1 <$> l) (f2 <$> l) (f3 <$> l) (f4 <$> l)
  = (λ x, User.mk (f1 x) (f2 x) (f3 x) (f4 x)) <$> l.
Proof.
  unfold Frames.users_rows. induction l as [|a l IH]; [done|]. cbn. by rewrite <- IH.
Qed.

Lemma plans_rows_fmap {A} (f1 : A → Z) (f2 : A → string) (f3 : A → Q) (l : list A) :
  Frames.plans_rows (f1 <$> l) (f2 <$> l) (f3 <$> l)
  = (λ x, Plan.mk (f1 x) (f2 x) (f3 x)) <$> l.
Proof.
  unfold Frames.plans_rows. induction l as [|a l IH]; [done|]. cbn. by rewrite <- IH.
Qed.

Lemma sources_rows_fmap {A} (f1 : A → Z) (f2 : A → string) (l : list A) :
  Frames.sources_rows (f1 <$> l) (f2 <$> l) = (λ x, Source.mk (f1 x) (f2 x)) <$> l.
Proof.
  unfold Frames.sources_rows. induction l as [|a l IH]; [done|]. cbn. by rewrite <- IH.
Qed.

Lemma events_eta (events : list Event.t) :
  (λ e, Event.mk (Event.user_id e) (Event.event_type e) (Event.event_date e)) <$> events
  = events.
Proof.
  transitivity (id <$> events); [|apply list_fmap_id].
  apply list_fmap_ext. by intros _ [] _.
Qed.

Lemma plans_eta (plans : list Plan.t) :
  (λ p, Plan.mk (Plan.plan_id p) (Plan.plan_name p) (Plan.price p)) <$> plans = plans.
Proof.
  transitivity (id <$> plans); [|apply list_fmap_id].
  apply list_fmap_ext. by intros _ [] _.
Qed.

Lemma sources_eta (sources : list Source.t) :
  (λ s, Source.mk (Source.source_id s) (Source.source_name s)) <$> sources = sources.
Proof.
  transitivity (id <$> sources); [|apply list_fmap_id].
  apply list_fmap_ext. by intros _ [] _.
Qed.

Lemma run_alloc {A} (df : DataFrame) (k : nat → Frames.M A) (h : Frames.store) :
  (Frames.alloc df ≫= k) h = k (length h) (h ++ [df]).
Proof. reflexivity. Qed.

Lemma lookup_after_alloc (h : Frames.store) (r : nat) (df new : DataFrame) :
  h !! r = Some df → (h ++ [new]) !! r = Some df.
Proof. intros Hr. by apply lookup_app_l_Some. Qed.

Lemma lookup_after_alloc_assign (h : Frames.store) (r : nat) (df new : DataFrame)
    (f : DataFrame → DataFrame) :
  h !! r = Some df → alter f (length h) (h ++ [new]) !! r = Some df.
Proof.
  intros Hr. rewrite list_lookup_alter_ne.
  - by apply lookup_app_l_Some.
  - apply lookup_lt_Some in Hr. lia.
Qed.

Lemma read_merged_right {A} (view : column → outcome A) (name : string)
    (left right : DataFrame) (c : column) :
  series_get name left = None → series_get name right = Some c →
  read_merged view name left right = view c.
Proof. intros Hl Hr. unfold read_merged, merged_column. by rewrite Hl, Hr. Qed.

Lemma merged_column_left (name : string) (left right : DataFrame) (c : column) :
  series_get name left = Some c → series_get name right = None →
  merged_column name left right = Ok (FromLeft, c).
Proof. intros Hl Hr. unfold merged_column. by rewrite Hl, Hr. Qed.

Lemma frames_funnel_on_table
    (h : Frames.store) (events_df : nat) (de : DataFrame) (events : list Event.t)
    (stages : option (list string)) :
  h !! events_df = Some de → is_events_table de events →
  Frames.compute_funnel events_df stages h = (Ok (compute_funnel events stages), h).
Proof.
  intros He (Hid & Hty & _). unfold Frames.compute_funnel.
  rewrite run_load, He. change (default [] (Some de)) with de.
  rewrite (read_strs _ _ _ Hty), run_lift_Ok, (read_ints _ _ _ _ Hid), run_lift_Ok.
  rewrite unread_fmap, events_rows_fmap.
  rewrite (funnel_reads_type_and_user
             (λ e, Event.mk (Event.user_id e) (Event.event_type e) 0)) by done.
  reflexivity.
Qed.

Lemma frames_revenue_on_tables
    (h : Frames.store) (now : Timestamp) (users_df events_df plans_df : nat)
    (du de dp : DataFrame) (users : list User.t) (events : list Event.t)
    (plans : list Plan.t) (as_of : option Timestamp) :
  h !! users_df = Some du → h !! events_df = Some de → h !! plans_df = Some dp →
  is_users_table du users → is_events_table de events → is_plans_table dp plans →
  series_get "price"%string du = None →
  (Frames.compute_revenue_metrics now users_df events_df plans_df as_of h).1
  = Ok (compute_revenue_metrics now users events plans as_of).
Proof.
  intros Hu He Hp (Huid & _ & Hupl & _) (Heid & Hty & Hdate) (Hpid & _ & Hprice) Nprice.
  unfold Frames.compute_revenue_metrics.
  rewrite run_load, He. change (default [] (Some de)) with de.
  rewrite (read_strs _ _ _ Hty), run_lift_Ok, run_alloc.
  rewrite (read_ints _ _ _ _ Heid), run_lift_Ok.
  rewrite run_load, (lookup_after_alloc _ _ _ _ Hu). change (default [] (Some du)) with du.
  rewrite (read_ints _ _ _ _ Huid), run_lift_Ok.
  rewrite run_load, (lookup_after_alloc _ _ _ _ Hp). change (default [] (Some dp)) with dp.
  rewrite (read_opt_ints _ _ _ Hupl), run_lift_Ok.
  rewrite (read_ints _ _ _ _ Hpid), run_lift_Ok.
  assert (merged_column "price" du dp
          = Ok (FromRight, FloatCol (Some ∘ Plan.price <$> plans))) as ->
    by (unfold merged_column; by rewrite Nprice, Hprice).
  cbn [from_right]. rewrite run_lift_Ok. cbn [as_nums].
  rewrite all_present_Some, run_lift_Ok.
  rewrite (read_times _ _ _ _ Hdate), run_lift_Ok.
  rewrite !unread_fmap, users_rows_fmap, plans_rows_fmap, events_rows_fmap, events_eta.
  cbn [fst mret Frames.M_ret]. f_equal.
  by apply (revenue_reads_ids_and_price
              (λ u, User.mk (User.user_id u) 0 (User.plan_id u) None)
              (λ p, Plan.mk (Plan.plan_id p) "" (Plan.price p))).
Qed.

Lemma select_two_columns (n1 n2 : string) (df : DataFrame) (c1 c2 : column) :
  series_get n1 df = Some c1 → series_get n2 df = Some c2 →
  select_columns [n1; n2] df = Ok [(n1, c1); (n2, c2)].
Proof.
  intros H1 H2. unfold select_columns, get_column. cbn. by rewrite H1, H2.
Qed.

Lemma frames_cohort_on_tables
    (h : Frames.store) (users_df events_df : nat) (du de : DataFrame)
    (users : list User.t) (events : list Event.t) (cohort_by : string) :
  h !! users_df = Some du → h !! events_df = Some de →
  is_users_table du users → is_events_table de events →
  (Frames.compute_cohort_retention users_df events_df cohort_by h).1
  = compute_cohort_retention users events cohort_by.
Proof.
  intros Hu He (Huid & Hsign & _ & _) (Heid & _ & Hdate).
  unfold Frames.compute_cohort_retention.
  rewrite run_load, Hu. change (default [] (Some du)) with du.
  rewrite (select_two_columns _ _ _ _ _ Huid Hsign), run_lift_Ok, run_alloc.
  destruct (cohort_bucket cohort_by) as [bucket|] eqn:Hb.
  2:{ rewrite run_lift_Raise. unfold compute_cohort_retention. by rewrite Hb. }
  rewrite run_lift_Ok.
  rewrite (read_times "signup_date" _ User.signup_date users) by reflexivity.
  rewrite run_lift_Ok, run_assign.
  rewrite run_load, (lookup_after_alloc_assign _ _ _ _ _ He).
  change (default [] (Some de)) with de.
  rewrite (select_two_columns _ _ _ _ _ Heid Hdate), run_lift_Ok, run_alloc.
  rewrite (read_ints "user_id" [("user_id", _); ("event_date", _)]%string
             Event.user_id events) by reflexivity.
  rewrite run_lift_Ok.
  rewrite (read_ints "user_id" [("user_id", _); ("signup_date", _)]%string
             User.user_id users) by reflexivity.
  rewrite run_lift_Ok.
  rewrite (read_times "event_date" _ Event.event_date events) by reflexivity.
  rewrite run_lift_Ok.
  rewrite !unread_fmap, users_rows_fmap, events_rows_fmap.
  rewrite run_alloc, run_assign. cbn [fst Frames.lift].
  by apply (cohort_reads_ids_and_dates
              (λ u, User.mk (User.user_id u) (User.signup_date u) None None)
              (λ e, Event.mk (Event.user_id e) "" (Event.event_date e))).
Qed.

Lemma frames_growth_on_table
    (h : Frames.store) (now : Timestamp) (users_df events_df : nat) (de : DataFrame)
    (users : list User.t) (events : list Event.t) (metric : string) (weeks : Z) :
  h !! events_df = Some de → is_events_table de events →
  (Frames.compute_weekly_growth now users_df events_df metric weeks h).1
  = compute_weekly_growth now users events metric weeks.
Proof.
  intros He (Heid & Hty & Hdate).
  unfold Frames.compute_weekly_growth. cbv zeta.
  rewrite run_load, He. change (default [] (Some de)) with de.
  destruct (decide (metric = "active_users"%string)) as [->|Hne].
  - rewrite !run_ret.
    rewrite (read_times _ _ _ _ Hdate), run_lift_Ok.
    rewrite run_alloc, run_assign.
    rewrite (read_ints _ _ _ _ Heid), run_lift_Ok.
    cbn [default fst Frames.lift].
    rewrite unread_fmap, events_rows_fmap.
    by apply (growth_active_users_reads_user_and_date
                (λ e, Event.mk (Event.user_id e) "" (Event.event_date e))).
  - destruct (metric_map !! metric) as [evt|] eqn:Hm.
    2:{ rewrite run_lift_Raise. unfold compute_weekly_growth.
        rewrite decide_False by done. by rewrite Hm. }
    rewrite run_ret.
    rewrite run_bind, (read_strs _ _ _ Hty), run_lift_Ok.
    change ((mret (Some (Event.event_type <$> events)) : Frames.M _) h)
      with (Ok (Some (Event.event_type <$> events)), h).
    cbv iota beta.
    rewrite (read_times _ _ _ _ Hdate), run_lift_Ok.
    rewrite run_alloc, run_assign.
    rewrite (read_ints _ _ _ _ Heid), run_lift_Ok.
    cbn [default fst Frames.lift]. unfold id.
    rewrite events_rows_fmap, events_eta. reflexivity.
Qed.

Lemma frames_plan_metrics_on_tables
    (h : Frames.store) (users_df events_df plans_df : nat)
    (du de dp : DataFrame) (users : list User.t) (events : list Event.t)
    (plans : list Plan.t) :
  h !! users_df = Some du → h !! events_df = Some de → h !! plans_df = Some dp →
  is_users_table du users → is_events_table de events → is_plans_table dp plans →
  series_get "plan_name"%string du = None → series_get "price"%string du = None →
  series_get "user_id"%string dp = None →
  (Frames.compute_plan_metrics users_df events_df plans_df h).1
  = Ok (compute_plan_metrics users events plans).
Proof.
  intros Hu He Hp (Huid & _ & Hupl & _) (Heid & Hty & _) (Hpid & Hname & Hprice)
    Nname Nprice Nuid.
  unfold Frames.compute_plan_metrics.
  rewrite run_load, He. change (default [] (Some de)) with de.
  rewrite (read_strs _ _ _ Hty), run_lift_Ok, run_alloc.
  rewrite (read_ints _ _ _ _ Heid), run_lift_Ok.
  rewrite run_load, (lookup_after_alloc _ _ _ _ Hu). change (default [] (Some du)) with du.
  rewrite (read_ints _ _ _ _ Huid), run_lift_Ok.
  rewrite run_load, (lookup_after_alloc _ _ _ _ Hp). change (default [] (Some dp)) with dp.
  rewrite (read_opt_ints _ _ _ Hupl), run_lift_Ok.
  rewrite (read_ints _ _ _ _ Hpid), run_lift_Ok.
  rewrite (read_merged_right as_strs _ _ _ _ Nname Hname). cbn [as_strs].
  rewrite run_lift_Ok, (merged_column_left _ _ _ _ Huid Nuid), run_lift_Ok.
  rewrite (read_merged_right as_nums _ _ _ _ Nprice Hprice). cbn [as_nums].
  rewrite all_present_Some, run_lift_Ok.
  rewrite !unread_fmap, users_rows_fmap, plans_rows_fmap, events_rows_fmap, plans_eta.
  cbn [fst mret Frames.M_ret]. f_equal.
  by apply (plan_metrics_read_ids_and_type
              (λ u, User.mk (User.user_id u) 0 (User.plan_id u) None)
              (λ e, Event.mk (Event.user_id e) (Event.event_type e) 0)).
Qed.

Lemma frames_source_metrics_on_tables
    (h : Frames.store) (users_df events_df sources_df : nat)
    (du de ds : DataFrame) (users : list User.t) (events : list Event.t)
    (sources : list Source.t) :
  h !! users_df = Some du → h !! events_df = Some de → h !! sources_df = Some ds →
  is_users_table du users → is_events_table de events → is_sources_table ds sources →
  series_get "source_name"%string du = None → series_get "user_id"%string ds = None →
  (Frames.compute_source_metrics users_df events_df sources_df h).1
  = Ok (compute_source_metrics users events sources).
Proof.
  intros Hu He Hs (Huid & _ & _ & Husrc) (Heid & Hty & _) (Hsid & Hname) Nname Nuid.
  unfold Frames.compute_source_metrics.
  rewrite run_load, He. change (default [] (Some de)) with de.
  rewrite (read_strs _ _ _ Hty), run_lift_Ok, run_alloc.
  rewrite (read_ints _ _ _ _ Heid), run_lift_Ok.
  rewrite run_load, (lookup_after_alloc _ _ _ _ Hu). change (default [] (Some du)) with du.
  rewrite (read_ints _ _ _ _ Huid), run_lift_Ok.
  rewrite run_load, (lookup_after_alloc _ _ _ _ Hs). change (default [] (Some ds)) with ds.
  rewrite (read_opt_ints _ _ _ Husrc), run_lift_Ok.
  rewrite (read_ints _ _ _ _ Hsid), run_lift_Ok.
  rewrite (read_merged_right as_strs _ _ _ _ Nname Hname). cbn [as_strs].
  rewrite run_lift_Ok, (merged_column_left _ _ _ _ Huid Nuid), run_lift_Ok.
  rewrite !unread_fmap, users_rows_fmap, sources_rows_fmap, events_rows_fmap, sources_eta.
  cbn [fst mret Frames.M_ret]. f_equal.
  by apply (source_metrics_read_ids_and_type
              (λ u, User.mk (User.user_id u) 0 None (User.source_id u))
              (λ e, Event.mk (Event.user_id e) (Event.event_type e) 0)).
Qed.

(** * The runner on uploaded tables *)

Lemma run_bind_fst {A B} (m : Frames.M A) (k : A → Frames.M B) (h : Frames.store) :
  ((m ≫= k) h).1
  = match (m h).1 with Ok a => (k a (m h).2).1 | Raise e => Raise e end.
Proof. rewrite run_bind. by destruct (m h) as [[a|e] h']. Qed.

Lemma all_metrics_on_tables
    (h : Frames.store) (now : Timestamp) (u e p s : nat) (du de dp ds : DataFrame)
    (users : list User.t) (events : list Event.t) (plans : list Plan.t)
    (sources : list Source.t) :
  h !! u = Some du → h !! e = Some de → h !! p = Some dp → h !! s = Some ds →
  is_users_table du users → is_events_table de events →
  is_plans_table dp plans → is_sources_table ds sources →
  series_get "price"%string du = None → series_get "plan_name"%string du = None →
  series_get "source_name"%string du = None →
  series_get "user_id"%string dp = None → series_get "user_id"%string ds = None →
  (Frames.all_metrics now u e p s h).1 = all_metrics_rows now users events plans sources.
Proof.
  intros Hu He Hp Hs Tu Te Tp Ts Nprice Nplan Nsource Nuidp Nuids.
  unfold Frames.all_metrics, all_metrics_rows.
  rewrite run_bind, (frames_funnel_on_table h e de events None He Te).
  rewrite run_bind_fst, (frames_revenue_on_tables h now u e p du de dp users events plans None)
    by done.
  pose proof (keeps_prefix h _ _ (keeps_compute_revenue_metrics h now u e p None)) as Hpre1.
  set (h1 := (Frames.compute_revenue_metrics now u e p None h).2) in *.
  rewrite run_bind_fst, (frames_cohort_on_tables h1 u e du de users events "week")
    by eauto using prefix_lookup_Some.
  destruct (compute_cohort_retention users events "week") as [cohort_df|ex]; [|done].
  pose proof (keeps_prefix h1 _ _ (keeps_compute_cohort_retention h1 u e "week")) as Hpre2.
  set (h2 := (Frames.compute_cohort_retention u e "week" h1).2) in *.
  assert (h `prefix_of` h2) as Hh2 by (by etrans).
  rewrite run_bind_fst,
    (frames_growth_on_table h2 now u e de users events "signups" 12)
    by eauto using prefix_lookup_Some.
  destruct (compute_weekly_growth now users events "signups" 12) as [growth_df|ex]; [|done].
  pose proof (keeps_prefix h2 _ _ (keeps_compute_weekly_growth h2 now u e "signups" 12))
    as Hpre3.
  set (h3 := (Frames.compute_weekly_growth now u e "signups" 12 h2).2) in *.
  assert (h `prefix_of` h3) as Hh3 by (by etrans).
  rewrite run_bind_fst,
    (frames_plan_metrics_on_tables h3 u e p du de dp users events plans)
    by eauto using prefix_lookup_Some.
  pose proof (keeps_prefix h3 _ _ (keeps_compute_plan_metrics h3 u e p)) as Hpre4.
  set (h4 := (Frames.compute_plan_metrics u e p h3).2) in *.
  assert (h `prefix_of` h4) as Hh4 by (by etrans).
  rewrite run_bind_fst,
    (frames_source_metrics_on_tables h4 u e s du de ds users events sources)
    by eauto using prefix_lookup_Some.
  reflexivity.
Qed.

Lemma lookup_alter_set_column (h : Frames.store) (r r' : nat) (name : string)
    (col : column) (d : DataFrame) :
  h !! r = Some d →
  ∃ d', alter (set_column name col) r' h !! r = Some d'
        ∧ (∀ n, n ≠ name → series_get n d' = series_get n d)
        ∧ (r = r' → series_get name d' = Some col).
Proof.
  intros Hr. destruct (decide (r = r')) as [->|Hne].
  - exists (set_column name col d). rewrite list_lookup_alter_eq, Hr.
    split; [done|]. split.
    + intros n Hn. by apply series_get_set_column_ne.
    + intros _. apply series_get_set_column_eq.
  - exists d. rewrite list_lookup_alter_ne by done. done.
Qed.

Lemma series_get_Some_label (name : string) (df : DataFrame) (c : column) :
  series_get name df = Some c → name ∈ column_labels df.
Proof.
  intros Hc. destruct (decide (name ∈ column_labels df)) as [|Hn]; [done|].
  apply (series_get_None name df) in Hn. congruence.
Qed.

Lemma not_shared_left (key : string) (left right : DataFrame) (name : string) (c : column) :
  shares_only key left right → series_get name right = Some c → name ≠ key →
  series_get name left = None.
Proof.
  intros Hsh Hc Hne. apply series_get_None. intros Hin. apply Hne, Hsh; [done|].
  by eapply series_get_Some_label.
Qed.

Lemma not_shared_right (key : string) (left right : DataFrame) (name : string) (c : column) :
  shares_only key left right → series_get name left = Some c → name ≠ key →
  series_get name right = None.
Proof.
  intros Hsh Hc Hne. apply series_get_None. intros Hin. apply Hne, Hsh; [|done].
  by eapply series_get_Some_label.
Qed.

Lemma runner_on_uploads
    (to_datetime : column → column) (now : Timestamp) (data_dict : gmap string nat)
    (h : Frames.store) (u e p s : nat) (du de dp ds : DataFrame)
    (users : list User.t) (events : list Event.t) (plans : list Plan.t)
    (sources : list Source.t) :
  data_dict !! "users"%string = Some u → data_dict !! "events"%string = Some e →
  data_dict !! "plans"%string = Some p → data_dict !! "sources"%string = Some s →
  h !! u = Some du → h !! e = Some de → h !! p = Some dp → h !! s = Some ds →
  is_users_upload to_datetime du users → is_events_upload to_datetime de events →
  is_plans_table dp plans → is_sources_table ds sources →
  shares_only "plan_id" du dp → shares_only "source_id" du ds →
  (Frames.run_all_metrics_from_csv to_datetime now data_dict h).1
  = all_metrics_rows now users events plans sources.
Proof.
  intros Du De Dp Ds Hu He Hp Hs (Uid & (c1 & Hc1 & Htd1) & Upl & Usrc)
    (Eid & Ety & (c2 & Hc2 & Htd2)) (Pid & Pname & Pprice) (Sid & Sname) Splan Ssource.
  assert (series_get "price" du = None) as Nprice
    by (by apply (not_shared_left "plan_id" du dp "price" _ Splan Pprice)).
  assert (series_get "plan_name" du = None) as Nplan
    by (by apply (not_shared_left "plan_id" du dp "plan_name" _ Splan Pname)).
  assert (series_get "source_name" du = None) as Nsource
    by (by apply (not_shared_left "source_id" du ds "source_name" _ Ssource Sname)).
  assert (series_get "user_id" dp = None) as Nuidp
    by (by apply (not_shared_right "plan_id" du dp "user_id" _ Splan Uid)).
  assert (series_get "user_id" ds = None) as Nuids
    by (by apply (not_shared_right "source_id" du ds "user_id" _ Ssource Uid)).
  unfold Frames.run_all_metrics_from_csv, Frames.dict_get.
  rewrite Du, run_lift_Ok, De, run_lift_Ok, Dp, run_lift_Ok, Ds, run_lift_Ok.
  assert (get_column "signup_date" (default [] (h !! u)) = Ok c1) as G1
    by (rewrite Hu; unfold get_column; cbn; by rewrite Hc1).
  rewrite run_load, G1, run_lift_Ok, run_assign. set (h1 := alter _ u h).
  destruct (lookup_alter_set_column h u u "signup_date" (to_datetime c1) du Hu)
    as (du1 & Hu1 & Ku1 & Su1).
  destruct (lookup_alter_set_column h e u "signup_date" (to_datetime c1) de He)
    as (de1 & He1 & Ke1 & _).
  destruct (lookup_alter_set_column h p u "signup_date" (to_datetime c1) dp Hp)
    as (dp1 & Hp1 & Kp1 & _).
  destruct (lookup_alter_set_column h s u "signup_date" (to_datetime c1) ds Hs)
    as (ds1 & Hs1 & Ks1 & _).
  fold h1 in Hu1, He1, Hp1, Hs1.
  assert (get_column "event_date" (default [] (h1 !! e)) = Ok c2) as G2
    by (rewrite He1; unfold get_column; cbn; rewrite Ke1 by done; by rewrite Hc2).
  rewrite run_load, G2, run_lift_Ok, run_assign. set (h2 := alter _ e h1).
  destruct (lookup_alter_set_column h1 u e "event_date" (to_datetime c2) du1 Hu1)
    as (du2 & Hu2 & Ku2 & _).
  destruct (lookup_alter_set_column h1 e e "event_date" (to_datetime c2) de1 He1)
    as (de2 & He2 & Ke2 & Se2).
  destruct (lookup_alter_set_column h1 p e "event_date" (to_datetime c2) dp1 Hp1)
    as (dp2 & Hp2 & Kp2 & _).
  destruct (lookup_alter_set_column h1 s e "event_date" (to_datetime c2) ds1 Hs1)
    as (ds2 & Hs2 & Ks2 & _).
  fold h2 in Hu2, He2, Hp2, Hs2.
  apply (all_metrics_on_tables h2 now u e p s du2 de2 dp2 ds2); try done.
  - repeat split.
    + by rewrite Ku2, Ku1.
    + by rewrite Ku2, Su1, Htd1.
    + by rewrite Ku2, Ku1.
    + by rewrite Ku2, Ku1.
  - repeat split.
    + by rewrite Ke2, Ke1.
    + by rewrite Ke2, Ke1.
    + by rewrite Se2, Htd2.
  - repeat split; by rewrite Kp2, Kp1.
  - repeat split; by rewrite Ks2, Ks1.
  - by rewrite Ku2, Ku1.
  - by rewrite Ku2, Ku1.
  - by rewrite Ku2, Ku1.
  - by rewrite Kp2, Kp1.
  - by rewrite Ks2, Ks1.
Qed.



Lemma series_get_after_assign (h : Frames.store) (r r' : nat) (name n : string)
    (col : column) :
  n ≠ name →
  series_get n (default [] (alter (set_column name col) r' h !! r))
  = series_get n (default [] (h !! r)).
Proof.
  intros Hn. destruct (decide (r = r')) as [->|Hne].
  - rewrite list_lookup_alter_eq. destruct (h !! r') as [d|]; [|done].
    cbn. by apply series_get_set_column_ne.
  - by rewrite list_lookup_alter_ne.
Qed.

(** A date column that is missing makes the CSV runner raise the [KeyError]
    of the column access.  Without [signup_date] in the users table nothing
    has been changed; without [event_date] in the events table the users
    table has already received its converted [signup_date] column when the
    exception is raised. *)
Theorem runner_missing_date_column_raises_KeyError
    (to_datetime : column → column) (now : Timestamp) (data_dict : gmap string nat)
    (h : Frames.store) (u e p s : nat) :
  data_dict !! "users"%string = Some u → data_dict !! "events"%string = Some e →
  data_dict !! "plans"%string = Some p → data_dict !! "sources"%string = Some s →
  (series_get "signup_date"%string (default [] (h !! u)) = None →
   Frames.run_all_metrics_from_csv to_datetime now data_dict h
   = (Raise (KeyError "signup_date"), h))
  ∧ (∀ c, series_get "signup_date"%string (default [] (h !! u)) = Some c →
          series_get "event_date"%string (default [] (h !! e)) = None →
          Frames.run_all_metrics_from_csv to_datetime now data_dict h
          = (Raise (KeyError "event_date"),
             alter (set_column "signup_date" (to_datetime c)) u h)).
Proof.
  intros Du De Dp Ds.
  unfold Frames.run_all_metrics_from_csv, Frames.dict_get.
  rewrite Du, run_lift_Ok, De, run_lift_Ok, Dp, run_lift_Ok, Ds, run_lift_Ok.
  rewrite run_load. split.
  - intros Hnone.
    assert (get_column "signup_date" (default [] (h !! u)) = Raise (KeyError "signup_date"))
      as G1 by (unfold get_column; by rewrite Hnone).
    by rewrite G1, run_lift_Raise.
  - intros c Hc Hnone.
    assert (get_column "signup_date" (default [] (h !! u)) = Ok c) as G1
      by (unfold get_column; by rewrite Hc).
    rewrite G1, run_lift_Ok, run_assign, run_load.
    assert (get_column "event_date"
              (default [] (alter (set_column "signup_date" (to_datetime c)) u h !! e))
            = Raise (KeyError "event_date")) as G2
      by (unfold get_column; rewrite series_get_after_assign by done; by rewrite Hnone).
    by rewrite G2, run_lift_Raise.
Qed.

Lemma runner_missing_date_column_raises_KeyError_witness :
  Frames.run_all_metrics_from_csv to_datetime_iso (date 2025 2 1) csv_dict
    [users_csv; events_without_date; plans_csv; sources_csv]
  = (Raise (KeyError "event_date"),
     alter (set_column "signup_date" (to_datetime_iso (StrCol ["2025-01-01"]%string)))
       0%nat [users_csv; events_without_date; plans_csv; sources_csv]).
Proof.
  destruct (runner_missing_date_column_raises_KeyError to_datetime_iso (date 2025 2 1)
              csv_dict [users_csv; events_without_date; plans_csv; sources_csv]
              0 1 2 3) as [_ Hev].
  - vm_compute. reflexivity.
  - vm_compute. reflexivity.
  - vm_compute. reflexivity.
  - vm_compute. reflexivity.
  - apply Hev; reflexivity.
Defined.

(** * The database runner *)

Lemma run_db_bind {A B} (m : Db.M A) (k : A → Db.M B) (w : Db.session) :
  (m ≫= k) w = match m w with
               | (Db.Done a, w') => k a w'
               | (Db.Failed e, w') => (Db.Failed e, w')
               end.
Proof. reflexivity. Qed.

Lemma quiet_ret {A} (a : A) : quiet (mret a : Db.M A).
Proof. by intros w. Qed.

Lemma quiet_bind {A B} (m : Db.M A) (k : A → Db.M B) :
  quiet m → (∀ a, quiet (k a)) → quiet (m ≫= k).
Proof.
  intros Hm Hk w. rewrite run_db_bind. destruct (Hm w) as [Hc Hp].
  destruct (m w) as [[a|e] w']; cbn in *.
  - destruct (Hk a w') as [Hc' Hp']. split; congruence.
  - done.
Qed.

Lemma quiet_query (db : Db.env) (q : string) : quiet (Db.query db q).
Proof. intros w. unfold Db.query. by destruct (Db.read_sql db q). Qed.

Lemma quiet_run_frames {A} (m : Frames.M A) : quiet (Db.run_frames m).
Proof. intros w. unfold Db.run_frames. by destruct (m (Db.frames w)) as [[a|e] h]. Qed.

Lemma quiet_fetch_and_compute (to_datetime : column → outcome column)
    (now : Timestamp) (db : Db.env) :
  quiet (Db.fetch_and_compute to_datetime now db).
Proof.
  unfold Db.fetch_and_compute, Db.fetch_raw_data.
  repeat first [ apply quiet_bind; [|intros ?] | apply quiet_query
               | apply quiet_run_frames | apply quiet_ret ].
Qed.

(** Without a connection (the server refuses, or the connection reports
    that it is not connected) the runner raises [RuntimeError] before any
    query: no DataFrame object is created, the connection state is as it was,
    and only the error message of a refused connection is printed. *)
Theorem db_runner_without_connection
    (to_datetime : column → outcome column) (now : Timestamp) (db : Db.env)
    (w : Db.session) :
  Db.connect db ≠ Db.Connected →
  (Db.run_all_metrics to_datetime now db w).1
  = Db.Failed (Db.RuntimeError "DB connection failed")
  ∧ Db.frames (Db.run_all_metrics to_datetime now db w).2 = Db.frames w
  ∧ Db.is_connected (Db.run_all_metrics to_datetime now db w).2 = Db.is_connected w
  ∧ Db.printed (Db.run_all_metrics to_datetime now db w).2
    = Db.printed w
      ++ match Db.connect db with
         | Db.ConnectError msg => [String.append "Error: '" (String.append msg "'")]
         | _ => []
         end.
Proof.
  intros Hc. unfold Db.run_all_metrics, Db.create_connection.
  destruct (Db.connect db) as [| |msg]; [done| |]; cbn.
  - by rewrite app_nil_r.
  - done.
Qed.

Lemma db_runner_without_connection_witness :
  (Db.run_all_metrics to_datetime_strict (date 2025 2 1) unreachable_db new_session).1
  = Db.Failed (Db.RuntimeError "DB connection failed")
  ∧ Db.frames (Db.run_all_metrics to_datetime_strict (date 2025 2 1) unreachable_db
                 new_session).2 = []
  ∧ Db.is_connected (Db.run_all_metrics to_datetime_strict (date 2025 2 1)
                       unreachable_db new_session).2 = false
  ∧ Db.printed (Db.run_all_metrics to_datetime_strict (date 2025 2 1) unreachable_db
                  new_session).2
    = ["Error: '2003: Can't connect to MySQL server'"]%string.
Proof.
  apply (db_runner_without_connection to_datetime_strict (date 2025 2 1) unreachable_db
           new_session).
  discriminate.
Defined.

(** Once the connection is made it is closed when the runner ends, whatever
    the queries, the date conversion and the engines do (return, raise
    [DatabaseError], raise a [KeyError] or [ValueError]): the connection is
    not connected any more and exactly the two messages of
    [create_connection] and [close_connection] were printed. *)
Theorem db_runner_closes_connection
    (to_datetime : column → outcome column) (now : Timestamp) (db : Db.env)
    (w : Db.session) :
  Db.connect db = Db.Connected →
  Db.is_connected (Db.run_all_metrics to_datetime now db w).2 = false
  ∧ Db.printed (Db.run_all_metrics to_datetime now db w).2
    = Db.printed w ++ ["Connected to MySQL database"; "MySQL connection closed"]%string.
Proof.
  intros Hc. unfold Db.run_all_metrics, Db.create_connection. rewrite Hc.
  cbn [fst snd].
  destruct (quiet_fetch_and_compute to_datetime now db
              (Db.mkSession true (Db.printed w ++ ["Connected to MySQL database"]%string)
                 (Db.frames w))) as [Hconn Hprinted].
  cbn [Db.is_connected Db.printed] in Hconn, Hprinted.
  unfold Db.close_connection. rewrite Hconn. cbn [Db.is_connected Db.printed].
  split; [done|]. rewrite Hprinted, <- app_assoc. done.
Qed.

Lemma db_runner_closes_connection_witness :
  (Db.run_all_metrics to_datetime_strict (date 2025 2 1) empty_db new_session).1
  = Db.Failed (Db.DatabaseError "SELECT * FROM Users;")
  ∧ Db.is_connected
      (Db.run_all_metrics to_datetime_strict (date 2025 2 1) empty_db new_session).2
    = false
  ∧ Db.printed
      (Db.run_all_metrics to_datetime_strict (date 2025 2 1) empty_db new_session).2
    = ["Connected to MySQL database"; "MySQL connection closed"]%string.
Proof.
  split; [reflexivity|].
  apply (db_runner_closes_connection to_datetime_strict (date 2025 2 1) empty_db
           new_session).
  reflexivity.
Defined.
